(** * godot_interface: the process-and-protocol layer of [GodotEnvironment]

    A shallow embedding of [godot_interface/GodotEnvironment.py]: the framing
    helpers [recv_msg]/[recvall], the receive loop, request construction, the
    [reset]/[step]/[close] methods and the socket and process handling they
    rely on.  Python values are embedded as an inductive type, the instance
    fields as a record, and every method as a computation in a state and
    exception monad over the instance, the operating system and the heap of
    caller-owned dictionaries. *)

From Stdlib Require Import ZArith List Bool Lia DecimalString.
From Stdlib.Strings Require Import String Ascii Byte.
From Stdlib Require QArith.
From stdpp Require Import base option list strings gmap.

Set Warnings "-register-all".

Local Open Scope string_scope.
Local Open Scope list_scope.
Local Open Scope Z_scope.

(** ** Exceptions and outcomes *)

(** The exception classes the modelled code can raise.  The package defines
    no exception class of its own; [PackageError cls] stands for such a class
    and is constructed by none of the definitions below. *)
Inductive exn : Type :=
| AttributeError
| IndexError
| KeyError
| TypeError
| ValueError
| ZeroDivisionError
| OverflowError
| UnicodeDecodeError
| JSONDecodeError
| OSError
| SystemError
| StructError
| PackageError (cls : string).

(** What a call does: it returns, raises, or never comes back (a blocking
    call that is never served, or a loop that does not end). *)
Inductive outcome (A : Type) : Type :=
| Ok (a : A)
| Raise (e : exn)
| Diverge.

Arguments Ok {A} a.
Arguments Raise {A} e.
Arguments Diverge {A}.

(** ** Bytes and strings *)

Definition bytes := list byte.

(** [struct.unpack('>I', b)[0]] on a four-byte buffer. *)
Definition unpack_be32 (b : bytes) : option Z :=
  match b with
  | [b0; b1; b2; b3] =>
      Some (Z.lor (Z.shiftl (Z.of_N (Byte.to_N b0)) 24)
           (Z.lor (Z.shiftl (Z.of_N (Byte.to_N b1)) 16)
           (Z.lor (Z.shiftl (Z.of_N (Byte.to_N b2)) 8)
                  (Z.of_N (Byte.to_N b3)))))
  | _ => None
  end.

(** [struct.pack('>I', n)] for [0 <= n < 2^32]. *)
Definition byte_of_Z (z : Z) : byte :=
  match Byte.of_N (Z.to_N (Z.land z 255)) with
  | Some b => b
  | None => x00
  end.

Definition pack_be32 (n : Z) : bytes :=
  [byte_of_Z (Z.shiftr n 24); byte_of_Z (Z.shiftr n 16);
   byte_of_Z (Z.shiftr n 8); byte_of_Z n].

(** A Python [str] is embedded as a [string] whose characters stand for the
    code points below 256.  [str.encode()] is UTF-8. *)
Definition utf8_of_char (c : ascii) : bytes :=
  let n := Z.of_N (N_of_ascii c) in
  if n <? 128 then [byte_of_Z n]
  else [byte_of_Z (Z.lor 192 (Z.shiftr n 6)); byte_of_Z (Z.lor 128 (Z.land n 63))].

Fixpoint str_encode (s : string) : bytes :=
  match s with
  | EmptyString => []
  | String c s' => utf8_of_char c ++ str_encode s'
  end.

(** ** Python values *)

(** The operations on [float] the code relies on. *)
Class PyFloat : Type := {
  pyfloat : Type;
  (** [float(n)]; [None] stands for [OverflowError], raised for an int
      beyond the range of a float *)
  float_of_int : Z -> option pyfloat;
  (** [a / b] on two ints with [b] not zero; [None] stands for
      [OverflowError], raised for a quotient beyond the range of a float *)
  int_truediv : Z -> Z -> option pyfloat;
  (** [x / y] on two floats with [y] not zero *)
  float_truediv : pyfloat -> pyfloat -> pyfloat;
  (** [y == 0.0] *)
  float_is_zero : pyfloat -> bool;
  (** the text [json.dumps] writes for a float *)
  float_repr : pyfloat -> string
}.

Section Values.
Context {FL : PyFloat}.

(** The values [json.loads] builds and [json.dumps] accepts. *)
Inductive pyval : Type :=
| PyNone
| PyBool (b : bool)
| PyInt (z : Z)
| PyFloatV (f : pyfloat)
| PyStr (s : string)
| PyList (l : list pyval)
| PyDict (d : list (string * pyval)).

(** A value a caller may store under a key of an action dictionary: a NumPy
    integer, or a plain value. *)
Inductive argval : Type :=
| NpInteger (z : Z)
| Plain (v : pyval).

(** A [dict] keeps its keys in insertion order. *)
Fixpoint dict_get {V : Type} (d : list (string * V)) (k : string) : option V :=
  match d with
  | [] => None
  | (k', v) :: d' => if String.eqb k' k then Some v else dict_get d' k
  end.

(** [d[k] = v]: an existing key keeps its position, a new key goes last. *)
Fixpoint dict_set {V : Type} (d : list (string * V)) (k : string) (v : V)
  : list (string * V) :=
  match d with
  | [] => [(k, v)]
  | (k', v') :: d' =>
      if String.eqb k' k then (k, v) :: d' else (k', v') :: dict_set d' k v
  end.

(** [bool(v)] *)
Definition truthy (v : pyval) : bool :=
  match v with
  | PyNone => false
  | PyBool b => b
  | PyInt z => negb (z =? 0)
  | PyFloatV f => negb (float_is_zero f)
  | PyStr s => negb (String.eqb s EmptyString)
  | PyList l => match l with [] => false | _ => true end
  | PyDict d => match d with [] => false | _ => true end
  end.

(** [v[k]] with a string key. *)
Definition getitem (v : pyval) (k : string) : outcome pyval :=
  match v with
  | PyDict d => match dict_get d k with Some x => Ok x | None => Raise KeyError end
  | _ => Raise TypeError
  end.

(** [v[i]] with an int index that is not negative. *)
Definition getitem_int (v : pyval) (i : nat) : outcome pyval :=
  match v with
  | PyList l => match l !! i with Some x => Ok x | None => Raise IndexError end
  | PyStr s =>
      match String.get i s with
      | Some c => Ok (PyStr (String c EmptyString))
      | None => Raise IndexError
      end
  | PyDict _ => Raise KeyError
  | _ => Raise TypeError
  end.

(** The items a [for] loop over [v] visits. *)
Definition py_iter (v : pyval) : outcome (list pyval) :=
  match v with
  | PyList l => Ok l
  | PyDict d => Ok (map (fun kv => PyStr (fst kv)) d)
  | PyStr s => Ok (map (fun c => PyStr (String c EmptyString)) (list_ascii_of_string s))
  | _ => Raise TypeError
  end.

(** [a / b].  Two ints are divided as ints: a zero divisor is refused
    first, then a quotient too large for a float.  With a float on either
    side the int on the other side is converted first, which fails when it
    is too large for a float, and then a zero divisor is refused; an int
    divisor that is zero converts to zero, so it is tested as it is. *)
Definition py_truediv (a b : pyval) : outcome pyval :=
  let num (v : pyval) : option (Z + pyfloat) :=
    match v with
    | PyBool x => Some (inl (if x then 1 else 0))
    | PyInt z => Some (inl z)
    | PyFloatV f => Some (inr f)
    | _ => None
    end in
  match num a, num b with
  | Some (inl x), Some (inl y) =>
      if y =? 0 then Raise ZeroDivisionError
      else match int_truediv x y with
           | Some q => Ok (PyFloatV q)
           | None => Raise OverflowError
           end
  | Some (inl x), Some (inr y) =>
      match float_of_int x with
      | None => Raise OverflowError
      | Some x' =>
          if float_is_zero y then Raise ZeroDivisionError
          else Ok (PyFloatV (float_truediv x' y))
      end
  | Some (inr x), Some (inl y) =>
      if y =? 0 then Raise ZeroDivisionError
      else match float_of_int y with
           | None => Raise OverflowError
           | Some y' => Ok (PyFloatV (float_truediv x y'))
           end
  | Some (inr x), Some (inr y) =>
      if float_is_zero y then Raise ZeroDivisionError
      else Ok (PyFloatV (float_truediv x y))
  | _, _ => Raise TypeError
  end.

(** ** [json.dumps] with its default options *)

Definition hex_digit (n : Z) : ascii :=
  if n <? 10 then ascii_of_N (Z.to_N (48 + n)) else ascii_of_N (Z.to_N (87 + n)).

(** One character of a string literal ([ensure_ascii=True]). *)
Definition json_escape_char (c : ascii) : string :=
  let n := Z.of_N (N_of_ascii c) in
  if n =? 34 then String "092" (String "034" EmptyString)
  else if n =? 92 then "\\"
  else if n =? 10 then "\n"
  else if n =? 13 then "\r"
  else if n =? 9 then "\t"
  else if n =? 8 then "\b"
  else if n =? 12 then "\f"
  else if (n <? 32) || (126 <? n) then
    "\u00" +:+ String (hex_digit (Z.shiftr n 4)) (String (hex_digit (Z.land n 15)) EmptyString)
  else String c EmptyString.

Fixpoint json_escape (s : string) : string :=
  match s with
  | EmptyString => EmptyString
  | String c s' => json_escape_char c +:+ json_escape s'
  end.

Definition json_string (s : string) : string :=
  String "034" (json_escape s +:+ String "034" EmptyString).

Definition json_int (z : Z) : string := NilZero.string_of_int (Z.to_int z).

(** Items joined by [", "]. *)
Fixpoint join_items (items : list string) : string :=
  match items with
  | [] => EmptyString
  | [x] => x
  | x :: rest => x +:+ ", " +:+ join_items rest
  end.

Fixpoint json_dumps (v : pyval) : string :=
  match v with
  | PyNone => "null"
  | PyBool true => "true"
  | PyBool false => "false"
  | PyInt z => json_int z
  | PyFloatV f => float_repr f
  | PyStr s => json_string s
  | PyList l => "[" +:+ join_items (map json_dumps l) +:+ "]"
  | PyDict d =>
      "{" +:+ join_items (map (fun kv => json_string (fst kv) +:+ ": " +:+ json_dumps (snd kv)) d)
          +:+ "}"
  end.

End Values.

(** ** The library functions the code calls *)

(** [bytes.decode], [json.loads], [ast.literal_eval] and NumPy's
    [RandomState] are not part of the package; the model is parametric in
    them. *)
Class Runtime {FL : PyFloat} : Type := {
  (** [b.decode()]; [None] stands for [UnicodeDecodeError] *)
  bytes_decode : bytes -> option string;
  (** [json.loads(s)]; [None] stands for [json.JSONDecodeError] *)
  json_loads : string -> option pyval;
  (** [ast.literal_eval(s)] *)
  literal_eval : string -> outcome pyval;
  (** the state of a [np.random.RandomState] *)
  RandomState : Type;
  (** the state [np.random.RandomState(seed=s)] starts in *)
  RandomState_seeded : Z -> RandomState;
  (** [g.randint(low, high)]: the number drawn and the generator afterwards *)
  randint : RandomState -> Z -> Z -> Z * RandomState
}.

(** [np.random.RandomState(seed=s)]: NumPy refuses a seed outside
    [[0, 2^32)] with [ValueError]. *)
Definition RandomState_of_seed `{Runtime} (s : Z) : outcome RandomState :=
  if (0 <=? s) && (s <? 2 ^ 32) then Ok (RandomState_seeded s) else Raise ValueError.

(** The contract of [randint]: the number drawn lies in [[low, high)]. *)
Definition randint_in_range `{Runtime} : Prop :=
  forall (g : RandomState) (low high : Z),
    low < high -> low <= fst (randint g low high) < high.

(** ** Sockets *)

(** An accepted connection: the chunks the peer sends, one per delivery, and
    whether the peer closes the stream after the last one ([c_eof]) or keeps
    it open and silent. *)
Record conn : Type := {
  c_id : nat;
  c_inbox : list bytes;
  c_eof : bool
}.

(** One delivery of at most [bufsize] bytes; [None] when nothing is left. *)
Fixpoint inbox_recv (bufsize : nat) (inbox : list bytes) : option (bytes * list bytes) :=
  match inbox with
  | [] => None
  | [] :: rest => inbox_recv bufsize rest
  | c :: rest =>
      Some (take bufsize c,
            match drop bufsize c with [] => rest | r => r :: rest end)
  end.

(** [sock.recv(bufsize)]: blocks forever on an open silent stream, returns
    [b''] on a closed one. *)
Definition recv (sock : conn) (bufsize : nat) : outcome bytes * conn :=
  match inbox_recv bufsize (c_inbox sock) with
  | Some (packet, inbox') =>
      (Ok packet, {| c_id := c_id sock; c_inbox := inbox'; c_eof := c_eof sock |})
  | None =>
      (if c_eof sock then Ok [] else Diverge,
       {| c_id := c_id sock; c_inbox := []; c_eof := c_eof sock |})
  end.

Definition inbox_size (inbox : list bytes) : nat := length (concat inbox).

(** The [while] loop of [recvall]. *)
Fixpoint recvall_loop (fuel : nat) (sock : conn) (n : nat) (data : bytes)
  : outcome (option bytes) * conn :=
  if (length data <? n)%nat then
    match fuel with
    | O => (Diverge, sock)
    | S fuel' =>
        match recv sock (n - length data) with
        | (Ok packet, sock') =>
            match packet with
            | [] => (Ok None, sock')
            | _ => recvall_loop fuel' sock' n (data ++ packet)
            end
        | (Raise e, sock') => (Raise e, sock')
        | (Diverge, sock') => (Diverge, sock')
        end
    end
  else (Ok (Some data), sock).

(** [recvall(sock, n)].  Every turn of the loop but the last takes at least
    one byte out of the inbox, so one turn more than the inbox holds bytes is
    enough. *)
Definition recvall (sock : conn) (n : nat) : outcome (option bytes) * conn :=
  recvall_loop (S (inbox_size (c_inbox sock))) sock n [].

(** [recv_msg(sock)] *)
Definition recv_msg (sock : conn) : outcome (option bytes) * conn :=
  match recvall sock 4 with
  | (Ok raw_msglen, sock') =>
      match raw_msglen with
      | None => (Ok None, sock')
      | Some raw =>
          match unpack_be32 raw with
          | Some msglen => recvall sock' (Z.to_nat msglen)
          | None => (Raise StructError, sock')
          end
      end
  | (Raise e, sock') => (Raise e, sock')
  | (Diverge, sock') => (Diverge, sock')
  end.

(** ** The operating system *)

(** The listening socket behind [self.socket]. *)
Record listener : Type := {
  l_id : nat;
  l_bound : bool
}.

(** The [Popen] handle behind [self.godot_process]. *)
Record process : Type := {
  p_id : nat;
  p_command : string
}.

(** What the instance does to the outside, in order. *)
Inductive event : Type :=
| EvSocket (l : nat)
| EvBind (l : nat) (h : string) (p : Z)
| EvListen (l : nat)
| EvAccept (l c : nat)
| EvSendall (c : nat) (data : bytes)
| EvClose (l : nat)
| EvPopen (p : nat) (command : string)
| EvWait (p : nat).

(** [w_clients]: the peers that will connect, in order, each with what it
    sends; [w_rebind_ok]: whether [bind] on a socket that is already bound
    succeeds (on POSIX systems it fails with [EINVAL]). *)
Record world : Type := {
  w_trace : list event;
  w_clients : list (list bytes * bool);
  w_next : nat;
  w_rebind_ok : bool
}.

Definition log (e : event) (w : world) : world :=
  {| w_trace := w_trace w ++ [e]; w_clients := w_clients w;
     w_next := w_next w; w_rebind_ok := w_rebind_ok w |}.

Definition fresh (w : world) : nat * world :=
  (w_next w,
   {| w_trace := w_trace w; w_clients := w_clients w;
      w_next := S (w_next w); w_rebind_ok := w_rebind_ok w |}).

(** ** The instance, the heap and the monad of methods *)

(** A reference to a dictionary of the caller. *)
Abbreviation loc := nat (only parsing).

(** An action dictionary of the caller. *)
Abbreviation adict := (list (string * argval)) (only parsing).

Section Environment.
Context {FL : PyFloat} {RT : Runtime}.

(** [self.metrics] *)
Record metrics_t : Type := {
  regions : list pyval;
  misc : list pyval
}.

(** The fields of a [GodotEnvironment] the modelled methods read or write
    (the display and scaling options only affect printing and dead code). *)
Record session : Type := {
  host : string;
  port : Z;
  socket : option listener;
  client_socket : option conn;
  godot_path_str : string;
  env_path_str : string;
  godot_process : option process;
  is_godot_launched : bool;
  is_rendering : bool;
  seed : Z;
  random_generator : RandomState;
  metrics : metrics_t
}.

Definition set_socket (v : option listener) (s : session) : session :=
  {| host := host s; port := port s; socket := v; client_socket := client_socket s;
     godot_path_str := godot_path_str s; env_path_str := env_path_str s;
     godot_process := godot_process s; is_godot_launched := is_godot_launched s;
     is_rendering := is_rendering s; seed := seed s;
     random_generator := random_generator s; metrics := metrics s |}.

Definition set_client_socket (v : option conn) (s : session) : session :=
  {| host := host s; port := port s; socket := socket s; client_socket := v;
     godot_path_str := godot_path_str s; env_path_str := env_path_str s;
     godot_process := godot_process s; is_godot_launched := is_godot_launched s;
     is_rendering := is_rendering s; seed := seed s;
     random_generator := random_generator s; metrics := metrics s |}.

Definition set_godot_process (v : option process) (s : session) : session :=
  {| host := host s; port := port s; socket := socket s; client_socket := client_socket s;
     godot_path_str := godot_path_str s; env_path_str := env_path_str s;
     godot_process := v; is_godot_launched := is_godot_launched s;
     is_rendering := is_rendering s; seed := seed s;
     random_generator := random_generator s; metrics := metrics s |}.

Definition set_is_godot_launched (v : bool) (s : session) : session :=
  {| host := host s; port := port s; socket := socket s; client_socket := client_socket s;
     godot_path_str := godot_path_str s; env_path_str := env_path_str s;
     godot_process := godot_process s; is_godot_launched := v;
     is_rendering := is_rendering s; seed := seed s;
     random_generator := random_generator s; metrics := metrics s |}.

Definition set_is_rendering (v : bool) (s : session) : session :=
  {| host := host s; port := port s; socket := socket s; client_socket := client_socket s;
     godot_path_str := godot_path_str s; env_path_str := env_path_str s;
     godot_process := godot_process s; is_godot_launched := is_godot_launched s;
     is_rendering := v; seed := seed s;
     random_generator := random_generator s; metrics := metrics s |}.

Definition set_generator (sd : Z) (g : RandomState) (s : session) : session :=
  {| host := host s; port := port s; socket := socket s; client_socket := client_socket s;
     godot_path_str := godot_path_str s; env_path_str := env_path_str s;
     godot_process := godot_process s; is_godot_launched := is_godot_launched s;
     is_rendering := is_rendering s; seed := sd;
     random_generator := g; metrics := metrics s |}.

Definition set_metrics (v : metrics_t) (s : session) : session :=
  {| host := host s; port := port s; socket := socket s; client_socket := client_socket s;
     godot_path_str := godot_path_str s; env_path_str := env_path_str s;
     godot_process := godot_process s; is_godot_launched := is_godot_launched s;
     is_rendering := is_rendering s; seed := seed s;
     random_generator := random_generator s; metrics := v |}.

(** Everything a method can touch: the instance, the operating system and
    the caller's dictionaries, which the instance reaches by reference. *)
Record state : Type := {
  self : session;
  os : world;
  heap : gmap loc adict
}.

(** A method body: it runs from a state and leaves a state, also when it
    raises. *)
Definition M (A : Type) : Type := state -> outcome A * state.

Definition ret {A : Type} (a : A) : M A := fun st => (Ok a, st).

Definition bind {A B : Type} (m : M A) (k : A -> M B) : M B :=
  fun st =>
    match m st with
    | (Ok a, st') => k a st'
    | (Raise e, st') => (Raise e, st')
    | (Diverge, st') => (Diverge, st')
    end.

Definition raise {A : Type} (e : exn) : M A := fun st => (Raise e, st).

Definition diverge {A : Type} : M A := fun st => (Diverge, st).

(** A call of a function that touches no state. *)
Definition lift {A : Type} (o : outcome A) : M A := fun st => (o, st).

Definition get_self : M session := fun st => (Ok (self st), st).

Definition modify_self (f : session -> session) : M unit :=
  fun st => (Ok tt, {| self := f (self st); os := os st; heap := heap st |}).

Definition emit (e : event) : M unit :=
  fun st => (Ok tt, {| self := self st; os := log e (os st); heap := heap st |}).

Definition fresh_id : M nat :=
  fun st =>
    let (n, w) := fresh (os st) in
    (Ok n, {| self := self st; os := w; heap := heap st |}).

(** The same for functions that only compute. *)
Definition obind {A B : Type} (o : outcome A) (k : A -> outcome B) : outcome B :=
  match o with
  | Ok a => k a
  | Raise e => Raise e
  | Diverge => Diverge
  end.

End Environment.

Notation "'let*' x ':=' m 'in' k" := (bind m (fun x => k))
  (at level 20, x name, m at level 100, k at level 200, only parsing).
Notation "m ;;; k" := (bind m (fun _ => k))
  (at level 100, k at level 200, right associativity, only parsing).
Notation "'let!' x ':=' o 'in' k" := (obind o (fun x => k))
  (at level 20, x name, o at level 100, k at level 200, only parsing).

(** ** The methods of [GodotEnvironment] *)

Section Methods.
Context {FL : PyFloat} {RT : Runtime}.

(** [GodotEnvironment(host, port, ..., seed)], with the two paths that
    [get_godot_path] and [get_godot_package_path] find.  The generator is
    made from the seed, and the constructor raises where that does. *)
Definition __init__ (h : string) (p : Z) (godot_path env_path : string) (sd : Z)
  : outcome session :=
  match RandomState_of_seed sd with
  | Ok g =>
      Ok {| host := h; port := p; socket := None; client_socket := None;
            godot_path_str := godot_path; env_path_str := env_path;
            godot_process := None; is_godot_launched := false; is_rendering := true;
            seed := sd; random_generator := g;
            metrics := {| regions := []; misc := [] |} |}
  | Raise e => Raise e
  | Diverge => Diverge
  end.

(** [self.seed] is assigned before the generator is made, so a seed that
    NumPy refuses is kept while the generator stays the old one. *)
Definition set_seed (sd : Z) : M unit :=
  modify_self (fun s => set_generator sd (random_generator s) s) ;;;
  let* g := lift (RandomState_of_seed sd) in
  modify_self (fun s => set_generator (seed s) g s).

(** *** Connection functions *)

Definition _initialize_socket : M unit :=
  let* l := fresh_id in
  emit (EvSocket l) ;;;
  modify_self (set_socket (Some {| l_id := l; l_bound := false |})).

(** [self.socket.bind((self.host, self.port))] *)
Definition socket_bind : M unit :=
  fun st =>
    match socket (self st) with
    | None => (Raise AttributeError, st)
    | Some l =>
        if l_bound l && negb (w_rebind_ok (os st)) then (Raise OSError, st)
        else
          (emit (EvBind (l_id l) (host (self st)) (port (self st))) ;;;
           modify_self (set_socket (Some {| l_id := l_id l; l_bound := true |}))) st
    end.

(** [self.client_socket, addr = self.socket.accept()]: blocks until the next
    peer connects. *)
Definition socket_accept : M unit :=
  fun st =>
    match socket (self st) with
    | None => (Raise AttributeError, st)
    | Some l =>
        match w_clients (os st) with
        | [] => (Diverge, st)
        | (inbox, eof) :: later =>
            let w := os st in
            let c := w_next w in
            let w' := {| w_trace := w_trace w ++ [EvAccept (l_id l) c];
                         w_clients := later; w_next := S c;
                         w_rebind_ok := w_rebind_ok w |} in
            (Ok tt,
             {| self := set_client_socket
                          (Some {| c_id := c; c_inbox := inbox; c_eof := eof |}) (self st);
                os := w'; heap := heap st |})
        end
    end.

Definition _wait_for_connection : M unit :=
  let* s := get_self in
  match socket s with
  | None => raise AttributeError
  | Some _ =>
      socket_bind ;;;
      let* s' := get_self in
      match socket s' with
      | None => raise AttributeError
      | Some l => emit (EvListen (l_id l)) ;;; socket_accept
      end
  end.

Definition _end_connection : M unit :=
  let* s := get_self in
  match socket s with
  | None => raise AttributeError
  | Some l =>
      emit (EvClose (l_id l)) ;;;
      modify_self (set_socket None) ;;;
      modify_self (set_client_socket None)
  end.

(** [self.client_socket.sendall(data)]; the write is taken to go through. *)
Definition client_sendall (data : bytes) : M unit :=
  let* s := get_self in
  match client_socket s with
  | None => raise AttributeError
  | Some c => emit (EvSendall (c_id c) data)
  end.

(** [self.client_socket.recv(bufsize)] *)
Definition client_recv (bufsize : nat) : M bytes :=
  fun st =>
    match client_socket (self st) with
    | None => (Raise AttributeError, st)
    | Some c =>
        let (r, c') := recv c bufsize in
        (r, {| self := set_client_socket (Some c') (self st);
               os := os st; heap := heap st |})
    end.

(** The [while] loop of [_wait_and_receive_states_data]: a delivery of at
    most four bytes is dropped, a longer one is kept, and the first kept
    delivery shorter than the buffer ends the loop. *)
Fixpoint receive_loop (fuel : nat) (total_data : bytes) : M bytes :=
  match fuel with
  | O => diverge
  | S fuel' =>
      let* data_received := client_recv 4096 in
      if (4 <? length data_received)%nat then
        let total_data := total_data ++ data_received in
        if (length data_received <? 4096)%nat then ret total_data
        else receive_loop fuel' total_data
      else receive_loop fuel' total_data
  end.

Definition _wait_and_receive_states_data (fuel : nat) : M string :=
  let* total_data := receive_loop fuel [] in
  match bytes_decode total_data with
  | Some states_data => ret states_data
  | None => raise UnicodeDecodeError
  end.

(** Whether [json.loads(total_data.decode())] returns. *)
Definition parses (total_data : bytes) : bool :=
  match bytes_decode total_data with
  | Some text => match json_loads text with Some _ => true | None => false end
  | None => false
  end.

(** The [while] loop of [_wait_and_receive_states_data] in the built copy
    of the package ([build/lib]): every delivery is kept, and the loop ends
    when what has arrived parses. *)
Fixpoint build_receive_loop (fuel : nat) (total_data : bytes) : M bytes :=
  match fuel with
  | O => diverge
  | S fuel' =>
      let* data_received := client_recv 4096 in
      let total_data := total_data ++ data_received in
      if parses total_data then ret total_data
      else build_receive_loop fuel' total_data
  end.

Definition build_wait_and_receive_states_data (fuel : nat) : M string :=
  let* total_data := build_receive_loop fuel [] in
  match bytes_decode total_data with
  | Some states_data => ret states_data
  | None => raise UnicodeDecodeError
  end.

(** The [while] loop of [_wait_and_receive_states_data] in the first copy
    of the class ([GodotEnvironment.py] at the root): each delivery replaces
    the one before, and the first whose text is longer than four characters
    is returned. *)
Fixpoint legacy_receive_loop (fuel : nat) : M string :=
  match fuel with
  | O => diverge
  | S fuel' =>
      let* states_data := client_recv (Z.to_nat 10000) in
      match bytes_decode states_data with
      | None => raise UnicodeDecodeError
      | Some states_data =>
          if (4 <? String.length states_data)%nat then ret states_data
          else legacy_receive_loop fuel'
      end
  end.

(** *** Data formatting *)

(** The loop of [_format_states_data] over the agents: a state that came as
    a string is replaced by the literal it spells. *)
Fixpoint format_agents (agents : list pyval) : outcome (list pyval) :=
  match agents with
  | [] => Ok []
  | agent_data :: rest =>
      let! state := getitem agent_data "state" in
      let! agent_data' :=
        match state, agent_data with
        | PyStr s, PyDict d =>
            let! v := literal_eval s in Ok (PyDict (dict_set d "state" v))
        | _, _ => Ok agent_data
        end in
      let! rest' := format_agents rest in
      Ok (agent_data' :: rest')
  end.

Definition _format_states_data (state_data : string) : outcome pyval :=
  match json_loads state_data with
  | None => Raise JSONDecodeError
  | Some state_data =>
      let! states := getitem state_data "states_data" in
      let! agents := py_iter states in
      let! agents' := format_agents agents in
      match states, state_data with
      | PyList _, PyDict d => Ok (PyDict (dict_set d "states_data" (PyList agents')))
      | _, _ => Ok state_data
      end
  end.

Definition _get_environment_state (fuel : nat) : M pyval :=
  let* states_data := _wait_and_receive_states_data fuel in
  lift (_format_states_data states_data).

(** The loop of [_format_actions_data]: [actions_data[n_agent]] is a
    reference to a dictionary of the caller, updated where it lives. *)
Fixpoint format_actions_loop (count n_agent : nat) (actions_data : list loc) : M unit :=
  match count with
  | O => ret tt
  | S count' =>
      fun st =>
        match actions_data !! n_agent with
        | None => (Raise IndexError, st)
        | Some l =>
            match heap st !! l with
            | None => (Raise SystemError, st)
            | Some d =>
                match dict_get d "action" with
                | None => (Raise KeyError, st)
                | Some (NpInteger z) =>
                    format_actions_loop count' (S n_agent) actions_data
                      {| self := self st; os := os st;
                         heap := <[l := dict_set d "action" (Plain (PyInt z))]> (heap st) |}
                | Some (Plain _) =>
                    format_actions_loop count' (S n_agent) actions_data st
                end
            end
        end
  end.

Definition _format_actions_data (actions_data : list loc) : M (list loc) :=
  format_actions_loop (length actions_data) 0 actions_data ;;;
  ret actions_data.

(** A field of the request dictionary: a plain value, or the caller's list
    of action dictionaries. *)
Inductive reqval : Type :=
| RPlain (v : pyval)
| RActions (actions_data : list loc).

(** What [json.dumps] finds behind a field: a NumPy integer is not
    serializable. *)
Definition plain_of_argval (a : argval) : outcome pyval :=
  match a with
  | NpInteger _ => Raise TypeError
  | Plain v => Ok v
  end.

Fixpoint plain_of_adict (d : adict) : outcome (list (string * pyval)) :=
  match d with
  | [] => Ok []
  | (k, a) :: d' =>
      let! v := plain_of_argval a in
      let! r := plain_of_adict d' in
      Ok ((k, v) :: r)
  end.

Fixpoint plain_of_actions (h : gmap loc adict) (actions_data : list loc)
  : outcome (list pyval) :=
  match actions_data with
  | [] => Ok []
  | l :: rest =>
      match h !! l with
      | None => Raise SystemError
      | Some d =>
          let! d' := plain_of_adict d in
          let! r := plain_of_actions h rest in
          Ok (PyDict d' :: r)
      end
  end.

Fixpoint plain_of_request (h : gmap loc adict) (request : list (string * reqval))
  : outcome (list (string * pyval)) :=
  match request with
  | [] => Ok []
  | (k, RPlain v) :: rest =>
      let! r := plain_of_request h rest in Ok ((k, v) :: r)
  | (k, RActions a) :: rest =>
      let! v := plain_of_actions h a in
      let! r := plain_of_request h rest in
      Ok ((k, PyList v) :: r)
  end.

(** [json.dumps(request)] *)
Definition json_dumps_request (h : gmap loc adict) (request : list (string * reqval))
  : outcome string :=
  let! d := plain_of_request h request in Ok (json_dumps (PyDict d)).

Definition _create_request (initialization termination : bool)
    (actions_data : option (list loc)) : M bytes :=
  let request := dict_set [] "initialization" (RPlain (PyBool initialization)) in
  let* request :=
    (if initialization then
       fun st =>
         let (n, g) := randint (random_generator (self st)) 0 1000000 in
         (Ok (dict_set request "seed" (RPlain (PyInt n))),
          {| self := set_generator (seed (self st)) g (self st);
             os := os st; heap := heap st |})
     else ret request) in
  let request := dict_set request "termination" (RPlain (PyBool termination)) in
  let* s := get_self in
  let request := dict_set request "render" (RPlain (PyBool (is_rendering s))) in
  let* request :=
    (if negb initialization && negb termination then
       match actions_data with
       | None => raise TypeError
       | Some a =>
           let* a' := _format_actions_data a in
           ret (dict_set request "actions_data" (RActions a'))
       end
     else ret request) in
  fun st =>
    match json_dumps_request (heap st) request with
    | Ok text => (Ok (str_encode text), st)
    | Raise e => (Raise e, st)
    | Diverge => (Diverge, st)
    end.

(** The loop of [_split_env_data], appending to the two lists. *)
Fixpoint split_loop (env_data states_data rewards_data : list pyval)
  : outcome (list pyval * list pyval) :=
  match env_data with
  | [] => Ok (states_data, rewards_data)
  | env_datum :: rest =>
      let! name := getitem env_datum "name" in
      let! state := getitem env_datum "state" in
      let state_data := PyDict [("name", name); ("state", state)] in
      let states_data := states_data ++ [state_data] in
      let! name' := getitem env_datum "name" in
      let! reward := getitem env_datum "reward" in
      let reward_data := PyDict [("name", name'); ("reward", reward)] in
      let rewards_data := rewards_data ++ [reward_data] in
      split_loop rest states_data rewards_data
  end.

Definition _split_env_data (env_data : pyval) : outcome (list pyval * list pyval) :=
  let! items := py_iter env_data in
  split_loop items [] [].

(** *** Simulation functions *)

Definition launch_command (godot_path env_path : string) (rendering : bool) : string :=
  let command := godot_path +:+ " --main-pack " +:+ env_path in
  if negb rendering then command +:+ " --disable-render-loop --no-window" else command.

Definition _launch_simulation_if_needed : M unit :=
  let* s := get_self in
  if negb (is_godot_launched s) then
    let command := launch_command (godot_path_str s) (env_path_str s) (is_rendering s) in
    let* p := fresh_id in
    emit (EvPopen p command) ;;;
    modify_self (set_godot_process (Some {| p_id := p; p_command := command |})) ;;;
    modify_self (set_is_godot_launched true)
  else ret tt.

(** *** Main functions *)

Definition close : M unit :=
  let* termination_request := _create_request false true None in
  client_sendall termination_request ;;;
  _end_connection ;;;
  let* s := get_self in
  match godot_process s with
  | None => raise AttributeError
  | Some p =>
      emit (EvWait (p_id p)) ;;;
      modify_self (set_is_godot_launched false)
  end.

Definition _change_render_type_if_needed (render : bool) : M unit :=
  let* s := get_self in
  (if negb (Bool.eqb render (is_rendering s)) && is_godot_launched s then
     (match socket s with
      | None => _initialize_socket
      | Some _ => ret tt
      end) ;;;
     _wait_for_connection ;;;
     close
   else ret tt) ;;;
  modify_self (set_is_rendering render).

Definition reset (fuel : nat) (render : bool) : M pyval :=
  _change_render_type_if_needed render ;;;
  _launch_simulation_if_needed ;;;
  let* s := get_self in
  (match socket s with
   | None => _initialize_socket ;;; _wait_for_connection
   | Some _ => ret tt
   end) ;;;
  let* first_request := _create_request true false None in
  client_sendall first_request ;;;
  let* env_data := _get_environment_state fuel in
  let* states_data := lift (getitem env_data "states_data") in
  modify_self (set_metrics {| regions := []; misc := [] |}) ;;;
  ret states_data.

(** The reward scaling loop of [step], over [range(len(rewards_data))]. *)
Fixpoint scale_rewards_loop (count n_agent : nat) (rewards_data : list pyval)
    (n_frames : pyval) : outcome (list pyval) :=
  match count with
  | O => Ok rewards_data
  | S count' =>
      match rewards_data !! n_agent with
      | None => Raise IndexError
      | Some reward_data =>
          let! r := getitem reward_data "reward" in
          let! q := py_truediv r n_frames in
          match reward_data with
          | PyDict d =>
              scale_rewards_loop count' (S n_agent)
                (<[n_agent := PyDict (dict_set d "reward" q)]> rewards_data) n_frames
          | _ => Raise TypeError
          end
      end
  end.

(** The metrics lines of [step]. *)
Definition record_metrics (env_data : pyval) : M unit :=
  let* states := lift (getitem env_data "states_data") in
  let* first := lift (getitem_int states 0) in
  let* metrics_data := lift (getitem first "metrics") in
  let* region := lift (getitem metrics_data "region") in
  let* s := get_self in
  modify_self (set_metrics {| regions := regions (metrics s) ++ [region];
                              misc := misc (metrics s) |}) ;;;
  let* cond := lift (getitem metrics_data "misc") in
  if truthy cond then
    let* m := lift (getitem metrics_data "misc") in
    let* s' := get_self in
    modify_self (set_metrics {| regions := regions (metrics s');
                                misc := misc (metrics s') ++ [m] |})
  else ret tt.

Definition step (fuel : nat) (actions_data : list loc)
  : M (list pyval * list pyval * pyval * pyval) :=
  let* request := _create_request false false (Some actions_data) in
  client_sendall request ;;;
  let* env_data := _get_environment_state fuel in
  let* states := lift (getitem env_data "states_data") in
  let* split := lift (_split_env_data states) in
  let states_data := fst split in
  let rewards_data := snd split in
  record_metrics env_data ;;;
  let* n_frames := lift (getitem env_data "n_frames") in
  let* rewards_data := lift (scale_rewards_loop (length rewards_data) 0 rewards_data n_frames) in
  let* done := lift (getitem env_data "done") in
  ret (states_data, rewards_data, done, n_frames).

End Methods.

(** ** The path helpers of [utils.py]

    The helpers read directories and join path components.  A directory
    listing is an argument of the model ([None] where the directory does not
    exist), and [os.path.join] is the one of a system whose separator is the
    slash, which is the system the paths of the file are written for. *)

Module Utils.

Inductive error : Type :=
| UnboundLocalError
| AssertionError
| FileNotFoundError
| JoinTypeError.

(** [s.split("/")] *)
Fixpoint split (s : string) : list string :=
  match s with
  | EmptyString => [EmptyString]
  | String c s' =>
      if Ascii.eqb c "/" then EmptyString :: split s'
      else match split s' with
           | [] => [String c EmptyString]
           | w :: ws => String c w :: ws
           end
  end.

(** [b.startswith("/")] and [path.endswith("/")] *)
Definition startswith_sep (b : string) : bool :=
  match b with
  | String c _ => Ascii.eqb c "/"
  | EmptyString => false
  end.

Fixpoint endswith_sep (path : string) : bool :=
  match path with
  | EmptyString => false
  | String c EmptyString => Ascii.eqb c "/"
  | String _ rest => endswith_sep rest
  end.

(** One turn of the loop of [os.path.join]. *)
Definition join_step (path b : string) : string :=
  if startswith_sep b then b
  else if String.eqb path EmptyString || endswith_sep path then path +:+ b
  else path +:+ "/" +:+ b.

(** [os.path.join] of a list of components; an empty list is a call
    without its first argument. *)
Definition join (parts : list string) : error + string :=
  match parts with
  | [] => inl JoinTypeError
  | a :: p => inr (fold_left join_step p a)
  end.

Section Paths.
(** [os.path.abspath] *)
Variable abspath : string -> string.

Definition get_path (string_path : string) (add_absolute : bool) : error + string :=
  if add_absolute then
    match join ("/" :: split string_path) with
    | inr p => inr (abspath p)
    | inl e => inl e
    end
  else join (split string_path).

End Paths.

Section Directories.
(** [os.listdir] *)
Variable listdir : string -> option (list string).

Definition get_username : error + string :=
  match listdir "/mnt/c/Users" with
  | None => inl FileNotFoundError
  | Some users =>
      if existsb (String.eqb "vaill") users then inr "vaill"
      else if existsb (String.eqb "Hugo") users then inr "Hugo"
      else inl UnboundLocalError
  end.

(** [c.lower()] on a letter of the basic alphabet. *)
Definition ascii_lower (c : ascii) : ascii :=
  let n := nat_of_ascii c in
  if (65 <=? n)%nat && (n <=? 90)%nat then ascii_of_nat (n + 32) else c.

Fixpoint lower (s : string) : string :=
  match s with
  | EmptyString => EmptyString
  | String c s' => String (ascii_lower c) (lower s')
  end.

(** [re.match(r"godot.*", file_name.lower())]: the pattern is anchored at the
    start and its tail matches the empty string, so it asks for the lowered
    name to begin with [godot]; only the letters of the basic alphabet lower
    to one of these five. *)
Definition matches_godot (file_name : string) : bool :=
  String.prefix "godot" (lower file_name).

Definition find_godot (path : list string) : error + string :=
  match join path with
  | inl e => inl e
  | inr dir =>
      match listdir ("/" +:+ dir) with
      | None => inl FileNotFoundError
      | Some desktop_files =>
          let godot_file :=
            fold_left (fun godot_file file_name =>
                         if matches_godot file_name then file_name else godot_file)
                      desktop_files EmptyString in
          if String.eqb godot_file EmptyString then inl AssertionError
          else inr godot_file
      end
  end.

Definition steam_path : string :=
  String "034"
    ("/mnt/c/Program Files (x86)/Steam/steamapps/common/Godot Engine/godot.windows.opt.tools.64.exe"
     +:+ String "034" EmptyString).

Definition get_godot_path : error + string :=
  let start_path := "mnt/c/Users/" in
  match get_username with
  | inl e => inl e
  | inr username =>
      if String.eqb username "vaill" then inr steam_path
      else
        let end_path := "Desktop" in
        let desktop_path := split start_path ++ [username] ++ split end_path in
        match find_godot desktop_path with
        | inl e => inl e
        | inr godot_file =>
            let list_path := desktop_path ++ [godot_file] in
            join list_path
        end
  end.

End Directories.

End Utils.

(** ** A runtime to run the model on

    Floats are exact rationals, with the range of a double where an int
    is converted or two ints are divided, [json.loads] reads the JSON the
    simulation sends (integers and decimals without exponent, strings of
    code points below 256), and the generator is a linear congruential one.
    The theorems below hold for every runtime; this one evaluates them on
    examples. *)

Module Sample.

Import QArith.QArith_base QArith.Qreduction.
Local Close Scope Q_scope.
Local Open Scope string_scope.
Local Open Scope list_scope.
Local Open Scope Z_scope.

(** [count] digits of [r / d] after the point, stopping when nothing is left. *)
Fixpoint frac_digits (count : nat) (r d : Z) : string :=
  match count with
  | O => EmptyString
  | S count' =>
      if r =? 0 then EmptyString
      else String (ascii_of_N (Z.to_N (48 + (10 * r) / d)))
                  (frac_digits count' ((10 * r) mod d) d)
  end.

Definition q_repr (q : Q) : string :=
  let n := Qnum q in
  let d := Zpos (Qden q) in
  let a := Z.abs n in
  let frac := frac_digits 17 (a mod d) d in
  (if n <? 0 then "-" else EmptyString) +:+ json_int (a / d) +:+ "."
    +:+ (if String.eqb frac EmptyString then "0" else frac).

(** The least magnitude that no longer rounds to a double. *)
Definition double_limit : Z := 2 ^ 1024 - 2 ^ 970.

#[export] Instance q_float : PyFloat := {|
  pyfloat := Q;
  float_of_int := fun a =>
    if Z.abs a <? double_limit then Some (inject_Z a) else None;
  int_truediv := fun a b =>
    if Z.abs a <? double_limit * Z.abs b
    then Some (Qred (Qdiv (inject_Z a) (inject_Z b))) else None;
  float_truediv := fun x y => Qred (Qdiv x y);
  float_is_zero := fun x => Qnum x =? 0;
  float_repr := q_repr
|}.

(** UTF-8 decoding onto the code points below 256. *)
Fixpoint utf8_decode (b : bytes) : option string :=
  match b with
  | [] => Some EmptyString
  | b0 :: rest =>
      let n0 := Z.of_N (Byte.to_N b0) in
      if n0 <? 128 then
        option_map (String (ascii_of_N (Z.to_N n0))) (utf8_decode rest)
      else
        match rest with
        | b1 :: rest' =>
            let n1 := Z.of_N (Byte.to_N b1) in
            if ((n0 =? 194) || (n0 =? 195)) && (128 <=? n1) && (n1 <? 192) then
              option_map
                (String (ascii_of_N (Z.to_N (Z.lor (Z.shiftl (Z.land n0 3) 6) (Z.land n1 63)))))
                (utf8_decode rest')
            else None
        | [] => None
        end
  end.

Definition code (c : ascii) : Z := Z.of_N (N_of_ascii c).

Fixpoint skip_ws (s : list ascii) : list ascii :=
  match s with
  | c :: r =>
      if (code c =? 32) || (code c =? 9) || (code c =? 10) || (code c =? 13)
      then skip_ws r else s
  | [] => []
  end.

Definition is_digit (c : ascii) : bool := (48 <=? code c) && (code c <=? 57).

(** The digits at the head of [s]: their value, how many, and the rest. *)
Fixpoint read_digits (s : list ascii) (acc : Z) (count : nat) : Z * nat * list ascii :=
  match s with
  | c :: r => if is_digit c then read_digits r (10 * acc + (code c - 48)) (S count)
              else (acc, count, s)
  | [] => (acc, count, [])
  end.

Definition read_number (s : list ascii) : option (pyval * list ascii) :=
  let (neg, s1) := match s with
                   | c :: r => if code c =? 45 then (true, r) else (false, s)
                   | [] => (false, s)
                   end in
  let '(ip, n, s2) := read_digits s1 0 0 in
  match n with
  | O => None
  | _ =>
      match s2 with
      | c :: r =>
          if code c =? 46 then
            let '(fp, m, s3) := read_digits r 0 0 in
            match m with
            | O => None
            | _ =>
                let den := 10 ^ Z.of_nat m in
                let num := ip * den + fp in
                Some (PyFloatV (Qred (Qmake (if neg then - num else num) (Z.to_pos den))), s3)
            end
          else Some (PyInt (if neg then - ip else ip), s2)
      | [] => Some (PyInt (if neg then - ip else ip), s2)
      end
  end.

Definition hex_value (c : ascii) : option Z :=
  let n := code c in
  if (48 <=? n) && (n <=? 57) then Some (n - 48)
  else if (97 <=? n) && (n <=? 102) then Some (n - 87)
  else if (65 <=? n) && (n <=? 70) then Some (n - 55)
  else None.

(** The characters of a string literal up to its closing quote. *)
Fixpoint read_string (s : list ascii) : option (string * list ascii) :=
  match s with
  | [] => None
  | c :: r =>
      if code c =? 34 then Some (EmptyString, r)
      else if code c =? 92 then
        match r with
        | e :: r' =>
            let plain (x : Z) :=
              option_map (fun p => (String (ascii_of_N (Z.to_N x)) (fst p), snd p))
                         (read_string r') in
            if code e =? 110 then plain 10
            else if code e =? 116 then plain 9
            else if code e =? 114 then plain 13
            else if code e =? 98 then plain 8
            else if code e =? 102 then plain 12
            else if (code e =? 34) || (code e =? 92) || (code e =? 47) then plain (code e)
            else if code e =? 117 then
              match r' with
              | h3 :: h2 :: h1 :: h0 :: r'' =>
                  match hex_value h3, hex_value h2, hex_value h1, hex_value h0 with
                  | Some 0, Some 0, Some a, Some b =>
                      option_map
                        (fun p => (String (ascii_of_N (Z.to_N (16 * a + b))) (fst p), snd p))
                        (read_string r'')
                  | _, _, _, _ => None
                  end
              | _ => None
              end
            else None
        | [] => None
        end
      else if code c <? 32 then None
      else option_map (fun p => (String c (fst p), snd p)) (read_string r)
  end.

Definition expect (k : Z) (s : list ascii) : option (list ascii) :=
  match skip_ws s with
  | c :: r => if code c =? k then Some r else None
  | [] => None
  end.

Definition read_word (w : string) (s : list ascii) : option (list ascii) :=
  let l := list_ascii_of_string w in
  if String.eqb (string_of_list_ascii (take (length l) s)) w
  then Some (drop (length l) s) else None.

Section Reader.
Variable read_value : list ascii -> option (pyval * list ascii).

(** The items of an array after its first one. *)
Fixpoint read_items (fuel : nat) (s : list ascii) (acc : list pyval)
  : option (pyval * list ascii) :=
  match fuel with
  | O => None
  | S fuel' =>
      match skip_ws s with
      | c :: r =>
          if code c =? 93 then Some (PyList acc, r)
          else if code c =? 44 then
            match read_value r with
            | Some (v, r') => read_items fuel' r' (acc ++ [v])
            | None => None
            end
          else None
      | [] => None
      end
  end.

Definition read_member (s : list ascii) : option (string * pyval * list ascii) :=
  match expect 34 s with
  | Some r =>
      match read_string r with
      | Some (k, r1) =>
          match expect 58 r1 with
          | Some r2 =>
              match read_value r2 with
              | Some (v, r3) => Some (k, v, r3)
              | None => None
              end
          | None => None
          end
      | None => None
      end
  | None => None
  end.

(** The members of an object after its first one; a repeated key keeps its
    last value. *)
Fixpoint read_members (fuel : nat) (s : list ascii) (acc : list (string * pyval))
  : option (pyval * list ascii) :=
  match fuel with
  | O => None
  | S fuel' =>
      match skip_ws s with
      | c :: r =>
          if code c =? 125 then Some (PyDict acc, r)
          else if code c =? 44 then
            match read_member r with
            | Some (k, v, r') => read_members fuel' r' (dict_set acc k v)
            | None => None
            end
          else None
      | [] => None
      end
  end.

End Reader.

Fixpoint read_value (fuel : nat) (s : list ascii) : option (pyval * list ascii) :=
  match fuel with
  | O => None
  | S fuel' =>
      match skip_ws s with
      | [] => None
      | c :: r =>
          if code c =? 91 then
            match skip_ws r with
            | c' :: r' =>
                if code c' =? 93 then Some (PyList [], r')
                else
                  match read_value fuel' r with
                  | Some (v, r1) => read_items (read_value fuel') (length r1) r1 [v]
                  | None => None
                  end
            | [] => None
            end
          else if code c =? 123 then
            match skip_ws r with
            | c' :: r' =>
                if code c' =? 125 then Some (PyDict [], r')
                else
                  match read_member (read_value fuel') r with
                  | Some (k, v, r1) =>
                      read_members (read_value fuel') (length r1) r1 [(k, v)]
                  | None => None
                  end
            | [] => None
            end
          else if code c =? 34 then
            option_map (fun p => (PyStr (fst p), snd p)) (read_string r)
          else if code c =? 116 then
            option_map (fun r' => (PyBool true, r')) (read_word "true" (c :: r))
          else if code c =? 102 then
            option_map (fun r' => (PyBool false, r')) (read_word "false" (c :: r))
          else if code c =? 110 then
            option_map (fun r' => (PyNone, r')) (read_word "null" (c :: r))
          else read_number (c :: r)
      end
  end.

Definition loads (s : string) : option pyval :=
  let l := list_ascii_of_string s in
  match read_value (S (length l)) l with
  | Some (v, rest) => match skip_ws rest with [] => Some v | _ => None end
  | None => None
  end.

(** A linear congruential generator in the place of the Mersenne Twister. *)
Definition lcg_randint (g low high : Z) : Z * Z :=
  let g' := (1103515245 * g + 12345) mod 2147483648 in
  (low + g' mod (high - low), g').

#[export] Instance runtime : Runtime := {|
  bytes_decode := utf8_decode;
  json_loads := loads;
  literal_eval := fun s => match loads s with Some v => Ok v | None => Raise ValueError end;
  RandomState := Z;
  RandomState_seeded := fun s => s mod 4294967296;
  randint := lcg_randint
|}.

End Sample.

(** ** Vocabulary of the statements *)

Section Vocabulary.
Context {FL : PyFloat} {RT : Runtime}.

Definition small_chunks (inbox : list bytes) : Prop :=
  Forall (fun c : bytes => (length c <= 4)%nat) inbox.

(** [f] over a list, stopping at the first item that raises. *)
Fixpoint omap {A B : Type} (f : A -> outcome B) (l : list A) : outcome (list B) :=
  match l with
  | [] => Ok []
  | a :: l' => let! b := f a in let! r := omap f l' in Ok (b :: r)
  end.

Definition name_of (v : pyval) : outcome pyval := getitem v "name".

Definition state_view (env_datum : pyval) : outcome pyval :=
  let! name := getitem env_datum "name" in
  let! state := getitem env_datum "state" in
  Ok (PyDict [("name", name); ("state", state)]).

Definition reward_view (env_datum : pyval) : outcome pyval :=
  let! name := getitem env_datum "name" in
  let! reward := getitem env_datum "reward" in
  Ok (PyDict [("name", name); ("reward", reward)]).

Definition scale_one (n_frames reward_data : pyval) : outcome pyval :=
  let! r := getitem reward_data "reward" in
  let! q := py_truediv r n_frames in
  match reward_data with
  | PyDict d => Ok (PyDict (dict_set d "reward" q))
  | _ => Raise TypeError
  end.

(** The exchange that opens [step]: the request goes out, the response
    comes in. *)
Definition step_exchange (fuel : nat) (actions_data : list loc) : M pyval :=
  let* request := _create_request false false (Some actions_data) in
  client_sendall request ;;;
  _get_environment_state fuel.

(** What [step] does with the response. *)
Definition step_tail (env_data : pyval) : M (list pyval * list pyval * pyval * pyval) :=
  let* states := lift (getitem env_data "states_data") in
  let* split := lift (_split_env_data states) in
  record_metrics env_data ;;;
  let* n_frames := lift (getitem env_data "n_frames") in
  let* rewards_data :=
    lift (scale_rewards_loop (length (snd split)) 0 (snd split) n_frames) in
  let* done := lift (getitem env_data "done") in
  ret (fst split, rewards_data, done, n_frames).

Definition is_ok {A : Type} (o : outcome A) : bool :=
  match o with Ok _ => true | _ => false end.

Definition is_number (v : pyval) : bool :=
  match v with PyInt _ | PyFloatV _ => true | _ => false end.

Definition well_formed_agent (a : pyval) : bool :=
  is_ok (getitem a "name") && is_ok (getitem a "state")
  && match getitem a "reward" with Ok r => is_number r | _ => false end.

Definition carries_metrics (a : pyval) : bool :=
  match getitem a "metrics" with
  | Ok m => is_ok (getitem m "region") && is_ok (getitem m "misc")
  | _ => false
  end.

Definition first_carries_metrics (agents : list pyval) : bool :=
  match agents with
  | a :: _ => carries_metrics a
  | [] => false
  end.

(** Whether a reward divided by [n] frames stays within the floats: for
    an int reward the quotient has to be in their range, for a float reward
    [n] itself, which is converted before the division. *)
Definition quotient_fits (n : Z) (rw : pyval) : bool :=
  match rw with
  | PyInt z => match int_truediv z n with Some _ => true | None => false end
  | PyFloatV _ => match float_of_int n with Some _ => true | None => false end
  | _ => false
  end.

Definition reward_fits (n : Z) (a : pyval) : bool :=
  match getitem a "reward" with Ok rw => quotient_fits n rw | _ => false end.

Definition scaled_reward (n_frames a r : pyval) : Prop :=
  exists nm rw q,
    getitem a "name" = Ok nm /\ getitem a "reward" = Ok rw /\
    py_truediv rw n_frames = Ok q /\ r = PyDict [("name", nm); ("reward", q)].

Definition heap_stable {A : Type} (m : M A) : Prop :=
  forall st : state, heap (snd (m st)) = heap st.

(** The request object, field by field in the order the code fills it. *)
Definition request_fields (initialization termination render : bool) (sd : Z)
    (actions_data : option (list loc)) : list (string * reqval) :=
  [("initialization", RPlain (PyBool initialization))]
  ++ (if initialization then [("seed", RPlain (PyInt sd))] else [])
  ++ [("termination", RPlain (PyBool termination)); ("render", RPlain (PyBool render))]
  ++ (if negb initialization && negb termination
      then match actions_data with
           | Some a => [("actions_data", RActions a)]
           | None => []
           end
      else []).

(** What [_format_actions_data] leaves in place of a dictionary. *)
Definition int_action (d : adict) : adict :=
  match dict_get d "action" with
  | Some (NpInteger z) => dict_set d "action" (Plain (PyInt z))
  | _ => d
  end.

Definition has_action (h : gmap loc adict) (l : loc) : bool :=
  match h !! l with
  | Some d => match dict_get d "action" with Some _ => true | None => false end
  | None => false
  end.

(** The text of an [Init] request. *)
Definition init_request_text (render : bool) (sd : Z) : string :=
  json_dumps (PyDict [("initialization", PyBool true); ("seed", PyInt sd);
                      ("termination", PyBool false); ("render", PyBool render)]).

(** The text of a [Terminate] request. *)
Definition terminate_request_text (render : bool) : string :=
  json_dumps (PyDict [("initialization", PyBool false); ("termination", PyBool true);
                      ("render", PyBool render)]).

(** The seeds of [k] successive [Init] requests, from the generator [g]. *)
Fixpoint init_seeds (k : nat) (g : RandomState) : list Z :=
  match k with
  | O => []
  | S k' => fst (randint g 0 1000000) :: init_seeds k' (snd (randint g 0 1000000))
  end.

(** [k] successive calls of [_create_request(initialization=True)]. *)
Fixpoint init_requests (k : nat) (st : state) : list (outcome bytes) :=
  match k with
  | O => []
  | S k' =>
      fst (_create_request true false None st)
      :: init_requests k' (snd (_create_request true false None st))
  end.

(** The events of a teardown that changes the render mode, when the system
    lets a bound socket be bound again and a second peer connects. *)
Definition render_change_events (st : state) (l : listener) (p : process) : list event :=
  let c' := w_next (os st) in
  [EvBind (l_id l) (host (self st)) (port (self st));
   EvListen (l_id l);
   EvAccept (l_id l) c';
   EvSendall c' (str_encode (terminate_request_text (is_rendering (self st))));
   EvClose (l_id l);
   EvWait (p_id p)].

(** A computation that leaves a part of the state as it found it, also when
    it raises. *)
Definition keeps {A T : Type} (part : state -> T) (m : M A) : Prop :=
  forall st : state, part (snd (m st)) = part st.

(** What [step] and the receive loops leave alone in the instance: every
    field but the metrics, and of the connection its identity. *)
Definition session_frame (st : state) :=
  (host (self st), port (self st), socket (self st),
   option_map (fun c => (c_id c, c_eof c)) (client_socket (self st)),
   godot_path_str (self st), env_path_str (self st), godot_process (self st),
   is_godot_launched (self st), is_rendering (self st), seed (self st),
   random_generator (self st)).

Definition metrics_of (st : state) : metrics_t := metrics (self st).

(** A frame: the big-endian length of a body, then the body. *)
Definition frame (body : bytes) : bytes :=
  pack_be32 (Z.of_nat (length body)) ++ body.

(** [k] calls of [recv_msg] in a row on one stream. *)
Fixpoint recv_msgs (k : nat) (sock : conn) : list (outcome (option bytes)) * conn :=
  match k with
  | O => ([], sock)
  | S k' =>
      let (r, sock') := recv_msg sock in
      let (rs, sock'') := recv_msgs k' sock' in
      (r :: rs, sock'')
  end.

(** Deliveries that never end the loop of [_wait_and_receive_states_data]:
    full buffers, and deliveries of at most four bytes. *)
Definition unending (inbox : list bytes) : Prop :=
  Forall (fun c : bytes => (length c <= 4)%nat \/ length c = 4096%nat) inbox.

(** The state after the connection has handed out its deliveries down to
    [inbox]. *)
Definition with_inbox (st : state) (c : conn) (inbox : list bytes) : state :=
  {| self := set_client_socket
               (Some {| c_id := c_id c; c_inbox := inbox; c_eof := c_eof c |}) (self st);
     os := os st; heap := heap st |}.

(** A delivery the first copy's loop throws away: at most 10000 bytes whose
    text has at most four characters. *)
Definition legacy_short (ch : bytes) : Prop :=
  (0 < length ch <= Z.to_nat 10000)%nat /\
  exists text, bytes_decode ch = Some text /\ (String.length text <= 4)%nat.

(** An agent whose state is there and is no string. *)
Definition plain_state (a : pyval) : bool :=
  match getitem a "state" with
  | Ok (PyStr _) => false
  | Ok _ => true
  | _ => false
  end.

(** What [_format_states_data] makes of one agent. *)
Definition formatted (a a' : pyval) : Prop :=
  match getitem a "state" with
  | Ok (PyStr s) =>
      exists d v, a = PyDict d /\ literal_eval s = Ok v /\ a' = PyDict (dict_set d "state" v)
  | Ok _ => a' = a
  | _ => False
  end.

(** An agent with the three entries [_split_env_data] reads. *)
Definition has_keys (a : pyval) : bool :=
  is_ok (getitem a "name") && is_ok (getitem a "state") && is_ok (getitem a "reward").

(** The events of a first [reset], up to the [Init] request. *)
Definition first_reset_events (st : state) (render : bool) : list event :=
  let n := w_next (os st) in
  [EvPopen n (launch_command (godot_path_str (self st)) (env_path_str (self st)) render);
   EvSocket (S n);
   EvBind (S n) (host (self st)) (port (self st));
   EvListen (S n);
   EvAccept (S n) (S (S n));
   EvSendall (S (S n))
     (str_encode (init_request_text render
                    (fst (randint (random_generator (self st)) 0 1000000))))].

(** The part of [reset] in front of its last two lines. *)
Definition reset_head (fuel : nat) (render : bool) : M pyval :=
  _change_render_type_if_needed render ;;;
  _launch_simulation_if_needed ;;;
  let* s := get_self in
  (match socket s with
   | None => _initialize_socket ;;; _wait_for_connection
   | Some _ => ret tt
   end) ;;;
  let* first_request := _create_request true false None in
  client_sendall first_request ;;;
  let* env_data := _get_environment_state fuel in
  lift (getitem env_data "states_data").

End Vocabulary.

(** ** Scenarios on the sample runtime *)

Module Scenario.
Import Sample.

(** A session as its constructor leaves it, the peers that will connect and
    the caller's single action dictionary, at address 7. *)
Definition session0 : session :=
  {| host := "127.0.0.1"; port := 4242; socket := None; client_socket := None;
     godot_path_str := "godot"; env_path_str := "env.pck";
     godot_process := None; is_godot_launched := false; is_rendering := true;
     seed := 42; random_generator := RandomState_seeded 42;
     metrics := {| regions := []; misc := [] |} |}.

Definition plane_actions : gmap nat (list (string * argval)) :=
  {[ 7%nat := [("name", Plain (PyStr "Plane")); ("action", NpInteger 2)] ]}.

Definition fresh (clients : list (list bytes * bool)) (rebind_ok : bool) : state :=
  {| self := session0;
     os := {| w_trace := []; w_clients := clients; w_next := 0; w_rebind_ok := rebind_ok |};
     heap := plane_actions |}.

(** One agent of a response, with or without its metrics. *)
Definition agent (name : string) (reward : pyval) (with_metrics : bool) : pyval :=
  PyDict ([("name", PyStr name); ("state", PyList [PyInt 1; PyInt 2]); ("reward", reward)]
          ++ (if with_metrics
              then [("metrics", PyDict [("region", PyInt 3); ("misc", PyStr "x")])]
              else [])).

Definition response (agents : list pyval) (n_frames : Z) : pyval :=
  PyDict [("states_data", PyList agents); ("n_frames", PyInt n_frames);
          ("done", PyBool false)].

(** The bytes of a response on the wire. *)
Definition payload (agents : list pyval) (n_frames : Z) : bytes :=
  str_encode (json_dumps (response agents n_frames)).

(** A launched session with its connection open and [inbox] on its way. *)
Definition connected (inbox : list bytes) (eof rebind_ok : bool) : state :=
  {| self :=
       set_client_socket (Some {| c_id := 2; c_inbox := inbox; c_eof := eof |})
         (set_socket (Some {| l_id := 1; l_bound := true |})
            (set_is_godot_launched true
               (set_godot_process
                  (Some {| p_id := 0; p_command := "godot --main-pack env.pck" |})
                  session0)));
     os := {| w_trace := []; w_clients := []; w_next := 3; w_rebind_ok := rebind_ok |};
     heap := plane_actions |}.

Definition plane : pyval := agent "Plane" (PyFloatV (QArith_base.Qmake 8 1)) true.

Definition abc : list pyval :=
  [agent "A" (PyInt 3) true; agent "B" (PyInt 4) false; agent "C" (PyInt 5) false].

(** The session after a first [reset(render=True)], and the same on a system
    that lets a socket be bound twice, with a second peer waiting. *)
Definition after_reset : state := snd (reset 1 true (fresh [([payload [plane] 1], false)] false)).

Definition after_reset_lenient : state :=
  snd (reset 1 true (fresh [([payload [plane] 1], false); ([payload [plane] 1], false)] true)).

(** What [step] returns for the agents [abc] over four frames. *)
Definition abc_states : list pyval :=
  map (fun n => PyDict [("name", PyStr n); ("state", PyList [PyInt 1; PyInt 2])])
      ["A"; "B"; "C"].

Definition abc_rewards : list pyval :=
  [PyDict [("name", PyStr "A"); ("reward", PyFloatV (QArith_base.Qmake 3 4))];
   PyDict [("name", PyStr "B"); ("reward", PyFloatV (QArith_base.Qmake 1 1))];
   PyDict [("name", PyStr "C"); ("reward", PyFloatV (QArith_base.Qmake 5 4))]].

(** The request of the scenario. *)
Definition plane_request : bytes :=
  str_encode
    (json_dumps
       (PyDict [("initialization", PyBool false); ("termination", PyBool false);
                ("render", PyBool true);
                ("actions_data",
                 PyList [PyDict [("name", PyStr "Plane"); ("action", PyInt 2)]])])).

(** A second dictionary, at address 8, that has a name only. *)
Definition two_dicts : state :=
  {| self := self (connected [payload [plane] 4] false false);
     os := os (connected [payload [plane] 4] false false);
     heap := <[8%nat := [("name", Plain (PyStr "B"))]]> plane_actions |}.

(** A machine of the second user, with two engines on the desktop. *)
Definition hugo_machine (dir : string) : option (list string) :=
  if String.eqb dir "/mnt/c/Users" then Some ["Public"; "Hugo"]
  else if String.eqb dir "/mnt/c/Users/Hugo/Desktop"
       then Some ["notes.txt"; "Godot_v3.2.3-stable_win64.exe"; "game.pck"; "godot_old.exe";
                  "readme.md"]
       else None.

End Scenario.

(** ** The framing helpers *)

Section Framing.
Context {FL : PyFloat} {RT : Runtime}.

Lemma inbox_recv_None (k : nat) (inbox : list bytes) :
  inbox_recv k inbox = None <-> concat inbox = [].
Proof.
  induction inbox as [|c rest IH]; simpl; [tauto|].
  destruct c as [|b c]; simpl; [exact IH|].
  split; intro E; discriminate E.
Qed.

Lemma inbox_recv_Some (k : nat) (inbox : list bytes) (p : bytes) (inbox' : list bytes) :
  inbox_recv k inbox = Some (p, inbox') ->
  p ++ concat inbox' = concat inbox /\ (length p <= k)%nat /\ ((0 < k)%nat -> p <> []).
Proof.
  induction inbox as [|c rest IH]; simpl; [discriminate|].
  destruct c as [|b c]; [exact IH|].
  intros E. injection E as <- <-.
  split; [|split].
  - destruct (drop k (b :: c)) as [|x r] eqn:D.
    + rewrite <- (take_drop k (b :: c)) at 2. rewrite D, app_nil_r. reflexivity.
    + change (concat ((x :: r) :: rest)) with ((x :: r) ++ concat rest).
      rewrite <- D, app_assoc, take_drop. reflexivity.
  - rewrite length_take. lia.
  - intros Hk. destruct k; [lia|]. discriminate.
Qed.

Lemma recvall_loop_spec (fuel : nat) :
  forall (sock : conn) (n : nat) (data : bytes),
    (inbox_size (c_inbox sock) < fuel)%nat ->
    (length data <= n)%nat ->
    let bs := concat (c_inbox sock) in
    let need := (n - length data)%nat in
    if (need <=? length bs)%nat then
      exists sock',
        recvall_loop fuel sock n data = (Ok (Some (data ++ take need bs)), sock') /\
        concat (c_inbox sock') = drop need bs /\ c_eof sock' = c_eof sock /\ c_id sock' = c_id sock
    else
      fst (recvall_loop fuel sock n data) = if c_eof sock then Ok None else Diverge.
Proof.
  induction fuel as [|fuel IH]; intros sock n data Hf Hd; [lia|].
  cbn zeta. simpl recvall_loop.
  destruct (Nat.ltb_spec (length data) n) as [Hlt|Hge].
  - unfold recv.
    destruct (inbox_recv (n - length data) (c_inbox sock)) as [[p inbox']|] eqn:E.
    + apply inbox_recv_Some in E as (Hcat & Hlen & Hne).
      destruct p as [|b p]; [exfalso; apply Hne; [lia|reflexivity]|].
      set (sock' := {| c_id := c_id sock; c_inbox := inbox'; c_eof := c_eof sock |}).
      assert (Hsz : (inbox_size (c_inbox sock') < fuel)%nat).
      { unfold inbox_size in *. simpl. rewrite <- Hcat in Hf.
        rewrite length_app in Hf. simpl in Hf. lia. }
      assert (Hd' : (length (data ++ b :: p) <= n)%nat).
      { rewrite length_app. lia. }
      specialize (IH sock' n (data ++ b :: p) Hsz Hd').
      cbn zeta in IH. simpl c_inbox in IH. simpl c_eof in IH. simpl c_id in IH.
      rewrite <- Hcat.
      assert (Hneed : (n - length (data ++ b :: p) = n - length data - length (b :: p))%nat).
      { rewrite length_app. lia. }
      rewrite Hneed in IH.
      destruct (Nat.leb_spec (n - length data - length (b :: p)) (length (concat inbox'))) as [H1|H1].
      * destruct IH as (s2 & Hr & Hc & He & Hi).
        destruct (Nat.leb_spec (n - length data) (length ((b :: p) ++ concat inbox'))) as [H2|H2];
          [|rewrite length_app in H2; lia].
        exists s2. split; [|split; [|split]]; try assumption.
        -- rewrite Hr. f_equal. f_equal. rewrite <- app_assoc. f_equal.
           rewrite take_app. rewrite (take_ge (b :: p)); [reflexivity|lia].
        -- rewrite Hc. rewrite drop_app. rewrite (drop_ge (b :: p)); [reflexivity|lia].
      * destruct (Nat.leb_spec (n - length data) (length ((b :: p) ++ concat inbox'))) as [H2|H2];
          [rewrite length_app in H2; lia|].
        exact IH.
    + apply inbox_recv_None in E. rewrite E. simpl length.
      destruct (Nat.leb_spec (n - length data) 0) as [H1|H1]; [lia|].
      destruct (c_eof sock); reflexivity.
  - assert (Hz : (n - length data = 0)%nat) by lia. rewrite Hz. simpl.
    exists sock. rewrite take_0, app_nil_r, drop_0. auto.
Qed.

Lemma recvall_spec (sock : conn) (n : nat) :
  let bs := concat (c_inbox sock) in
  if (n <=? length bs)%nat then
    exists sock',
      recvall sock n = (Ok (Some (take n bs)), sock') /\
      concat (c_inbox sock') = drop n bs /\ c_eof sock' = c_eof sock /\ c_id sock' = c_id sock
  else
    fst (recvall sock n) = if c_eof sock then Ok None else Diverge.
Proof.
  pose proof (recvall_loop_spec (S (inbox_size (c_inbox sock))) sock n []) as H.
  cbn zeta in H. simpl length in H. rewrite Nat.sub_0_r in H.
  apply H; lia.
Qed.

Lemma unpack_be32_length (b : bytes) : is_Some (unpack_be32 b) <-> length b = 4%nat.
Proof.
  split.
  - intros [z Hz]. destruct b as [|? [|? [|? [|? [|? ?]]]]]; try discriminate; reflexivity.
  - intros Hl. destruct b as [|? [|? [|? [|? [|? ?]]]]]; try discriminate; eexists; reflexivity.
Qed.

(** C3 (amended): [recv_msg] reads exactly one frame.  It reads the four
    bytes of the big-endian length and returns [None] when the stream closes
    before they are in (on a stream that stays open and silent it blocks);
    it then reads exactly that many bytes, which it returns as they are, and
    returns [None] when the stream closes before they are in.  It raises no
    error of its own and parses nothing: JSON is parsed by
    [_format_states_data], where a text that does not parse raises
    [json.JSONDecodeError]. *)
Theorem recv_msg_reads_one_frame (sock : conn) (text : string) :
  (let bs := concat (c_inbox sock) in
   let closed := if c_eof sock then Ok None else Diverge in
   match unpack_be32 (take 4 bs) with
   | None => (length bs < 4)%nat /\ fst (recv_msg sock) = closed
   | Some msglen =>
       if (4 + Z.to_nat msglen <=? length bs)%nat then
         exists sock',
           recv_msg sock = (Ok (Some (take (Z.to_nat msglen) (drop 4 bs))), sock') /\
           concat (c_inbox sock') = drop (4 + Z.to_nat msglen) bs
       else fst (recv_msg sock) = closed
   end) /\
  match json_loads text with
  | None => _format_states_data text = Raise JSONDecodeError
  | Some _ => True
  end.
Proof.
  split.
  2: { unfold _format_states_data. destruct (json_loads text); [exact I|reflexivity]. }
  cbn zeta. unfold recv_msg.
  pose proof (recvall_spec sock 4) as H4. cbn zeta in H4.
  destruct (Nat.leb_spec 4 (length (concat (c_inbox sock)))) as [Hlen|Hlen].
  - destruct H4 as (s1 & Hr & Hc & He & _). rewrite Hr.
    assert (Hsome : is_Some (unpack_be32 (take 4 (concat (c_inbox sock))))).
    { apply unpack_be32_length. rewrite length_take. lia. }
    destruct Hsome as [msglen Hm]. rewrite Hm.
    pose proof (recvall_spec s1 (Z.to_nat msglen)) as Hb. cbn zeta in Hb.
    rewrite Hc, He in Hb. rewrite length_drop in Hb.
    destruct (Nat.leb_spec (4 + Z.to_nat msglen) (length (concat (c_inbox sock)))) as [H1|H1].
    + destruct (Nat.leb_spec (Z.to_nat msglen) (length (concat (c_inbox sock)) - 4)) as [H2|H2];
        [|lia].
      destruct Hb as (s2 & Hr2 & Hc2 & _). exists s2. split; [exact Hr2|].
      rewrite Hc2, drop_drop. reflexivity.
    + destruct (Nat.leb_spec (Z.to_nat msglen) (length (concat (c_inbox sock)) - 4)) as [H2|H2];
        [lia|]. exact Hb.
  - destruct (unpack_be32 (take 4 (concat (c_inbox sock)))) as [m|] eqn:Hm.
    + assert (Hs : is_Some (unpack_be32 (take 4 (concat (c_inbox sock))))) by eauto.
      apply unpack_be32_length in Hs. rewrite length_take in Hs. lia.
    + split; [exact Hlen|].
      destruct (recvall sock 4) as [[[r|]|e|] s1]; simpl in *;
        destruct (c_eof sock); try discriminate; reflexivity.
Qed.

End Framing.

(** ** The receive loop *)

Section Receive.
Context {FL : PyFloat} {RT : Runtime}.

Lemma bind_Ok {A B : Type} (m : M A) (k : A -> M B) (st st' : state) (a : A) :
  m st = (Ok a, st') -> bind m k st = k a st'.
Proof. intros E. unfold bind. rewrite E. reflexivity. Qed.

Lemma bind_Raise {A B : Type} (m : M A) (k : A -> M B) (st st' : state) (e : exn) :
  m st = (Raise e, st') -> bind m k st = (Raise e, st').
Proof. intros E. unfold bind. rewrite E. reflexivity. Qed.

Lemma bind_Diverge {A B : Type} (m : M A) (k : A -> M B) (st : state) :
  fst (m st) = Diverge -> fst (bind m k st) = Diverge.
Proof. intros E. unfold bind. destruct (m st) as [[a|e|] st']; try discriminate. reflexivity. Qed.

Lemma inbox_recv_small (k : nat) (inbox : list bytes) (p : bytes) (inbox' : list bytes) :
  small_chunks inbox -> inbox_recv k inbox = Some (p, inbox') ->
  (length p <= 4)%nat /\ small_chunks inbox'.
Proof.
  unfold small_chunks. induction 1 as [|c rest Hc Hrest IH]; simpl; [discriminate|].
  destruct c as [|b c]; [exact IH|].
  intros E. injection E as <- <-. split.
  - rewrite length_take. lia.
  - destruct (drop k (b :: c)) as [|x r] eqn:D; [exact Hrest|].
    constructor; [|exact Hrest].
    rewrite <- D, length_drop. lia.
Qed.

Lemma receive_loop_small (fuel : nat) :
  forall (total_data : bytes) (st : state) (c : conn),
    client_socket (self st) = Some c -> small_chunks (c_inbox c) ->
    fst (receive_loop fuel total_data st) = Diverge.
Proof.
  induction fuel as [|fuel IH]; intros total_data st c Hc Hs; [reflexivity|].
  simpl receive_loop. unfold bind, client_recv. rewrite Hc. unfold recv.
  destruct (inbox_recv 4096 (c_inbox c)) as [[p inbox']|] eqn:E.
  - destruct (inbox_recv_small _ _ _ _ Hs E) as [Hp Hs'].
    destruct (Nat.ltb_spec 4 (length p)) as [H4|H4]; [lia|].
    eapply IH; [reflexivity|exact Hs'].
  - destruct (c_eof c); [|reflexivity].
    simpl. eapply IH; [reflexivity|]. constructor.
Qed.

(** A payload of five to 4095 bytes that arrives in one delivery is returned
    whole after one turn of the loop. *)
Lemma receive_loop_one_chunk (fuel : nat) (st : state) (c : conn)
    (payload : bytes) (rest : list bytes) :
  client_socket (self st) = Some c -> c_inbox c = payload :: rest ->
  (4 < length payload < 4096)%nat ->
  receive_loop (S fuel) [] st =
    (Ok payload,
     {| self := set_client_socket
                  (Some {| c_id := c_id c; c_inbox := rest; c_eof := c_eof c |}) (self st);
        os := os st; heap := heap st |}).
Proof.
  intros Hc Hi [Hlo Hhi]. simpl receive_loop. unfold bind, client_recv. rewrite Hc.
  unfold recv. rewrite Hi. destruct payload as [|b p]; [simpl in Hlo; lia|].
  cbn [inbox_recv]. rewrite take_ge by lia. rewrite drop_ge by lia.
  destruct (Nat.ltb_spec 4 (length (b :: p))) as [H4|H4]; [|lia].
  destruct (Nat.ltb_spec (length (b :: p)) 4096) as [H5|H5]; [|lia].
  reflexivity.
Qed.

Lemma bytewise_small (payload : bytes) : small_chunks (map (fun b => [b]) payload).
Proof. unfold small_chunks. apply Forall_map, Forall_forall. intros; simpl; lia. Qed.

(** C2: the receive operation of [reset] and [step] depends on how the
    payload is cut.  When every byte of a payload arrives in a delivery of
    its own, each delivery is dropped for being at most four bytes long and
    [_get_environment_state] never returns, however long it runs. *)
Theorem receive_bytewise_never_returns (fuel : nat) (st : state) (c : conn) (payload : bytes) :
  client_socket (self st) = Some c ->
  c_inbox c = map (fun b => [b]) payload ->
  fst (_get_environment_state fuel st) = Diverge.
Proof.
  intros Hc Hi. unfold _get_environment_state, _wait_and_receive_states_data.
  apply bind_Diverge, bind_Diverge.
  eapply receive_loop_small; [exact Hc|]. rewrite Hi. apply bytewise_small.
Qed.

Lemma build_receive_loop_spec (payload : bytes) (fuel : nat) :
  parses payload = true ->
  (forall k : nat, (k < length payload)%nat -> parses (take k payload) = false) ->
  forall (total_data : bytes) (st : state) (c : conn),
    client_socket (self st) = Some c ->
    total_data ++ concat (c_inbox c) = payload ->
    (length total_data < length payload)%nat ->
    (inbox_size (c_inbox c) < fuel)%nat ->
    fst (build_receive_loop fuel total_data st) = Ok payload.
Proof.
  intros Hp Hpre. induction fuel as [|fuel IH]; intros total_data st c Hc Hcat Hlt Hf; [lia|].
  simpl build_receive_loop. unfold bind, client_recv. rewrite Hc. unfold recv.
  destruct (inbox_recv 4096 (c_inbox c)) as [[p inbox']|] eqn:E.
  - apply inbox_recv_Some in E as (Hp' & _ & Hne).
    assert (Hpne : (0 < length p)%nat).
    { destruct p; [exfalso; apply Hne; [lia|reflexivity]|simpl; lia]. }
    assert (Hcat' : (total_data ++ p) ++ concat inbox' = payload).
    { rewrite <- app_assoc, Hp'. exact Hcat. }
    destruct (decide (length (total_data ++ p) = length payload)) as [Heq|Hneq].
    + assert (Hnil : concat inbox' = []).
      { apply (f_equal length) in Hcat'. rewrite length_app in Hcat'.
        destruct (concat inbox'); [reflexivity|simpl in Hcat'; lia]. }
      rewrite Hnil, app_nil_r in Hcat'. rewrite Hcat', Hp. reflexivity.
    + assert (Hlt' : (length (total_data ++ p) < length payload)%nat).
      { apply (f_equal length) in Hcat'. rewrite length_app in Hcat'. lia. }
      assert (Htake : total_data ++ p = take (length (total_data ++ p)) payload).
      { rewrite <- Hcat'. rewrite take_app_length. reflexivity. }
      assert (Hno : parses (total_data ++ p) = false).
      { rewrite Htake. apply Hpre, Hlt'. }
      rewrite Hno.
      eapply IH; [reflexivity|exact Hcat'|exact Hlt'|].
      simpl. unfold inbox_size in *. rewrite <- Hp', length_app in Hf. lia.
  - apply inbox_recv_None in E. rewrite E, app_nil_r in Hcat. subst. lia.
Qed.

(** X7: however a response is cut into deliveries, the receive loop of the
    built copy returns it whole, provided it parses and nothing shorter
    does. *)
Lemma build_receive_any_chunks (payload : bytes) (st : state) (c : conn) :
  client_socket (self st) = Some c ->
  concat (c_inbox c) = payload ->
  payload <> [] ->
  parses payload = true ->
  (forall k : nat, (k < length payload)%nat -> parses (take k payload) = false) ->
  fst (build_receive_loop (S (length payload)) [] st) = Ok payload.
Proof.
  intros Hc Hcat Hne Hp Hpre.
  apply (build_receive_loop_spec payload _ Hp Hpre [] st c Hc); try assumption.
  - destruct payload; [contradiction|simpl; lia].
  - unfold inbox_size. rewrite Hcat. lia.
Qed.

End Receive.

(** ** The derived views *)

Section Views.
Context {FL : PyFloat} {RT : Runtime}.

Lemma omap_Ok {A B : Type} (f : A -> outcome B) (l : list A) (l' : list B) :
  omap f l = Ok l' <-> Forall2 (fun a b => f a = Ok b) l l'.
Proof.
  revert l'. induction l as [|a l IH]; intros l'; simpl.
  - split; [intros [= <-]; constructor|inversion 1; reflexivity].
  - split.
    + destruct (f a) as [b| |] eqn:Ea; simpl; try discriminate.
      destruct (omap f l) as [r| |] eqn:Er; simpl; try discriminate.
      intros [= <-]. constructor; [exact Ea|]. apply IH. reflexivity.
    + inversion 1 as [|? b ? r Ha Hr]; subst. rewrite Ha. simpl.
      apply IH in Hr. rewrite Hr. reflexivity.
Qed.

Lemma split_loop_Ok (items : list pyval) :
  forall (S0 R0 S1 R1 : list pyval),
    split_loop items S0 R0 = Ok (S1, R1) <->
    exists sv rv, omap state_view items = Ok sv /\ omap reward_view items = Ok rv /\
                  S1 = S0 ++ sv /\ R1 = R0 ++ rv.
Proof.
  induction items as [|a items IH]; intros S0 R0 S1 R1; simpl.
  - split.
    + intros [= <- <-]. exists [], []. rewrite !app_nil_r. auto.
    + intros (sv & rv & [= <-] & [= <-] & -> & ->). rewrite !app_nil_r. reflexivity.
  - unfold state_view, reward_view.
    destruct (getitem a "name") as [nm| |]; simpl;
      try (split; [discriminate|intros (sv & rv & E & _); discriminate E]).
    destruct (getitem a "state") as [s| |]; simpl;
      try (split; [discriminate|intros (sv & rv & E & _); discriminate E]).
    destruct (getitem a "reward") as [rw| |]; simpl;
      try (split; [discriminate|intros (sv & rv & _ & E & _); discriminate E]).
    rewrite IH. split.
    + intros (sv & rv & Hs & Hr & -> & ->).
      exists (PyDict [("name", nm); ("state", s)] :: sv),
             (PyDict [("name", nm); ("reward", rw)] :: rv).
      fold state_view reward_view in *.
      change (omap (fun e => let! name := getitem e "name" in
                             let! state := getitem e "state" in
                             Ok (PyDict [("name", name); ("state", state)])) items)
        with (omap state_view items).
      change (omap (fun e => let! name := getitem e "name" in
                             let! reward := getitem e "reward" in
                             Ok (PyDict [("name", name); ("reward", reward)])) items)
        with (omap reward_view items).
      rewrite Hs, Hr. simpl. rewrite <- !app_assoc. auto.
    + change (omap (fun e => let! name := getitem e "name" in
                             let! state := getitem e "state" in
                             Ok (PyDict [("name", name); ("state", state)])) items)
        with (omap state_view items).
      change (omap (fun e => let! name := getitem e "name" in
                             let! reward := getitem e "reward" in
                             Ok (PyDict [("name", name); ("reward", reward)])) items)
        with (omap reward_view items).
      destruct (omap state_view items) as [sv0| |]; simpl;
        try (intros (sv & rv & E & _); discriminate E).
      destruct (omap reward_view items) as [rv0| |]; simpl;
        try (intros (sv & rv & _ & E & _); discriminate E).
      intros (sv & rv & [= <-] & [= <-] & -> & ->).
      exists sv0, rv0. rewrite <- !app_assoc. auto.
Qed.

Lemma scale_rewards_loop_spec (n_frames : pyval) (post : list pyval) :
  forall (pre : list pyval),
    scale_rewards_loop (length post) (length pre) (pre ++ post) n_frames =
    let! post' := omap (scale_one n_frames) post in Ok (pre ++ post').
Proof.
  induction post as [|a post IH]; intros pre; simpl.
  - reflexivity.
  - rewrite list_lookup_middle by reflexivity.
    unfold scale_one at 1.
    destruct (getitem a "reward") as [r| |]; simpl; try reflexivity.
    destruct (py_truediv r n_frames) as [q| |]; simpl; try reflexivity.
    destruct a as [| | | | | |d]; simpl; try reflexivity.
    rewrite (insert_app_r_alt pre (PyDict d :: post) (length pre)) by lia.
    rewrite Nat.sub_diag. simpl.
    specialize (IH (pre ++ [PyDict (dict_set d "reward" q)])).
    rewrite length_app in IH. simpl in IH. rewrite Nat.add_1_r in IH.
    rewrite <- app_assoc in IH. simpl in IH. rewrite IH.
    destruct (omap (scale_one n_frames) post); simpl; try reflexivity.
    rewrite <- app_assoc. reflexivity.
Qed.

Lemma scale_rewards_all (n_frames : pyval) (rewards_data : list pyval) :
  scale_rewards_loop (length rewards_data) 0 rewards_data n_frames =
  omap (scale_one n_frames) rewards_data.
Proof.
  pose proof (scale_rewards_loop_spec n_frames rewards_data []) as H.
  simpl in H. rewrite H. destruct (omap _ _); reflexivity.
Qed.

Lemma dict_get_set_ne {V : Type} (d : list (string * V)) (k k' : string) (v : V) :
  k <> k' -> dict_get (dict_set d k v) k' = dict_get d k'.
Proof.
  intros Hne. induction d as [|[k0 v0] d IH]; simpl.
  - destruct (String.eqb_spec k k'); [contradiction|reflexivity].
  - destruct (String.eqb_spec k0 k) as [->|H0]; simpl.
    + destruct (String.eqb_spec k k'); [contradiction|reflexivity].
    + destruct (String.eqb_spec k0 k'); [reflexivity|exact IH].
Qed.

Lemma dict_get_set_eq {V : Type} (d : list (string * V)) (k : string) (v : V) :
  dict_get (dict_set d k v) k = Some v.
Proof.
  induction d as [|[k0 v0] d IH]; simpl.
  - rewrite String.eqb_refl. reflexivity.
  - destruct (String.eqb_spec k0 k) as [->|H0]; simpl.
    + rewrite String.eqb_refl. reflexivity.
    + destruct (String.eqb_spec k0 k); [contradiction|exact IH].
Qed.

Lemma scale_one_name (n_frames r r' : pyval) :
  scale_one n_frames r = Ok r' -> name_of r' = name_of r.
Proof.
  unfold scale_one. destruct (getitem r "reward"); simpl; try discriminate.
  destruct (py_truediv _ _); simpl; try discriminate.
  destruct r; try discriminate. intros [= <-].
  unfold name_of, getitem. rewrite dict_get_set_ne by discriminate. reflexivity.
Qed.

Lemma state_view_name (a v : pyval) : state_view a = Ok v -> name_of v = name_of a.
Proof.
  unfold state_view, name_of. destruct (getitem a "name") eqn:E; simpl; try discriminate.
  destruct (getitem a "state"); simpl; try discriminate. intros [= <-]. reflexivity.
Qed.

Lemma reward_view_name (a v : pyval) : reward_view a = Ok v -> name_of v = name_of a.
Proof.
  unfold reward_view, name_of. destruct (getitem a "name") eqn:E; simpl; try discriminate.
  destruct (getitem a "reward"); simpl; try discriminate. intros [= <-]. reflexivity.
Qed.

Lemma Forall2_names (R : pyval -> pyval -> Prop) (l l' : list pyval) :
  (forall a b, R a b -> name_of b = name_of a) ->
  Forall2 R l l' -> map name_of l' = map name_of l.
Proof.
  intros HR. induction 1 as [|a b l l' Hab _ IH]; simpl; [reflexivity|].
  rewrite (HR _ _ Hab), IH. reflexivity.
Qed.

Lemma step_unfold (fuel : nat) (actions_data : list loc) (st : state) :
  step fuel actions_data st = bind (step_exchange fuel actions_data) step_tail st.
Proof.
  unfold step, step_exchange, step_tail, bind.
  destruct (_create_request false false (Some actions_data) st) as [[req| |] st1]; try reflexivity.
  destruct (client_sendall req st1) as [[[]| |] st2]; try reflexivity.
Qed.

Lemma step_from_exchange (fuel : nat) (actions_data : list loc) (st : state) (env : pyval) :
  fst (step_exchange fuel actions_data st) = Ok env ->
  step fuel actions_data st = step_tail env (snd (step_exchange fuel actions_data st)).
Proof.
  intros E. rewrite step_unfold. unfold bind.
  destruct (step_exchange fuel actions_data st) as [[a| |] st1]; try discriminate.
  simpl in E. injection E as ->. reflexivity.
Qed.

End Views.

(** ** Rewards, frame count and agent order *)

Section Step.
Context {FL : PyFloat} {RT : Runtime}.

Lemma step_tail_Ok (env : pyval) (st : state) (states rewards : list pyval) (d n : pyval) :
  fst (step_tail env st) = Ok (states, rewards, d, n) ->
  exists sts rv,
    getitem env "states_data" = Ok sts /\ _split_env_data sts = Ok (states, rv) /\
    getitem env "n_frames" = Ok n /\ omap (scale_one n) rv = Ok rewards /\
    getitem env "done" = Ok d.
Proof.
  unfold step_tail, bind, lift.
  destruct (getitem env "states_data") as [sts| |]; cbn [fst]; try discriminate.
  destruct (_split_env_data sts) as [[sv rv]| |] eqn:Esp; cbn [fst]; try discriminate.
  destruct (record_metrics env st) as [[[]| |] st2]; cbn [fst]; try discriminate.
  destruct (getitem env "n_frames") as [n0| |]; cbn [fst]; try discriminate.
  cbn [fst snd]. rewrite scale_rewards_all.
  destruct (omap (scale_one n0) rv) as [rw| |] eqn:Esc; cbn [fst]; try discriminate.
  destruct (getitem env "done") as [d0| |]; cbn [fst]; try discriminate.
  unfold ret. cbn [fst]. intros [= <- <- <- <-].
  exists sts, rv. repeat split; auto.
Qed.

Lemma record_metrics_Ok (env : pyval) (agents : list pyval) (st : state) :
  getitem env "states_data" = Ok (PyList agents) ->
  first_carries_metrics agents = true ->
  fst (record_metrics env st) = Ok tt.
Proof.
  intros Hs Hm. destruct agents as [|a rest]; [discriminate|].
  unfold first_carries_metrics, carries_metrics in Hm.
  destruct (getitem a "metrics") as [m| |] eqn:Em; try discriminate.
  destruct (getitem m "region") as [rg| |] eqn:Er; try discriminate.
  destruct (getitem m "misc") as [mi| |] eqn:Ei; try discriminate.
  unfold record_metrics, bind, lift. rewrite Hs. cbn [getitem_int lookup list_lookup].
  rewrite Em, Er. cbn. rewrite Ei. destruct (truthy mi); reflexivity.
Qed.

Lemma py_truediv_number (rw : pyval) (n : Z) :
  is_number rw = true -> n <> 0 -> quotient_fits n rw = true ->
  exists q, py_truediv rw (PyInt n) = Ok q.
Proof.
  intros Hn Hz Hf. destruct rw; try discriminate; unfold py_truediv;
    (destruct (Z.eqb_spec n 0); [contradiction|]); simpl in Hf.
  - destruct (int_truediv z n); [|discriminate]. eexists; reflexivity.
  - destruct (float_of_int n); [|discriminate]. eexists; reflexivity.
Qed.

Lemma py_truediv_zero (rw : pyval) :
  is_number rw = true -> py_truediv rw (PyInt 0) = Raise ZeroDivisionError.
Proof. intros Hn. destruct rw; try discriminate; reflexivity. Qed.

Lemma views_of_well_formed (agents : list pyval) :
  forallb well_formed_agent agents = true ->
  exists sv rv, omap state_view agents = Ok sv /\ omap reward_view agents = Ok rv.
Proof.
  induction agents as [|a agents IH]; simpl; [exists [], []; auto|].
  intros H. apply andb_true_iff in H as [Ha Hr].
  destruct (IH Hr) as (sv & rv & Hs & Hv). unfold well_formed_agent in Ha.
  unfold state_view, reward_view.
  destruct (getitem a "name"); try discriminate.
  destruct (getitem a "state"); try discriminate.
  destruct (getitem a "reward"); try discriminate. simpl.
  change (omap _ agents) with (omap state_view agents) at 1. rewrite Hs.
  change (omap _ agents) with (omap reward_view agents). rewrite Hv.
  simpl. eauto.
Qed.

Lemma scaled_of_well_formed (n : Z) (agents rv : list pyval) :
  n <> 0 -> forallb well_formed_agent agents = true ->
  forallb (reward_fits n) agents = true ->
  omap reward_view agents = Ok rv ->
  exists rewards, omap (scale_one (PyInt n)) rv = Ok rewards /\
                  Forall2 (scaled_reward (PyInt n)) agents rewards.
Proof.
  intros Hn. revert rv. induction agents as [|a agents IH]; intros rv; simpl.
  - intros _ _ [= <-]. exists []. split; [reflexivity|constructor].
  - intros H Hfit. apply andb_true_iff in H as [Ha Hr]. unfold well_formed_agent in Ha.
    apply andb_true_iff in Hfit as [Hfa Hfr]. unfold reward_fits in Hfa.
    unfold reward_view at 1.
    destruct (getitem a "name") as [nm| |] eqn:En; try discriminate.
    destruct (getitem a "state") as [s| |]; try discriminate.
    destruct (getitem a "reward") as [rw| |] eqn:Ew; try discriminate. simpl in Ha |- *.
    destruct (omap reward_view agents) as [rv0| |] eqn:Ev; try discriminate.
    simpl. intros [= <-].
    destruct (IH rv0 Hr Hfr eq_refl) as (rewards & Hsc & Hall).
    destruct (py_truediv_number rw n Ha Hn Hfa) as [q Hq].
    exists (PyDict [("name", nm); ("reward", q)] :: rewards). split.
    + simpl. unfold scale_one at 1. simpl. rewrite Hq. simpl. rewrite Hsc. reflexivity.
    + constructor; [|exact Hall]. exists nm, rw, q. auto.
Qed.

(** C4 (amended): for every response with [n_frames >= 1] whose agents
    carry a name, a state and a numeric reward that divided by [n_frames]
    stays within the floats, and whose first agent carries metrics with a
    region and a misc entry, [step] returns for every agent its reward
    divided by [n_frames], and returns the done flag and [n_frames] as
    received. *)
Theorem step_scales_rewards (fuel : nat) (actions_data : list loc) (st : state)
    (env : pyval) (agents : list pyval) (n : Z) (d : pyval) :
  fst (step_exchange fuel actions_data st) = Ok env ->
  getitem env "states_data" = Ok (PyList agents) ->
  getitem env "n_frames" = Ok (PyInt n) ->
  1 <= n ->
  getitem env "done" = Ok d ->
  forallb well_formed_agent agents = true ->
  forallb (reward_fits n) agents = true ->
  first_carries_metrics agents = true ->
  exists states rewards,
    fst (step fuel actions_data st) = Ok (states, rewards, d, PyInt n) /\
    Forall2 (scaled_reward (PyInt n)) agents rewards.
Proof.
  intros Hex Hs Hn Hpos Hd Hwf Hfit Hm.
  rewrite (step_from_exchange _ _ _ _ Hex).
  set (st1 := snd (step_exchange fuel actions_data st)).
  destruct (views_of_well_formed _ Hwf) as (sv & rv & Hsv & Hrv).
  destruct (scaled_of_well_formed n agents rv ltac:(lia) Hwf Hfit Hrv)
    as (rewards & Hsc & Hall).
  exists sv, rewards. split; [|exact Hall].
  unfold step_tail, bind, lift. rewrite Hs.
  assert (Hsplit : _split_env_data (PyList agents) = Ok (sv, rv)).
  { unfold _split_env_data. simpl. apply split_loop_Ok. exists sv, rv. auto. }
  rewrite Hsplit.
  pose proof (record_metrics_Ok env agents st1 Hs Hm) as Hrec.
  destruct (record_metrics env st1) as [[[]| |] st2]; try discriminate.
  rewrite Hn. cbn [fst snd]. rewrite scale_rewards_all, Hsc, Hd. reflexivity.
Qed.

(** C5 (amended): when a response of that shape carries [n_frames = 0],
    [step] fails with [ZeroDivisionError], raised by the division of the
    first agent's reward. *)
Theorem step_zero_frames (fuel : nat) (actions_data : list loc) (st : state)
    (env : pyval) (agents : list pyval) :
  fst (step_exchange fuel actions_data st) = Ok env ->
  getitem env "states_data" = Ok (PyList agents) ->
  getitem env "n_frames" = Ok (PyInt 0) ->
  forallb well_formed_agent agents = true ->
  first_carries_metrics agents = true ->
  fst (step fuel actions_data st) = Raise ZeroDivisionError /\
  exists a rest rw,
    agents = a :: rest /\ getitem a "reward" = Ok rw /\
    py_truediv rw (PyInt 0) = Raise ZeroDivisionError.
Proof.
  intros Hex Hs Hn Hwf Hm.
  rewrite (step_from_exchange _ _ _ _ Hex).
  set (st1 := snd (step_exchange fuel actions_data st)).
  destruct (views_of_well_formed _ Hwf) as (sv & rv & Hsv & Hrv).
  assert (Hsplit : _split_env_data (PyList agents) = Ok (sv, rv)).
  { unfold _split_env_data. simpl. apply split_loop_Ok. exists sv, rv. auto. }
  pose proof (record_metrics_Ok env agents st1 Hs Hm) as Hrec.
  destruct agents as [|a rest]; [discriminate|].
  simpl in Hwf. apply andb_true_iff in Hwf as [Ha _]. unfold well_formed_agent in Ha.
  simpl in Hrv. unfold reward_view at 1 in Hrv.
  destruct (getitem a "name") as [nm| |] eqn:En; try discriminate.
  destruct (getitem a "state") as [s| |]; try discriminate.
  destruct (getitem a "reward") as [rw| |] eqn:Ew; try discriminate.
  simpl in Ha, Hrv.
  destruct (omap reward_view rest) as [rv0| |]; try discriminate.
  simpl in Hrv. injection Hrv as <-.
  split.
  - unfold step_tail, bind, lift. rewrite Hs, Hsplit.
    destruct (record_metrics env st1) as [[[]| |] st2]; try discriminate.
    rewrite Hn. cbn [fst snd]. rewrite scale_rewards_all. simpl.
    unfold scale_one at 1. simpl. rewrite (py_truediv_zero rw Ha). reflexivity.
  - exists a, rest, rw. split; [reflexivity|]. split; [first [exact Ew|reflexivity]|].
    apply py_truediv_zero, Ha.
Qed.

(** C6: when [step] returns, the states list and the rewards list name the
    agents of the response in the order of the response, and the names are
    the ones received. *)
Theorem step_preserves_agent_order (fuel : nat) (actions_data : list loc) (st : state)
    (env : pyval) (agents states rewards : list pyval) (d n : pyval) :
  fst (step_exchange fuel actions_data st) = Ok env ->
  getitem env "states_data" = Ok (PyList agents) ->
  fst (step fuel actions_data st) = Ok (states, rewards, d, n) ->
  map name_of states = map name_of agents /\
  map name_of rewards = map name_of agents /\
  forallb (fun a => is_ok (name_of a)) agents = true.
Proof.
  intros Hex Hs Hstep.
  rewrite (step_from_exchange _ _ _ _ Hex) in Hstep.
  apply step_tail_Ok in Hstep as (sts & rv & Hs' & Hsplit & Hn & Hsc & Hd).
  rewrite Hs in Hs'. injection Hs' as <-.
  unfold _split_env_data in Hsplit. simpl in Hsplit.
  apply split_loop_Ok in Hsplit as (sv & rv' & Hsv & Hrv & -> & ->). simpl.
  simpl in Hsc. apply omap_Ok in Hsv, Hrv, Hsc.
  split; [|split].
  - apply (Forall2_names _ _ _ state_view_name Hsv).
  - rewrite (Forall2_names _ _ _ (scale_one_name n) Hsc).
    apply (Forall2_names _ _ _ reward_view_name Hrv).
  - clear -Hsv. induction Hsv as [|a b l l' Hab _ IH]; simpl; [reflexivity|].
    rewrite IH, andb_true_r. unfold state_view in Hab. unfold name_of.
    destruct (getitem a "name"); try discriminate. reflexivity.
Qed.

End Step.

(** ** The dictionaries of the caller *)

Section Heap.
Context {FL : PyFloat} {RT : Runtime}.

Lemma heap_stable_bind {A B : Type} (m : M A) (k : A -> M B) :
  heap_stable m -> (forall a, heap_stable (k a)) -> heap_stable (bind m k).
Proof.
  intros Hm Hk st. unfold bind. specialize (Hm st).
  destruct (m st) as [[a| |] st1]; simpl in *; try exact Hm.
  rewrite Hk. exact Hm.
Qed.

Lemma heap_after_bind {A B : Type} (m : M A) (k : A -> M B) (st : state) :
  (forall a, heap_stable (k a)) -> heap (snd (bind m k st)) = heap (snd (m st)).
Proof.
  intros Hk. unfold bind. destruct (m st) as [[a| |] st1]; simpl; try reflexivity.
  apply Hk.
Qed.

Lemma heap_stable_ret {A : Type} (a : A) : heap_stable (ret a).
Proof. intros st. reflexivity. Qed.
Lemma heap_stable_raise {A : Type} (e : exn) : heap_stable (@raise _ _ A e).
Proof. intros st. reflexivity. Qed.
Lemma heap_stable_diverge {A : Type} : heap_stable (@diverge _ _ A).
Proof. intros st. reflexivity. Qed.
Lemma heap_stable_lift {A : Type} (o : outcome A) : heap_stable (lift o).
Proof. intros st. reflexivity. Qed.
Lemma heap_stable_get_self : heap_stable get_self.
Proof. intros st. reflexivity. Qed.
Lemma heap_stable_modify_self (f : session -> session) : heap_stable (modify_self f).
Proof. intros st. reflexivity. Qed.
Lemma heap_stable_emit (e : event) : heap_stable (emit e).
Proof. intros st. reflexivity. Qed.

Lemma heap_stable_client_sendall (data : bytes) : heap_stable (client_sendall data).
Proof.
  unfold client_sendall. apply heap_stable_bind; [apply heap_stable_get_self|].
  intros s. destruct (client_socket s); [apply heap_stable_emit|apply heap_stable_raise].
Qed.

Lemma heap_stable_client_recv (bufsize : nat) : heap_stable (client_recv bufsize).
Proof.
  intros st. unfold client_recv. destruct (client_socket (self st)); [|reflexivity].
  destruct (recv c bufsize). reflexivity.
Qed.

Lemma heap_stable_receive_loop (fuel : nat) :
  forall total_data, heap_stable (receive_loop fuel total_data).
Proof.
  induction fuel as [|fuel IH]; intros total_data; simpl.
  - apply heap_stable_diverge.
  - apply heap_stable_bind; [apply heap_stable_client_recv|].
    intros p. destruct (4 <? length p)%nat; [|apply IH].
    destruct (length p <? 4096)%nat; [apply heap_stable_ret|apply IH].
Qed.

Lemma heap_stable_get_environment_state (fuel : nat) :
  heap_stable (_get_environment_state fuel).
Proof.
  unfold _get_environment_state, _wait_and_receive_states_data.
  apply heap_stable_bind; [|intros; apply heap_stable_lift].
  apply heap_stable_bind; [apply heap_stable_receive_loop|].
  intros b. destruct (bytes_decode b); [apply heap_stable_ret|apply heap_stable_raise].
Qed.

Lemma heap_stable_record_metrics (env : pyval) : heap_stable (record_metrics env).
Proof.
  unfold record_metrics.
  repeat first
    [ apply heap_stable_lift | apply heap_stable_get_self | apply heap_stable_modify_self
    | apply heap_stable_ret
    | apply heap_stable_bind; [|intros ?]
    | match goal with |- heap_stable (if ?b then _ else _) => destruct b end ].
Qed.

Lemma heap_stable_step_tail (env : pyval) : heap_stable (step_tail env).
Proof.
  unfold step_tail.
  repeat first
    [ apply heap_stable_lift | apply heap_stable_record_metrics | apply heap_stable_ret
    | apply heap_stable_bind; [|intros ?] ].
Qed.

Lemma int_action_idem (d : adict) : int_action (int_action d) = int_action d.
Proof.
  unfold int_action at 2 3. destruct (dict_get d "action") as [[z|v]|] eqn:E.
  - unfold int_action. rewrite dict_get_set_eq. reflexivity.
  - unfold int_action. rewrite E. reflexivity.
  - unfold int_action. rewrite E. reflexivity.
Qed.

Ltac membership_absurd :=
  exfalso;
  repeat match goal with
         | H : context [_ ∈ _ :: _] |- _ => rewrite elem_of_cons in H
         end;
  intuition congruence.

Lemma format_actions_loop_spec (actions_data : list loc) (count : nat) :
  forall (n_agent : nat) (st : state),
    (n_agent + count = length actions_data)%nat ->
    forallb (has_action (heap st)) (drop n_agent actions_data) = true ->
    exists st',
      format_actions_loop count n_agent actions_data st = (Ok tt, st') /\
      self st' = self st /\ os st' = os st /\
      forall l : loc,
        heap st' !! l =
        if decide (l ∈ drop n_agent actions_data) then int_action <$> heap st !! l
        else heap st !! l.
Proof.
  induction count as [|count IH]; intros n_agent st Hlen Hall.
  - exists st. repeat split; try reflexivity.
    intros l. rewrite drop_ge by lia. case_decide as Hin; [|reflexivity].
    apply elem_of_nil in Hin. contradiction.
  - assert (Hlt : (n_agent < length actions_data)%nat) by lia.
    destruct (lookup_lt_is_Some_2 actions_data n_agent Hlt) as [l0 Hl0].
    rewrite (drop_S _ _ _ Hl0) in Hall |- *.
    simpl in Hall. apply andb_true_iff in Hall as [H0 Hrest].
    simpl format_actions_loop. rewrite Hl0.
    unfold has_action in H0.
    destruct (heap st !! l0) as [d|] eqn:Ed; [|discriminate].
    destruct (dict_get d "action") as [[z|v]|] eqn:Ea; [| |discriminate].
    + set (st1 := {| self := self st; os := os st;
                     heap := <[l0 := dict_set d "action" (Plain (PyInt z))]> (heap st) |}).
      assert (Hrest1 : forallb (has_action (heap st1)) (drop (S n_agent) actions_data) = true).
      { apply forallb_forall. intros x Hx.
        rewrite forallb_forall in Hrest. specialize (Hrest x Hx).
        unfold has_action in *. simpl heap.
        destruct (decide (x = l0)) as [->|Hne].
        - rewrite lookup_insert_eq, dict_get_set_eq. reflexivity.
        - rewrite lookup_insert_ne by congruence. exact Hrest. }
      destruct (IH (S n_agent) st1 ltac:(lia) Hrest1) as (st' & Hrun & Hself & Hos & Hheap).
      exists st'. split; [exact Hrun|]. split; [exact Hself|]. split; [exact Hos|].
      intros l. rewrite Hheap. simpl heap.
      destruct (decide (l = l0)) as [->|Hne].
      * rewrite lookup_insert_eq, Ed. simpl.
        assert (Hconv : int_action d = dict_set d "action" (Plain (PyInt z))).
        { unfold int_action. rewrite Ea. reflexivity. }
        repeat case_decide; simpl; rewrite <- ?Hconv, ?int_action_idem;
          first [reflexivity | membership_absurd].
      * rewrite lookup_insert_ne by congruence.
        repeat case_decide; first [reflexivity | membership_absurd].
    + destruct (IH (S n_agent) st ltac:(lia) Hrest) as (st' & Hrun & Hself & Hos & Hheap).
      exists st'. split; [exact Hrun|]. split; [exact Hself|]. split; [exact Hos|].
      intros l. rewrite Hheap.
      destruct (decide (l = l0)) as [->|Hne].
      * rewrite Ed. simpl.
        assert (Hconv : int_action d = d) by (unfold int_action; rewrite Ea; reflexivity).
        repeat case_decide; simpl; rewrite ?Hconv; first [reflexivity | membership_absurd].
      * repeat case_decide; first [reflexivity | membership_absurd].
Qed.

Lemma format_actions_loop_self_os (count : nat) :
  forall (n_agent : nat) (actions_data : list loc) (st st' : state) (r : outcome unit),
    format_actions_loop count n_agent actions_data st = (r, st') ->
    self st' = self st /\ os st' = os st.
Proof.
  induction count as [|count IH]; intros n_agent actions_data st st' r; simpl.
  - intros [= <- <-]. auto.
  - destruct (actions_data !! n_agent) as [l|]; [|intros [= <- <-]; auto].
    destruct (heap st !! l) as [d|]; [|intros [= <- <-]; auto].
    destruct (dict_get d "action") as [[z|v]|]; [| |intros [= <- <-]; auto].
    + intros E. apply IH in E. exact E.
    + apply IH.
Qed.

Lemma heap_after_create_request (actions_data : list loc) (st : state) :
  heap (snd (_create_request false false (Some actions_data) st)) =
  heap (snd (_format_actions_data actions_data st)).
Proof.
  unfold _create_request, _format_actions_data, bind, ret, get_self. simpl.
  destruct (format_actions_loop (length actions_data) 0 actions_data st) as [[[]| |] st1];
    simpl; try reflexivity.
  destruct (json_dumps_request _ _); reflexivity.
Qed.

Lemma heap_after_step (fuel : nat) (actions_data : list loc) (st : state) :
  heap (snd (step fuel actions_data st)) =
  heap (snd (_format_actions_data actions_data st)).
Proof.
  rewrite step_unfold. rewrite heap_after_bind by apply heap_stable_step_tail.
  unfold step_exchange. rewrite heap_after_bind.
  - apply heap_after_create_request.
  - intros req. apply heap_stable_bind; [apply heap_stable_client_sendall|].
    intros _. apply heap_stable_get_environment_state.
Qed.

Lemma self_os_after_create_request (actions_data : list loc) (st : state) :
  self (snd (_create_request false false (Some actions_data) st)) = self st /\
  os (snd (_create_request false false (Some actions_data) st)) = os st.
Proof.
  unfold _create_request, _format_actions_data, bind, ret, get_self. simpl.
  destruct (format_actions_loop (length actions_data) 0 actions_data st)
    as [[[]| |] st1] eqn:Ef;
    apply format_actions_loop_self_os in Ef; simpl; try exact Ef.
  destruct (json_dumps_request _ _); exact Ef.
Qed.

(** A response that arrives in one delivery of five to 4095 bytes is what
    the exchange of [step] yields, whatever fuel is left. *)
Lemma step_exchange_one_delivery (fuel : nat) (actions_data : list loc) (st : state)
    (request payload : bytes) (c : conn) (rest : list bytes) (text : string) (env : pyval) :
  fst (_create_request false false (Some actions_data) st) = Ok request ->
  client_socket (self st) = Some c ->
  c_inbox c = payload :: rest ->
  (4 < length payload < 4096)%nat ->
  bytes_decode payload = Some text ->
  _format_states_data text = Ok env ->
  fst (step_exchange (S fuel) actions_data st) = Ok env.
Proof.
  intros Hreq Hc Hi Hlen Hdec Hfmt.
  destruct (self_os_after_create_request actions_data st) as [Hself _].
  unfold step_exchange, bind.
  destruct (_create_request false false (Some actions_data) st) as [[req| |] st1];
    try discriminate.
  simpl in Hself. unfold client_sendall, bind, get_self.
  rewrite Hself, Hc. cbn [emit].
  unfold _get_environment_state, _wait_and_receive_states_data, bind.
  erewrite receive_loop_one_chunk;
    [|cbn [self]; rewrite Hself; exact Hc|exact Hi|exact Hlen].
  rewrite Hdec. cbn [ret lift fst]. exact Hfmt.
Qed.

(** C10: [_format_actions_data] returns the caller's list itself and
    rewrites the caller's dictionaries where they live: an action that is a
    NumPy integer becomes the plain int of the same value, every other
    action (a float, a string, anything) stays as it is and raises nothing,
    and no other dictionary changes.  The request is serialized from the
    rewritten dictionaries, and this is all [step] does to them. *)
Theorem format_actions_in_place (fuel : nat) (actions_data : list loc) (st : state) :
  forallb (has_action (heap st)) actions_data = true ->
  exists st',
    _format_actions_data actions_data st = (Ok actions_data, st') /\
    self st' = self st /\ os st' = os st /\
    (forall l : loc,
       heap st' !! l =
       if decide (l ∈ actions_data) then int_action <$> heap st !! l else heap st !! l) /\
    fst (_create_request false false (Some actions_data) st) =
      (let! text := json_dumps_request (heap st')
                      (request_fields false false (is_rendering (self st)) 0
                         (Some actions_data)) in
       Ok (str_encode text)) /\
    heap (snd (_create_request false false (Some actions_data) st)) = heap st' /\
    heap (snd (step fuel actions_data st)) = heap st'.
Proof.
  intros Hall.
  destruct (format_actions_loop_spec actions_data (length actions_data) 0 st
              ltac:(lia) Hall) as (st' & Hrun & Hself & Hos & Hheap).
  assert (Hfmt : _format_actions_data actions_data st = (Ok actions_data, st')).
  { unfold _format_actions_data, bind. rewrite Hrun. reflexivity. }
  exists st'. split; [exact Hfmt|]. split; [exact Hself|]. split; [exact Hos|].
  split; [exact Hheap|]. split; [|split].
  - unfold _create_request, bind, ret, get_self. cbn [negb andb].
    rewrite Hfmt. cbn [dict_set String.eqb Ascii.eqb Bool.eqb request_fields app negb andb].
    destruct (json_dumps_request (heap st') _); reflexivity.
  - rewrite heap_after_create_request, Hfmt. reflexivity.
  - rewrite heap_after_step, Hfmt. reflexivity.
Qed.

End Heap.

(** ** The encoding of requests *)

Section Request.
Context {FL : PyFloat} {RT : Runtime}.

Lemma create_init_request (st : state) :
  _create_request true false None st =
  (Ok (str_encode (init_request_text (is_rendering (self st))
                     (fst (randint (random_generator (self st)) 0 1000000)))),
   {| self := set_generator (seed (self st))
                (snd (randint (random_generator (self st)) 0 1000000)) (self st);
      os := os st; heap := heap st |}).
Proof.
  unfold _create_request, bind, ret, get_self.
  destruct (randint (random_generator (self st)) 0 1000000) as [n g]. reflexivity.
Qed.

Lemma create_terminate_request (st : state) :
  _create_request false true None st =
  (Ok (str_encode (terminate_request_text (is_rendering (self st)))), st).
Proof. reflexivity. Qed.

Lemma json_dumps_request_brace (h : gmap loc adict) (request : list (string * reqval))
    (text : string) :
  json_dumps_request h request = Ok text ->
  exists rest, str_encode text = x7b :: rest.
Proof.
  unfold json_dumps_request. destruct (plain_of_request h request) as [d| |];
    simpl; try discriminate.
  intros [= <-]. eexists. reflexivity.
Qed.

(** C1 (amended): for every request the bytes [_create_request] returns are
    the UTF-8 encoding of the JSON text of the request object, with nothing
    in front of it: the first byte is the opening brace. *)
Theorem create_request_bare_json (initialization termination : bool)
    (actions_data : option (list loc)) (st : state) (b : bytes) :
  fst (_create_request initialization termination actions_data st) = Ok b ->
  exists text,
    json_dumps_request
      (heap (snd (_create_request initialization termination actions_data st)))
      (request_fields initialization termination (is_rendering (self st))
         (fst (randint (random_generator (self st)) 0 1000000)) actions_data) = Ok text /\
    b = str_encode text /\
    exists rest, b = x7b :: rest.
Proof.
  intros Hb.
  assert (Hmain : exists text,
    json_dumps_request
      (heap (snd (_create_request initialization termination actions_data st)))
      (request_fields initialization termination (is_rendering (self st))
         (fst (randint (random_generator (self st)) 0 1000000)) actions_data) = Ok text /\
    b = str_encode text).
  { destruct initialization.
    - destruct termination; revert Hb;
        unfold _create_request, bind, ret, get_self;
        destruct (randint (random_generator (self st)) 0 1000000) as [n g];
        cbn; intros [= <-]; eexists; split; reflexivity.
    - destruct termination.
      + revert Hb. cbn. intros [= <-]. eexists; split; reflexivity.
      + destruct actions_data as [a|]; [|discriminate Hb].
        revert Hb. unfold _create_request, _format_actions_data, bind, ret, get_self.
        cbn [negb andb dict_set String.eqb Ascii.eqb Bool.eqb].
        destruct (format_actions_loop (length a) 0 a st) as [[[]| |] st1] eqn:Ef;
          cbn [fst snd]; try discriminate.
        unfold request_fields. cbn [negb andb app].
        destruct (json_dumps_request (heap st1) _) as [text| |] eqn:Ej;
          cbn [fst snd]; try discriminate.
        intros [= <-]. exists text. split; [exact Ej|reflexivity]. }
  destruct Hmain as (text & Hj & ->). exists text. split; [exact Hj|]. split; [reflexivity|].
  apply (json_dumps_request_brace _ _ _ Hj).
Qed.

End Request.

(** ** The seeds of Init requests *)

Section Seeds.
Context {FL : PyFloat} {RT : Runtime}.

Lemma init_requests_seeds (k : nat) :
  forall st : state,
    init_requests k st =
    map (fun n => Ok (str_encode (init_request_text (is_rendering (self st)) n)))
        (init_seeds k (random_generator (self st))).
Proof.
  induction k as [|k IH]; intros st; simpl; [reflexivity|].
  rewrite create_init_request. cbn [fst snd]. rewrite IH. reflexivity.
Qed.

Lemma init_seeds_in_range (k : nat) :
  randint_in_range ->
  forall g : RandomState, Forall (fun n => 0 <= n < 1000000) (init_seeds k g).
Proof.
  intros Hr. induction k as [|k IH]; intros g; simpl; constructor.
  - apply Hr. lia.
  - apply IH.
Qed.

Lemma init_seeds_length (k : nat) : forall g : RandomState, length (init_seeds k g) = k.
Proof. induction k as [|k IH]; intros g; simpl; [reflexivity|]. rewrite IH. reflexivity. Qed.

Lemma bounded_NoDup_length (l : list Z) (n : Z) :
  Forall (fun x => 0 <= x < n) l -> NoDup l -> (length l <= Z.to_nat n)%nat.
Proof.
  intros Hb Hnd.
  assert (Hnd' : NoDup (Z.to_nat <$> l)).
  { apply NoDup_fmap_2_strong; [|exact Hnd].
    intros x y Hx Hy Heq. rewrite Forall_forall in Hb.
    pose proof (Hb x Hx). pose proof (Hb y Hy). lia. }
  assert (Hsub : Z.to_nat <$> l ⊆+ seq 0 (Z.to_nat n)).
  { apply NoDup_submseteq; [exact Hnd'|].
    intros m Hm. apply list_elem_of_fmap in Hm as (x & -> & Hx).
    rewrite Forall_forall in Hb. pose proof (Hb x Hx). apply elem_of_seq. lia. }
  apply submseteq_length in Hsub.
  rewrite length_fmap, length_seq in Hsub. exact Hsub.
Qed.

Lemma init_seeds_repeat (k : nat) (g : RandomState) :
  randint_in_range -> (Z.to_nat 1000000 < k)%nat -> ~ NoDup (init_seeds k g).
Proof.
  intros Hr Hk Hnd.
  pose proof (bounded_NoDup_length _ _ (init_seeds_in_range k Hr g) Hnd) as Hlen.
  rewrite init_seeds_length in Hlen. lia.
Qed.

(** C9 (amended): the seed of every [Init] request is drawn from
    [[0, 10^6)] by the generator of the session, which is seeded with the
    session's seed; that seed is the one the caller passed, which the
    constructor takes when it lies in [[0, 2^32)] and refuses with
    [ValueError] when it does not.  Two sessions whose generators were
    seeded alike send the same [Init] requests, one after the other.  The
    seeds of successive requests need not differ: among more than [10^6]
    of them two are equal. *)
Theorem init_seeds_bounded_deterministic (k : nat) (st1 st2 : state) (sd : Z) :
  randint_in_range ->
  random_generator (self st1) = RandomState_seeded sd ->
  random_generator (self st2) = RandomState_seeded sd ->
  is_rendering (self st1) = is_rendering (self st2) ->
  let seeds := init_seeds k (RandomState_seeded sd) in
  init_requests k st1 =
    map (fun n => Ok (str_encode (init_request_text (is_rendering (self st1)) n))) seeds /\
  init_requests k st1 = init_requests k st2 /\
  Forall (fun n => 0 <= n < 1000000) seeds /\
  ((Z.to_nat 1000000 < k)%nat -> ~ NoDup seeds) /\
  (forall (h : string) (p : Z) (godot_path env_path : string),
     match __init__ h p godot_path env_path sd with
     | Ok s =>
         0 <= sd < 2 ^ 32 /\ seed s = sd /\ random_generator s = RandomState_seeded sd
     | Raise e => e = ValueError /\ ~ 0 <= sd < 2 ^ 32
     | Diverge => False
     end).
Proof.
  intros Hr H1 H2 Hrender. cbn zeta.
  split; [|split; [|split; [|split]]].
  - rewrite init_requests_seeds, H1. reflexivity.
  - rewrite !init_requests_seeds, H1, H2, Hrender. reflexivity.
  - apply init_seeds_in_range, Hr.
  - intros Hk. apply init_seeds_repeat; assumption.
  - intros. unfold __init__, RandomState_of_seed.
    destruct (Z.leb_spec 0 sd); destruct (Z.ltb_spec sd (2 ^ 32)); cbn [andb];
      first [repeat split; first [reflexivity | lia] | split; [reflexivity | lia]].
Qed.

End Seeds.

Lemma lcg_in_range : @randint_in_range Sample.q_float Sample.runtime.
Proof.
  intros g low high Hlt. simpl. unfold Sample.lcg_randint. simpl.
  pose proof (Z.mod_pos_bound ((1103515245 * g + 12345) mod 2147483648) (high - low)
                ltac:(lia)).
  lia.
Qed.

(** ** Connection and render mode *)

Section Lifecycle.
Context {FL : PyFloat} {RT : Runtime}.

(** C8 (amended): called while the socket handle is absent,
    [_end_connection] raises [AttributeError] and leaves the state as it
    was; called while it is present, it closes the listening socket and
    clears both handles. *)
Theorem end_connection_effect (st : state) :
  match socket (self st) with
  | None => _end_connection st = (Raise AttributeError, st)
  | Some l =>
      _end_connection st =
      (Ok tt,
       {| self := set_client_socket None (set_socket None (self st));
          os := log (EvClose (l_id l)) (os st);
          heap := heap st |})
  end.
Proof.
  unfold _end_connection, bind, get_self.
  destruct (socket (self st)) as [l|]; reflexivity.
Qed.

(** C7: what [reset] does when the render flag changes on a launched
    session whose connection is open.  It first binds the listening socket
    again.  Where that fails, [reset] raises [OSError] and nothing is sent
    or relaunched; where it succeeds, [reset] waits for another peer, and
    the [Terminate] request goes to that peer and not to the connection
    that was open. *)
Theorem render_change_rebinds (fuel : nat) (render : bool) (st : state)
    (l : listener) (c : conn) (p : process) :
  socket (self st) = Some l ->
  l_bound l = true ->
  client_socket (self st) = Some c ->
  (c_id c < w_next (os st))%nat ->
  godot_process (self st) = Some p ->
  is_godot_launched (self st) = true ->
  is_rendering (self st) = negb render ->
  match w_rebind_ok (os st), w_clients (os st) with
  | false, _ => reset fuel render st = (Raise OSError, st)
  | true, [] =>
      fst (reset fuel render st) = Diverge /\
      w_trace (os (snd (reset fuel render st))) =
        w_trace (os st) ++ [EvBind (l_id l) (host (self st)) (port (self st));
                            EvListen (l_id l)]
  | true, _ :: later =>
      exists st',
        _change_render_type_if_needed render st = (Ok tt, st') /\
        w_trace (os st') = w_trace (os st) ++ render_change_events st l p /\
        w_clients (os st') = later /\
        w_next (os st) <> c_id c /\
        socket (self st') = None /\ client_socket (self st') = None /\
        is_godot_launched (self st') = false /\ is_rendering (self st') = render
  end.
Proof.
  intros Hsock Hbound Hclient Hfresh Hproc Hlaunched Hrender.
  destruct st as [s w h].
  destruct s as [h0 p0 so cs gp ep pr la re sd rg me].
  destruct w as [tr cl nx rb]. destruct l as [lid lb].
  simpl in Hsock, Hbound, Hclient, Hfresh, Hproc, Hlaunched, Hrender. subst.
  destruct rb.
  - destruct cl as [|[inbox eof] later].
    + destruct render; cbn -[str_encode json_dumps];
        rewrite <- app_assoc; split; reflexivity.
    + destruct render; cbn -[str_encode terminate_request_text];
        (eexists; split; [reflexivity|]);
        cbn -[str_encode terminate_request_text];
        rewrite <- ?app_assoc; repeat split; try reflexivity; lia.
  - destruct render; reflexivity.
Qed.

End Lifecycle.

(** ** What a call leaves alone *)

Section Frames.
Context {FL : PyFloat} {RT : Runtime}.

Lemma keeps_bind {A B T : Type} (part : state -> T) (m : M A) (k : A -> M B) :
  keeps part m -> (forall a, keeps part (k a)) -> keeps part (bind m k).
Proof.
  intros Hm Hk st. unfold bind. specialize (Hm st).
  destruct (m st) as [[a| |] st1]; simpl in *; try exact Hm.
  rewrite Hk. exact Hm.
Qed.

Lemma keeps_after {A B T : Type} (part : state -> T) (m : M A) (k : A -> M B) (st : state) :
  (forall a, keeps part (k a)) -> part (snd (bind m k st)) = part (snd (m st)).
Proof.
  intros Hk. unfold bind. destruct (m st) as [[a| |] st1]; simpl; try reflexivity.
  apply Hk.
Qed.

Lemma keeps_ret {A T : Type} (part : state -> T) (a : A) : keeps part (ret a).
Proof. intros st. reflexivity. Qed.

Lemma keeps_raise {A T : Type} (part : state -> T) (e : exn) : keeps part (@raise _ _ A e).
Proof. intros st. reflexivity. Qed.

Lemma keeps_diverge {A T : Type} (part : state -> T) : keeps part (@diverge _ _ A).
Proof. intros st. reflexivity. Qed.

Lemma keeps_lift {A T : Type} (part : state -> T) (o : outcome A) : keeps part (lift o).
Proof. intros st. reflexivity. Qed.

Lemma keeps_get_self {T : Type} (part : state -> T) : keeps part get_self.
Proof. intros st. reflexivity. Qed.

Lemma keeps_client_recv_frame (bufsize : nat) : keeps session_frame (client_recv bufsize).
Proof.
  intros st. unfold client_recv. destruct (client_socket (self st)) as [c|] eqn:E;
    [|reflexivity].
  unfold recv. destruct (inbox_recv bufsize (c_inbox c)) as [[p i]|];
    unfold session_frame; simpl; rewrite E; reflexivity.
Qed.

Lemma keeps_client_recv_os (bufsize : nat) : keeps os (client_recv bufsize).
Proof.
  intros st. unfold client_recv. destruct (client_socket (self st)); [|reflexivity].
  destruct (recv c bufsize). reflexivity.
Qed.

Lemma keeps_client_recv_metrics (bufsize : nat) : keeps metrics_of (client_recv bufsize).
Proof.
  intros st. unfold client_recv. destruct (client_socket (self st)); [|reflexivity].
  destruct (recv c bufsize). reflexivity.
Qed.

Lemma keeps_receive_loop {T : Type} (part : state -> T) (fuel : nat) :
  (forall n, keeps part (client_recv n)) ->
  forall total_data, keeps part (receive_loop fuel total_data).
Proof.
  intros Hr. induction fuel as [|fuel IH]; intros total_data; simpl.
  - apply keeps_diverge.
  - apply keeps_bind; [apply Hr|].
    intros p. destruct (4 <? length p)%nat; [|apply IH].
    destruct (length p <? 4096)%nat; [apply keeps_ret|apply IH].
Qed.

Lemma keeps_get_environment_state {T : Type} (part : state -> T) (fuel : nat) :
  (forall n, keeps part (client_recv n)) ->
  keeps part (_get_environment_state fuel).
Proof.
  intros Hr. unfold _get_environment_state, _wait_and_receive_states_data.
  apply keeps_bind; [|intros; apply keeps_lift].
  apply keeps_bind; [apply keeps_receive_loop, Hr|].
  intros b. destruct (bytes_decode b); [apply keeps_ret|apply keeps_raise].
Qed.

Lemma keeps_format_actions {T : Type} (part : state -> T) (actions_data : list loc) :
  (forall s w h h', part {| self := s; os := w; heap := h |}
                    = part {| self := s; os := w; heap := h' |}) ->
  keeps part (_format_actions_data actions_data).
Proof.
  intros Hpart st. unfold _format_actions_data, bind, ret.
  destruct (format_actions_loop (length actions_data) 0 actions_data st)
    as [r st1] eqn:Ef.
  apply format_actions_loop_self_os in Ef as [Hs Ho].
  assert (part st1 = part st).
  { destruct st1 as [s1 w1 h1], st as [s0 w0 h0]. simpl in Hs, Ho. subst. apply Hpart. }
  destruct r as [[]| |]; assumption.
Qed.

Lemma keeps_create_action_request {T : Type} (part : state -> T) (actions_data : list loc) :
  (forall s w h h', part {| self := s; os := w; heap := h |}
                    = part {| self := s; os := w; heap := h' |}) ->
  keeps part (_create_request false false (Some actions_data)).
Proof.
  intros Hpart st.
  destruct (self_os_after_create_request actions_data st) as [Hs Ho].
  destruct (snd (_create_request false false (Some actions_data) st)) as [s1 w1 h1].
  destruct st as [s0 w0 h0]. simpl in Hs, Ho. subst. apply Hpart.
Qed.

End Frames.

(** ** Frames on a stream *)

Section FramingMore.
Context {FL : PyFloat} {RT : Runtime}.

Lemma byte_of_Z_to_N (z : Z) : Z.of_N (Byte.to_N (byte_of_Z z)) = Z.land z 255.
Proof.
  unfold byte_of_Z.
  assert (Hr : 0 <= Z.land z 255 < 256).
  { split; [apply Z.land_nonneg; right; lia|].
    change 255 with (Z.ones 8). rewrite Z.land_ones by lia.
    apply Z.mod_pos_bound. lia. }
  destruct (Byte.of_N (Z.to_N (Z.land z 255))) as [b|] eqn:E.
  - apply Byte.to_of_N in E. rewrite E. lia.
  - apply Byte.of_N_None_iff in E. lia.
Qed.

Lemma unpack_pack_be32 (n : Z) : 0 <= n < 2 ^ 32 -> unpack_be32 (pack_be32 n) = Some n.
Proof.
  intros Hn. unfold pack_be32, unpack_be32. rewrite !byte_of_Z_to_N. f_equal.
  apply Z.bits_inj'. intros i Hi.
  rewrite !Z.lor_spec.
  change 255 with (Z.ones 8).
  destruct (Z.lt_ge_cases i 8) as [H8|H8].
  { rewrite !Z.shiftl_spec by lia.
    rewrite (Z.testbit_neg_r _ (i - 24)), (Z.testbit_neg_r _ (i - 16)),
      (Z.testbit_neg_r _ (i - 8)) by lia.
    rewrite Z.land_spec, Z.ones_spec_low by lia. simpl. apply andb_true_r. }
  destruct (Z.lt_ge_cases i 16) as [H16|H16].
  { rewrite !Z.shiftl_spec by lia.
    rewrite (Z.testbit_neg_r _ (i - 24)), (Z.testbit_neg_r _ (i - 16)) by lia.
    rewrite !Z.land_spec, Z.ones_spec_low, Z.ones_spec_high by lia.
    rewrite Z.shiftr_spec by lia. simpl. rewrite andb_true_r, andb_false_r, orb_false_r.
    f_equal. lia. }
  destruct (Z.lt_ge_cases i 24) as [H24|H24].
  { rewrite !Z.shiftl_spec by lia.
    rewrite (Z.testbit_neg_r _ (i - 24)) by lia.
    rewrite !Z.land_spec, Z.ones_spec_low, !Z.ones_spec_high by lia.
    rewrite Z.shiftr_spec by lia. simpl. rewrite andb_true_r, !andb_false_r, !orb_false_r.
    f_equal. lia. }
  destruct (Z.lt_ge_cases i 32) as [H32|H32].
  { rewrite !Z.shiftl_spec by lia.
    rewrite !Z.land_spec, Z.ones_spec_low, !Z.ones_spec_high by lia.
    rewrite Z.shiftr_spec by lia. rewrite andb_true_r, !andb_false_r, !orb_false_r.
    f_equal. lia. }
  rewrite !Z.shiftl_spec by lia.
  rewrite !Z.land_spec, !Z.ones_spec_high by lia.
  rewrite !andb_false_r. simpl.
  symmetry. apply Z.bits_above_log2; [lia|].
  destruct (Z.eq_dec n 0) as [->|Hz]; [simpl; lia|].
  assert (Z.log2 n < 32) by (apply Z.log2_lt_pow2; lia). lia.
Qed.

Lemma pack_be32_length (n : Z) : length (pack_be32 n) = 4%nat.
Proof. reflexivity. Qed.

Lemma recv_msg_frame (sock : conn) (body rest : bytes) :
  Z.of_nat (length body) < 2 ^ 32 ->
  concat (c_inbox sock) = frame body ++ rest ->
  exists sock',
    recv_msg sock = (Ok (Some body), sock') /\ concat (c_inbox sock') = rest /\
    c_eof sock' = c_eof sock.
Proof.
  intros Hlen Hcat. unfold recv_msg.
  pose proof (recvall_spec sock 4) as H4. cbn zeta in H4. rewrite Hcat in H4.
  unfold frame in H4. rewrite <- app_assoc in H4.
  destruct (Nat.leb_spec 4 (length (pack_be32 (Z.of_nat (length body)) ++ body ++ rest)))
    as [_|Hbad]; [|rewrite length_app, pack_be32_length in Hbad; lia].
  destruct H4 as (s1 & Hr & Hc & He & _). rewrite Hr.
  rewrite (take_app_length' (pack_be32 _) _ 4) by reflexivity.
  rewrite unpack_pack_be32 by lia. rewrite Nat2Z.id.
  rewrite (drop_app_length' (pack_be32 _) _ 4) in Hc by reflexivity.
  pose proof (recvall_spec s1 (length body)) as Hb. cbn zeta in Hb. rewrite Hc in Hb.
  destruct (Nat.leb_spec (length body) (length (body ++ rest))) as [_|Hbad];
    [|rewrite length_app in Hbad; lia].
  destruct Hb as (s2 & Hr2 & Hc2 & He2 & _). exists s2.
  rewrite Hr2, take_app_length. split; [reflexivity|].
  rewrite Hc2, drop_app_length. split; [reflexivity|congruence].
Qed.

(** X1: [recvall] does not see how the stream was cut into deliveries: two
    connections that carry the same bytes, and are both open or both
    closed, give the same result; when at least [n] bytes are on their way
    the result is the first [n] of them and the rest stays in the stream. *)
Theorem recvall_any_chunking (s1 s2 : conn) (n : nat) :
  concat (c_inbox s1) = concat (c_inbox s2) ->
  c_eof s1 = c_eof s2 ->
  fst (recvall s1 n) = fst (recvall s2 n) /\
  ((n <= length (concat (c_inbox s1)))%nat ->
   fst (recvall s1 n) = Ok (Some (take n (concat (c_inbox s1)))) /\
   concat (c_inbox (snd (recvall s1 n))) = drop n (concat (c_inbox s1))).
Proof.
  intros Hcat Heof.
  pose proof (recvall_spec s1 n) as H1. pose proof (recvall_spec s2 n) as H2.
  cbn zeta in H1, H2. rewrite <- Hcat, <- Heof in H2.
  destruct (Nat.leb_spec n (length (concat (c_inbox s1)))) as [Hle|Hgt].
  - destruct H1 as (a & Ha & Hca & _). destruct H2 as (b & Hb & _).
    rewrite Ha, Hb. split; [reflexivity|]. intros _. auto.
  - rewrite H1, H2. split; [reflexivity|]. intros Hle. lia.
Qed.

(** X2: [recv_msg] undoes the framing: from a stream that starts with the
    four-byte big-endian length of a body followed by the body, however it
    is cut into deliveries, it returns the body and leaves what follows
    it. *)
Theorem recv_msg_round_trip (sock : conn) (body rest : bytes) :
  Z.of_nat (length body) < 2 ^ 32 ->
  concat (c_inbox sock) = frame body ++ rest ->
  fst (recv_msg sock) = Ok (Some body) /\
  concat (c_inbox (snd (recv_msg sock))) = rest.
Proof.
  intros Hlen Hcat.
  destruct (recv_msg_frame sock body rest Hlen Hcat) as (s' & Hr & Hc & _).
  rewrite Hr. auto.
Qed.

(** X3: frames sent one after the other are read back in their order by
    as many calls of [recv_msg], and what follows the last one is left in
    the stream. *)
Theorem recv_msgs_in_order (bodies : list bytes) :
  forall (sock : conn) (rest : bytes),
    Forall (fun body => Z.of_nat (length body) < 2 ^ 32) bodies ->
    concat (c_inbox sock) = concat (map frame bodies) ++ rest ->
    fst (recv_msgs (length bodies) sock) = map (fun body => Ok (Some body)) bodies /\
    concat (c_inbox (snd (recv_msgs (length bodies) sock))) = rest.
Proof.
  induction bodies as [|body bodies IH]; intros sock rest Hall Hcat.
  - simpl in *. auto.
  - inversion Hall as [|? ? Hb Htl]; subst. simpl in Hcat. rewrite <- app_assoc in Hcat.
    destruct (recv_msg_frame sock body _ Hb Hcat) as (s' & Hr & Hc & _).
    simpl. rewrite Hr. destruct (IH s' rest Htl Hc) as [Hf Hs].
    destruct (recv_msgs (length bodies) s') as [rs s'']. simpl in *.
    rewrite Hf. auto.
Qed.

End FramingMore.

(** ** Deliveries and the receive loops *)

Section ReceiveMore.
Context {FL : PyFloat} {RT : Runtime}.

Lemma inbox_recv_whole (bufsize : nat) (b : byte) (c : bytes) (rest : list bytes) :
  (length (b :: c) <= bufsize)%nat ->
  inbox_recv bufsize ((b :: c) :: rest) = Some (b :: c, rest).
Proof.
  intros Hle. cbn [inbox_recv]. rewrite take_ge by lia. rewrite drop_ge by lia. reflexivity.
Qed.

Lemma inbox_recv_unending (inbox : list bytes) (p : bytes) (inbox' : list bytes) :
  unending inbox -> inbox_recv 4096 inbox = Some (p, inbox') ->
  ((length p <= 4)%nat \/ length p = 4096%nat) /\ unending inbox'.
Proof.
  unfold unending. induction 1 as [|c rest Hc Hrest IH]; [discriminate|].
  destruct c as [|b c]; [exact IH|].
  rewrite inbox_recv_whole by (destruct Hc; lia).
  intros [= <- <-]. auto.
Qed.

Lemma receive_loop_unending (fuel : nat) :
  forall (total_data : bytes) (st : state) (c : conn),
    client_socket (self st) = Some c -> unending (c_inbox c) ->
    fst (receive_loop fuel total_data st) = Diverge.
Proof.
  induction fuel as [|fuel IH]; intros total_data st c Hc Hs; [reflexivity|].
  simpl receive_loop. unfold bind, client_recv. rewrite Hc. unfold recv.
  destruct (inbox_recv 4096 (c_inbox c)) as [[p inbox']|] eqn:E.
  - destruct (inbox_recv_unending _ _ _ Hs E) as [Hp Hs'].
    destruct (Nat.ltb_spec 4 (length p)) as [H4|H4].
    + destruct (Nat.ltb_spec (length p) 4096) as [H5|H5]; [lia|].
      eapply IH; [reflexivity|exact Hs'].
    + eapply IH; [reflexivity|exact Hs'].
  - destruct (c_eof c); [|reflexivity].
    simpl. eapply IH; [reflexivity|]. constructor.
Qed.

(** X4: while every delivery is either at most four bytes long or fills the
    buffer of 4096 bytes, the loop of [_wait_and_receive_states_data] does
    not end, and neither does [_get_environment_state]: a response of
    exactly 4096 bytes is never returned. *)
Theorem receive_full_buffers_never_end (fuel : nat) (st : state) (c : conn) :
  client_socket (self st) = Some c ->
  unending (c_inbox c) ->
  fst (_wait_and_receive_states_data fuel st) = Diverge /\
  fst (_get_environment_state fuel st) = Diverge.
Proof.
  intros Hc Hs.
  assert (H : fst (_wait_and_receive_states_data fuel st) = Diverge).
  { unfold _wait_and_receive_states_data. apply bind_Diverge.
    eapply receive_loop_unending; eassumption. }
  split; [exact H|]. unfold _get_environment_state. apply bind_Diverge, H.
Qed.

Lemma receive_loop_S (fuel : nat) (total_data : bytes) :
  receive_loop (S fuel) total_data =
  (let* data_received := client_recv 4096 in
   if (4 <? length data_received)%nat then
     let total_data := total_data ++ data_received in
     if (length data_received <? 4096)%nat then ret total_data
     else receive_loop fuel total_data
   else receive_loop fuel total_data).
Proof. reflexivity. Qed.

Lemma receive_loop_full_then_tail (fulls : list bytes) :
  forall (fuel : nat) (total_data : bytes) (st : state) (c : conn)
         (tail : bytes) (rest : list bytes),
    client_socket (self st) = Some c ->
    c_inbox c = fulls ++ tail :: rest ->
    Forall (fun ch : bytes => length ch = 4096%nat) fulls ->
    (4 < length tail < 4096)%nat ->
    receive_loop (S (length fulls + fuel)) total_data st =
      (Ok (total_data ++ concat fulls ++ tail), with_inbox st c rest).
Proof.
  induction fulls as [|ch fulls IH]; intros fuel total_data st c tail rest Hc Hi Hall Hlen.
  - simpl in Hi. cbn [length Nat.add concat app receive_loop].
    unfold bind, client_recv. rewrite Hc. unfold recv. rewrite Hi.
    destruct tail as [|b tail]; [simpl in Hlen; lia|].
    rewrite inbox_recv_whole by lia.
    destruct (Nat.ltb_spec 4 (length (b :: tail))) as [H4|H4]; [|lia].
    destruct (Nat.ltb_spec (length (b :: tail)) 4096) as [H5|H5]; [|lia].
    reflexivity.
  - inversion Hall as [|? ? Hch Htl]; subst.
    cbn [length Nat.add]. rewrite receive_loop_S. unfold bind, client_recv. rewrite Hc.
    unfold recv. rewrite Hi. destruct ch as [|b ch]; [discriminate|].
    cbn [app]. rewrite inbox_recv_whole by lia.
    destruct (Nat.ltb_spec 4 (length (b :: ch))) as [H4|H4]; [|lia].
    destruct (Nat.ltb_spec (length (b :: ch)) 4096) as [H5|H5]; [lia|].
    erewrite IH; [|reflexivity|reflexivity|exact Htl|exact Hlen].
    cbn [concat]. rewrite <- !app_assoc. unfold with_inbox. simpl. reflexivity.
Qed.

(** X5: deliveries that fill the buffer, followed by one of five to 4095
    bytes, are returned as one text, and the deliveries behind them are
    left on the connection. *)
Theorem receive_full_buffers_then_tail (fuel : nat) (st : state) (c : conn)
    (fulls : list bytes) (tail : bytes) (rest : list bytes) :
  client_socket (self st) = Some c ->
  c_inbox c = fulls ++ tail :: rest ->
  Forall (fun ch : bytes => length ch = 4096%nat) fulls ->
  (4 < length tail < 4096)%nat ->
  _wait_and_receive_states_data (S (length fulls + fuel)) st =
    (match bytes_decode (concat fulls ++ tail) with
     | Some states_data => Ok states_data
     | None => Raise UnicodeDecodeError
     end, with_inbox st c rest).
Proof.
  intros Hc Hi Hall Hlen. unfold _wait_and_receive_states_data, bind.
  rewrite (receive_loop_full_then_tail fulls fuel [] st c tail rest Hc Hi Hall Hlen).
  change ([] ++ concat fulls ++ tail) with (concat fulls ++ tail).
  destruct (bytes_decode (concat fulls ++ tail)); reflexivity.
Qed.

Lemma legacy_receive_loop_S (fuel : nat) :
  legacy_receive_loop (S fuel) =
  (let* states_data := client_recv (Z.to_nat 10000) in
   match bytes_decode states_data with
   | None => raise UnicodeDecodeError
   | Some states_data =>
       if (4 <? String.length states_data)%nat then ret states_data
       else legacy_receive_loop fuel
   end).
Proof. reflexivity. Qed.

(** X6: the receive loop of the first copy of the class returns the text
    of the first delivery longer than four characters alone: the shorter
    deliveries before it are dropped, not prepended, and the ones behind it
    are left on the connection. *)
Theorem legacy_receive_one_delivery (shorts : list bytes) :
  forall (fuel : nat) (st : state) (c : conn) (p : bytes) (rest : list bytes) (text : string),
    client_socket (self st) = Some c ->
    c_inbox c = shorts ++ p :: rest ->
    Forall legacy_short shorts ->
    (0 < length p <= Z.to_nat 10000)%nat ->
    bytes_decode p = Some text ->
    (4 < String.length text)%nat ->
    legacy_receive_loop (S (length shorts + fuel)) st = (Ok text, with_inbox st c rest).
Proof.
  induction shorts as [|ch shorts IH]; intros fuel st c p rest text Hc Hi Hall Hp Hdec Hlen.
  - simpl in Hi. cbn [length Nat.add legacy_receive_loop]. unfold bind, client_recv.
    rewrite Hc. unfold recv. rewrite Hi. destruct p as [|b p]; [simpl in Hp; lia|].
    rewrite inbox_recv_whole by lia. rewrite Hdec.
    destruct (Nat.ltb_spec 4 (String.length text)) as [H4|H4]; [|lia]. reflexivity.
  - inversion Hall as [|? ? [Hch (t & Ht & Htl)] Hrest]; subst.
    destruct ch as [|b ch]; [simpl in Hch; lia|].
    cbn [length Nat.add]. rewrite legacy_receive_loop_S. unfold bind, client_recv. rewrite Hc.
    unfold recv. rewrite Hi. cbn [app]. rewrite inbox_recv_whole by lia.
    rewrite Ht. destruct (Nat.ltb_spec 4 (String.length t)) as [H4|H4]; [lia|].
    erewrite IH; [|reflexivity|reflexivity|exact Hrest|exact Hp|exact Hdec|exact Hlen].
    unfold with_inbox. simpl. reflexivity.
Qed.

End ReceiveMore.

(** ** Formatting and splitting a response *)

Section FormatMore.
Context {FL : PyFloat} {RT : Runtime}.

Lemma dict_set_get_id {V : Type} (d : list (string * V)) (k : string) (v : V) :
  dict_get d k = Some v -> dict_set d k v = d.
Proof.
  induction d as [|[k0 v0] d IH]; simpl; [discriminate|].
  destruct (String.eqb_spec k0 k) as [->|Hne].
  - intros [= ->]. reflexivity.
  - intros H. rewrite (IH H). reflexivity.
Qed.

Lemma format_agents_plain (agents : list pyval) :
  forallb plain_state agents = true -> format_agents agents = Ok agents.
Proof.
  induction agents as [|a agents IH]; simpl; [reflexivity|].
  intros H. apply andb_true_iff in H as [Ha Hr]. rewrite (IH Hr).
  unfold plain_state in Ha.
  destruct (getitem a "state") as [[]| |]; try discriminate; destruct a; reflexivity.
Qed.

Lemma format_agents_Ok (agents : list pyval) :
  forall agents', format_agents agents = Ok agents' -> Forall2 formatted agents agents'.
Proof.
  induction agents as [|a agents IH]; intros agents'; simpl.
  - intros [= <-]. constructor.
  - unfold formatted at 1.
    destruct (getitem a "state") as [s| |] eqn:Es; simpl; try discriminate.
    assert (Hgen : forall a1,
      (let! rest' := format_agents agents in Ok (a1 :: rest')) = Ok agents' ->
      exists r, agents' = a1 :: r /\ Forall2 formatted agents r).
    { intros a1. destruct (format_agents agents) as [r| |]; simpl; try discriminate.
      intros [= <-]. exists r. split; [reflexivity|]. apply IH. reflexivity. }
    destruct s as [|sb|sz|sf|s|sl|sd]; destruct a as [| | | | | |d];
      try (intros H; apply Hgen in H as (r & -> & Hr); constructor; [|exact Hr];
           unfold formatted; rewrite Es; reflexivity);
      try discriminate.
    destruct (literal_eval s) as [v| |] eqn:Ev; simpl; try discriminate.
    intros H. apply Hgen in H as (r & -> & Hr). constructor; [|exact Hr].
    unfold formatted. rewrite Es. exists d, v. auto.
Qed.

(** X8: a response in which no agent's state is a string comes out of
    [_format_states_data] as [json.loads] read it. *)
Theorem format_states_identity (text : string) (d : list (string * pyval))
    (agents : list pyval) :
  json_loads text = Some (PyDict d) ->
  dict_get d "states_data" = Some (PyList agents) ->
  forallb plain_state agents = true ->
  _format_states_data text = Ok (PyDict d).
Proof.
  intros Hl Hs Hp. unfold _format_states_data. rewrite Hl. simpl. rewrite Hs. simpl.
  rewrite (format_agents_plain _ Hp). simpl. rewrite (dict_set_get_id _ _ _ Hs). reflexivity.
Qed.

(** X9: what [_format_states_data] returns differs from what [json.loads]
    read only under [states_data]: an agent whose state is a string has it
    replaced by the value of the literal, every other agent and every
    other entry of the response is as it was read. *)
Theorem format_states_parses_strings (text : string) (d : list (string * pyval))
    (agents : list pyval) (env : pyval) :
  json_loads text = Some (PyDict d) ->
  dict_get d "states_data" = Some (PyList agents) ->
  _format_states_data text = Ok env ->
  exists agents',
    env = PyDict (dict_set d "states_data" (PyList agents')) /\
    Forall2 formatted agents agents' /\
    getitem env "states_data" = Ok (PyList agents') /\
    forall k : string, k <> "states_data" -> getitem env k = getitem (PyDict d) k.
Proof.
  intros Hl Hs. unfold _format_states_data. rewrite Hl. simpl. rewrite Hs. simpl.
  destruct (format_agents agents) as [agents'| |] eqn:Ef; simpl; try discriminate.
  intros [= <-]. exists agents'. split; [reflexivity|]. split; [apply format_agents_Ok, Ef|].
  split.
  - simpl. rewrite dict_get_set_eq. reflexivity.
  - intros k Hk. simpl. rewrite dict_get_set_ne by congruence. reflexivity.
Qed.

(** X10: when the state of some agent is a string that
    [ast.literal_eval] rejects, and no agent before it has a string state,
    [_format_states_data] raises the error of [literal_eval]: the agents
    that were fine are not returned. *)
Theorem format_states_bad_literal (text : string) (d : list (string * pyval))
    (before after : list pyval) (a : list (string * pyval)) (s : string) (e : exn) :
  json_loads text = Some (PyDict d) ->
  dict_get d "states_data" = Some (PyList (before ++ PyDict a :: after)) ->
  forallb plain_state before = true ->
  dict_get a "state" = Some (PyStr s) ->
  literal_eval s = Raise e ->
  _format_states_data text = Raise e.
Proof.
  intros Hl Hs Hp Ha He. unfold _format_states_data. rewrite Hl. simpl. rewrite Hs. simpl.
  assert (Hf : format_agents (before ++ PyDict a :: after) = Raise e).
  { clear Hs. induction before as [|b before IH]; simpl.
    - rewrite Ha. simpl. rewrite He. reflexivity.
    - simpl in Hp. apply andb_true_iff in Hp as [Hb Hr]. rewrite (IH Hr).
      unfold plain_state in Hb.
      destruct (getitem b "state") as [[]| |]; try discriminate; destruct b; reflexivity. }
  rewrite Hf. reflexivity.
Qed.

Lemma omap_is_ok {A B : Type} (f : A -> outcome B) (l : list A) :
  is_ok (omap f l) = forallb (fun a => is_ok (f a)) l.
Proof.
  induction l as [|a l IH]; simpl; [reflexivity|].
  destruct (f a); simpl; try reflexivity.
  rewrite <- IH. destruct (omap f l); reflexivity.
Qed.

(** X11: [_split_env_data] returns one state view and one reward view per
    agent, in the order of the agents; a state view holds the name and
    the state of its agent and nothing else, a reward view the name and the
    reward. *)
Theorem split_views_shape (agents states_data rewards_data : list pyval) :
  _split_env_data (PyList agents) = Ok (states_data, rewards_data) ->
  length states_data = length agents /\
  length rewards_data = length agents /\
  Forall2 (fun a v => exists n s, getitem a "name" = Ok n /\ getitem a "state" = Ok s /\
                                  v = PyDict [("name", n); ("state", s)])
          agents states_data /\
  Forall2 (fun a v => exists n r, getitem a "name" = Ok n /\ getitem a "reward" = Ok r /\
                                  v = PyDict [("name", n); ("reward", r)])
          agents rewards_data.
Proof.
  unfold _split_env_data. simpl. intros H.
  apply split_loop_Ok in H as (sv & rv & Hsv & Hrv & -> & ->). simpl.
  apply omap_Ok in Hsv, Hrv.
  assert (H1 : Forall2 (fun a v => exists n s, getitem a "name" = Ok n /\
                          getitem a "state" = Ok s /\
                          v = PyDict [("name", n); ("state", s)]) agents sv).
  { eapply Forall2_impl; [exact Hsv|]. intros a v Hv. unfold state_view in Hv.
    destruct (getitem a "name") as [n| |]; simpl in Hv; try discriminate.
    destruct (getitem a "state") as [s| |]; simpl in Hv; try discriminate.
    injection Hv as <-. eauto. }
  assert (H2 : Forall2 (fun a v => exists n r, getitem a "name" = Ok n /\
                          getitem a "reward" = Ok r /\
                          v = PyDict [("name", n); ("reward", r)]) agents rv).
  { eapply Forall2_impl; [exact Hrv|]. intros a v Hv. unfold reward_view in Hv.
    destruct (getitem a "name") as [n| |]; simpl in Hv; try discriminate.
    destruct (getitem a "reward") as [r| |]; simpl in Hv; try discriminate.
    injection Hv as <-. eauto. }
  split; [symmetry; eapply Forall2_length; exact H1|].
  split; [symmetry; eapply Forall2_length; exact H2|]. auto.
Qed.

Lemma getitem_not_diverge (v : pyval) (k : string) : getitem v k <> Diverge.
Proof. destruct v; simpl; try discriminate. destruct (dict_get d k); discriminate. Qed.

Lemma split_loop_is_ok (agents : list pyval) :
  forall S0 R0,
    is_ok (split_loop agents S0 R0) = forallb has_keys agents /\
    split_loop agents S0 R0 <> Diverge.
Proof.
  induction agents as [|a agents IH]; intros S0 R0; simpl.
  - split; [reflexivity|discriminate].
  - unfold has_keys at 1.
    pose proof (getitem_not_diverge a "name") as Hn.
    pose proof (getitem_not_diverge a "state") as Hs.
    pose proof (getitem_not_diverge a "reward") as Hr.
    destruct (getitem a "name"); simpl; try (split; [reflexivity|discriminate]);
      try contradiction.
    destruct (getitem a "state"); simpl; try (split; [reflexivity|discriminate]);
      try contradiction.
    destruct (getitem a "reward"); simpl; try (split; [reflexivity|discriminate]);
      try contradiction.
    apply IH.
Qed.

(** X12: [_split_env_data] returns exactly when every agent has a name,
    a state and a reward; one agent that lacks one of them makes the call
    raise, and the call always ends. *)
Theorem split_all_or_nothing (agents : list pyval) :
  is_ok (_split_env_data (PyList agents)) = forallb has_keys agents /\
  _split_env_data (PyList agents) <> Diverge.
Proof. unfold _split_env_data. simpl. apply split_loop_is_ok. Qed.

End FormatMore.

(** ** The effects of a step *)

Section StepMore.
Context {FL : PyFloat} {RT : Runtime}.

Lemma keeps_record_metrics {T : Type} (part : state -> T) (env : pyval) :
  (forall st m, part {| self := set_metrics m (self st); os := os st; heap := heap st |}
                = part st) ->
  keeps part (record_metrics env).
Proof.
  intros Hpart. unfold record_metrics.
  repeat first
    [ apply keeps_lift | apply keeps_get_self | apply keeps_ret
    | (intros st; apply Hpart)
    | apply keeps_bind; [|intros ?]
    | match goal with |- keeps _ (if ?b then _ else _) => destruct b end ].
Qed.

Lemma keeps_client_sendall {T : Type} (part : state -> T) (data : bytes) :
  (forall st e, part {| self := self st; os := log e (os st); heap := heap st |} = part st) ->
  keeps part (client_sendall data).
Proof.
  intros Hpart. unfold client_sendall. apply keeps_bind; [apply keeps_get_self|].
  intros s. destruct (client_socket s); [|apply keeps_raise].
  intros st. apply Hpart.
Qed.

(** What is left of [step] once the request is out. *)
Lemma keeps_after_send {T : Type} (part : state -> T) (fuel : nat) :
  (forall n, keeps part (client_recv n)) ->
  (forall st m, part {| self := set_metrics m (self st); os := os st; heap := heap st |}
                = part st) ->
  keeps part
    (let* env_data := _get_environment_state fuel in
     let* states := lift (getitem env_data "states_data") in
     let* split := lift (_split_env_data states) in
     let states_data := fst split in
     let rewards_data := snd split in
     record_metrics env_data ;;;
     let* n_frames := lift (getitem env_data "n_frames") in
     let* rewards_data :=
       lift (scale_rewards_loop (length rewards_data) 0 rewards_data n_frames) in
     let* done := lift (getitem env_data "done") in
     ret (states_data, rewards_data, done, n_frames)).
Proof.
  intros Hr Hm.
  apply keeps_bind; [apply keeps_get_environment_state, Hr|]. intros env.
  apply keeps_bind; [apply keeps_lift|]. intros states.
  apply keeps_bind; [apply keeps_lift|]. intros split. cbn zeta.
  apply keeps_bind; [apply keeps_record_metrics, Hm|]. intros _.
  apply keeps_bind; [apply keeps_lift|]. intros n.
  apply keeps_bind; [apply keeps_lift|]. intros r.
  apply keeps_bind; [apply keeps_lift|]. intros d. apply keeps_ret.
Qed.

(** X13: a [step] whose request could be built writes to the system once:
    it sends that request on the open connection, whatever the simulation
    answers and whether or not the answer can be used. *)
Theorem step_sends_once (fuel : nat) (actions_data : list loc) (st : state)
    (request : bytes) (c : conn) :
  fst (_create_request false false (Some actions_data) st) = Ok request ->
  client_socket (self st) = Some c ->
  os (snd (step fuel actions_data st)) = log (EvSendall (c_id c) request) (os st).
Proof.
  intros Hreq Hc.
  destruct (self_os_after_create_request actions_data st) as [Hs Ho].
  unfold step. unfold bind at 1.
  destruct (_create_request false false (Some actions_data) st) as [[req| |] st1];
    try discriminate.
  simpl in Hreq, Hs, Ho. injection Hreq as ->.
  rewrite keeps_after.
  - unfold client_sendall, bind, get_self. rewrite Hs, Hc. simpl. rewrite Ho. reflexivity.
  - intros _. apply keeps_after_send.
    + apply keeps_client_recv_os.
    + reflexivity.
Qed.

(** X14: [step] leaves the session as it is but for the metrics and what
    has been read from the connection: the sockets, the process, the launch
    and render flags, the seed and the generator are the same afterwards,
    also when the step raises or the response ends the episode. *)
Theorem step_keeps_session_open (fuel : nat) (actions_data : list loc) (st : state) :
  session_frame (snd (step fuel actions_data st)) = session_frame st.
Proof.
  revert st. change (keeps session_frame (step fuel actions_data)).
  unfold step.
  apply keeps_bind; [apply keeps_create_action_request; reflexivity|]. intros req.
  apply keeps_bind; [apply keeps_client_sendall; reflexivity|]. intros _.
  apply keeps_after_send.
  - apply keeps_client_recv_frame.
  - reflexivity.
Qed.

(** X15: [step] on a session that has no connection raises
    [AttributeError] and writes nothing to the system, after its request
    was built: the caller's action dictionaries have been rewritten. *)
Theorem step_without_connection (fuel : nat) (actions_data : list loc) (st : state)
    (request : bytes) :
  fst (_create_request false false (Some actions_data) st) = Ok request ->
  client_socket (self st) = None ->
  fst (step fuel actions_data st) = Raise AttributeError /\
  os (snd (step fuel actions_data st)) = os st /\
  heap (snd (step fuel actions_data st)) = heap (snd (_format_actions_data actions_data st)).
Proof.
  intros Hreq Hc.
  destruct (self_os_after_create_request actions_data st) as [Hs Ho].
  split; [|split; [|apply heap_after_step]].
  - unfold step, bind.
    destruct (_create_request false false (Some actions_data) st) as [[req| |] st1];
      try discriminate.
    simpl in Hs. unfold client_sendall, bind, get_self. rewrite Hs, Hc. reflexivity.
  - unfold step, bind.
    destruct (_create_request false false (Some actions_data) st) as [[req| |] st1];
      try discriminate.
    simpl in Hs, Ho. unfold client_sendall, bind, get_self. rewrite Hs, Hc. exact Ho.
Qed.

Lemma format_actions_loop_missing (actions_data : list loc) (i : nat) (l : loc)
    (d : list (string * argval)) (count : nat) :
  actions_data !! i = Some l ->
  dict_get d "action" = None ->
  forall (n_agent : nat) (st : state),
    (n_agent <= i < n_agent + count)%nat ->
    heap st !! l = Some d ->
    forallb (has_action (heap st)) (take (i - n_agent) (drop n_agent actions_data)) = true ->
    fst (format_actions_loop count n_agent actions_data st) = Raise KeyError.
Proof.
  intros Hi Hd. induction count as [|count IH]; intros n_agent st Hn Hl Hall; [lia|].
  destruct (decide (n_agent = i)) as [->|Hne].
  - simpl. rewrite Hi, Hl, Hd. reflexivity.
  - assert (Hlt : (n_agent < length actions_data)%nat).
    { apply lookup_lt_Some in Hi. lia. }
    destruct (lookup_lt_is_Some_2 actions_data n_agent Hlt) as [l0 Hl0].
    rewrite (drop_S _ _ _ Hl0) in Hall.
    replace (i - n_agent)%nat with (S (i - S n_agent)) in Hall by lia.
    simpl in Hall. apply andb_true_iff in Hall as [H0 Hrest].
    simpl. rewrite Hl0. unfold has_action in H0.
    destruct (heap st !! l0) as [d0|] eqn:Ed0; [|discriminate].
    destruct (dict_get d0 "action") as [[z|v]|] eqn:Ea; [| |discriminate].
    + assert (Hll : l0 <> l).
      { intros ->. rewrite Hl in Ed0. injection Ed0 as <-. congruence. }
      apply IH; [lia| |].
      * simpl. rewrite lookup_insert_ne by exact Hll. exact Hl.
      * apply forallb_forall. intros x Hx. rewrite forallb_forall in Hrest.
        specialize (Hrest x Hx). unfold has_action in *. simpl.
        destruct (decide (x = l0)) as [->|Hx0].
        -- rewrite lookup_insert_eq, dict_get_set_eq. reflexivity.
        -- rewrite lookup_insert_ne by congruence. exact Hrest.
    + apply IH; [lia|exact Hl|exact Hrest].
Qed.

(** X16: when one of the caller's dictionaries has no [action] entry, and
    those before it have one, [step] raises [KeyError] and nothing is
    sent. *)
Theorem step_missing_action (fuel : nat) (actions_data : list loc) (st : state)
    (i : nat) (l : loc) (d : list (string * argval)) :
  actions_data !! i = Some l ->
  heap st !! l = Some d ->
  dict_get d "action" = None ->
  forallb (has_action (heap st)) (take i actions_data) = true ->
  fst (step fuel actions_data st) = Raise KeyError /\
  os (snd (step fuel actions_data st)) = os st.
Proof.
  intros Hi Hl Hd Hall.
  assert (Hf : fst (format_actions_loop (length actions_data) 0 actions_data st)
               = Raise KeyError).
  { apply (format_actions_loop_missing actions_data i l d _ Hi Hd 0 st); try assumption.
    - apply lookup_lt_Some in Hi. lia.
    - rewrite drop_0, Nat.sub_0_r. exact Hall. }
  assert (Hc : fst (_create_request false false (Some actions_data) st) = Raise KeyError).
  { unfold _create_request, _format_actions_data, bind, ret, get_self. simpl.
    destruct (format_actions_loop (length actions_data) 0 actions_data st)
      as [[[]| |] st1]; simpl in Hf; try discriminate.
    injection Hf as ->. reflexivity. }
  destruct (self_os_after_create_request actions_data st) as [_ Ho].
  unfold step, bind.
  destruct (_create_request false false (Some actions_data) st) as [[req| |] st1];
    try discriminate.
  simpl in Hc, Ho. injection Hc as ->. simpl. auto.
Qed.

Lemma record_metrics_run (env : pyval) (a : pyval) (rest : list pyval)
    (m rg mi : pyval) (st : state) :
  getitem env "states_data" = Ok (PyList (a :: rest)) ->
  getitem a "metrics" = Ok m ->
  getitem m "region" = Ok rg ->
  getitem m "misc" = Ok mi ->
  record_metrics env st =
    (Ok tt,
     {| self := set_metrics
                  {| regions := regions (metrics (self st)) ++ [rg];
                     misc := misc (metrics (self st)) ++ (if truthy mi then [mi] else []) |}
                  (self st);
        os := os st; heap := heap st |}).
Proof.
  intros Hs Hm Hr Hi. unfold record_metrics, bind, lift, get_self, modify_self, ret.
  rewrite Hs. cbn [getitem_int lookup list_lookup]. rewrite Hm, Hr. cbn [self os heap].
  rewrite Hi. destruct (truthy mi).
  - cbn. destruct (self st); reflexivity.
  - cbn. rewrite app_nil_r. destruct (self st); reflexivity.
Qed.

Lemma keeps_step_exchange_metrics (fuel : nat) (actions_data : list loc) :
  keeps metrics_of (step_exchange fuel actions_data).
Proof.
  unfold step_exchange.
  apply keeps_bind; [apply keeps_create_action_request; reflexivity|]. intros req.
  apply keeps_bind; [apply keeps_client_sendall; reflexivity|]. intros _.
  apply keeps_get_environment_state, keeps_client_recv_metrics.
Qed.

(** X17: once the response is in and splits into views, [step] has
    appended the region of the first agent's metrics to the recorded
    regions, and its [misc] entry to the recorded ones when that entry is
    truthy; this holds also when the scaling of the rewards fails
    afterwards. *)
Theorem step_records_metrics (fuel : nat) (actions_data : list loc) (st : state)
    (env a : pyval) (rest : list pyval) (m rg mi : pyval) :
  fst (step_exchange fuel actions_data st) = Ok env ->
  getitem env "states_data" = Ok (PyList (a :: rest)) ->
  forallb has_keys (a :: rest) = true ->
  getitem a "metrics" = Ok m ->
  getitem m "region" = Ok rg ->
  getitem m "misc" = Ok mi ->
  metrics_of (snd (step fuel actions_data st)) =
    {| regions := regions (metrics_of st) ++ [rg];
       misc := misc (metrics_of st) ++ (if truthy mi then [mi] else []) |}.
Proof.
  intros Hex Hs Hk Hm Hr Hi.
  rewrite (step_from_exchange _ _ _ _ Hex).
  pose proof (keeps_step_exchange_metrics fuel actions_data st) as Hkeep.
  set (st1 := snd (step_exchange fuel actions_data st)) in *.
  pose proof (split_loop_is_ok (a :: rest) [] []) as [Hok _].
  rewrite Hk in Hok.
  unfold step_tail. unfold bind at 1. unfold lift at 1. rewrite Hs.
  unfold bind at 1. unfold lift at 1. unfold _split_env_data. cbn [py_iter obind].
  destruct (split_loop (a :: rest) [] []) as [sp| |]; try discriminate.
  rewrite keeps_after.
  - rewrite (record_metrics_run env a rest m rg mi st1 Hs Hm Hr Hi).
    unfold metrics_of in *. cbn. rewrite Hkeep. reflexivity.
  - intros _.
    apply keeps_bind; [apply keeps_lift|]. intros n.
    apply keeps_bind; [apply keeps_lift|]. intros r.
    apply keeps_bind; [apply keeps_lift|]. intros d. apply keeps_ret.
Qed.

End StepMore.

(** ** Launching, resetting and closing *)

Section LifecycleMore.
Context {FL : PyFloat} {RT : Runtime}.

Lemma close_no_connection (st : state) :
  client_socket (self st) = None -> close st = (Raise AttributeError, st).
Proof.
  intros Hc. unfold close. unfold bind at 1. rewrite create_terminate_request.
  unfold bind at 1. unfold client_sendall, bind, get_self. rewrite Hc. reflexivity.
Qed.

Lemma close_run (st : state) (l : listener) (c : conn) (p : process) :
  socket (self st) = Some l ->
  client_socket (self st) = Some c ->
  godot_process (self st) = Some p ->
  close st =
  (Ok tt,
   {| self := set_is_godot_launched false
                (set_client_socket None (set_socket None (self st)));
      os := log (EvWait (p_id p))
              (log (EvClose (l_id l))
                 (log (EvSendall (c_id c)
                         (str_encode (terminate_request_text (is_rendering (self st)))))
                    (os st)));
      heap := heap st |}).
Proof.
  intros Hs Hc Hp. destruct st as [s w h].
  destruct s as [h0 p0 so cs gp ep pr la re sd rg me]. simpl in Hs, Hc, Hp. subst.
  reflexivity.
Qed.

(** X18: [close] on a connected session sends the [Terminate] request on
    the connection, closes the listening socket and waits for the process,
    in that order; both socket handles are cleared and the session is no
    longer launched, while the process handle, the generator, the metrics
    and the caller's dictionaries stay. *)
Theorem close_effect (st : state) (l : listener) (c : conn) (p : process) :
  socket (self st) = Some l ->
  client_socket (self st) = Some c ->
  godot_process (self st) = Some p ->
  fst (close st) = Ok tt /\
  w_trace (os (snd (close st))) =
    w_trace (os st) ++
    [EvSendall (c_id c) (str_encode (terminate_request_text (is_rendering (self st))));
     EvClose (l_id l); EvWait (p_id p)] /\
  socket (self (snd (close st))) = None /\
  client_socket (self (snd (close st))) = None /\
  is_godot_launched (self (snd (close st))) = false /\
  godot_process (self (snd (close st))) = Some p /\
  random_generator (self (snd (close st))) = random_generator (self st) /\
  metrics_of (snd (close st)) = metrics_of st /\
  heap (snd (close st)) = heap st.
Proof.
  intros Hs Hc Hp. rewrite (close_run st l c p Hs Hc Hp).
  destruct st as [s w h]. destruct s as [h0 p0 so cs gp ep pr la re sd rg me].
  simpl in Hs, Hc, Hp. subst. cbn -[str_encode terminate_request_text].
  rewrite <- !app_assoc. repeat split.
Qed.

(** X19: a second [close] after one that succeeded raises
    [AttributeError] and changes nothing. *)
Theorem close_twice_raises (st : state) :
  fst (close st) = Ok tt ->
  close (snd (close st)) = (Raise AttributeError, snd (close st)).
Proof.
  intros Hok. apply close_no_connection.
  destruct (client_socket (self st)) as [c|] eqn:Hc;
    [|rewrite (close_no_connection st Hc) in Hok; discriminate].
  destruct (socket (self st)) as [l|] eqn:Hs.
  - destruct (godot_process (self st)) as [p|] eqn:Hp.
    + rewrite (close_run st l c p Hs Hc Hp). reflexivity.
    + revert Hok. destruct st as [s w h].
      destruct s as [h0 p0 so cs gp ep pr la re sd rg me]. simpl in Hs, Hc, Hp. subst.
      discriminate.
  - revert Hok. destruct st as [s w h].
    destruct s as [h0 p0 so cs gp ep pr la re sd rg me]. simpl in Hs, Hc. subst.
    discriminate.
Qed.

(** X20: [_launch_simulation_if_needed] never fails and leaves the session
    launched; it starts a process only when the session was not launched,
    with the render flag of the session, and calling it again changes
    nothing. *)
Theorem launch_simulation_once (st : state) :
  fst (_launch_simulation_if_needed st) = Ok tt /\
  is_godot_launched (self (snd (_launch_simulation_if_needed st))) = true /\
  _launch_simulation_if_needed (snd (_launch_simulation_if_needed st)) =
    (Ok tt, snd (_launch_simulation_if_needed st)) /\
  w_trace (os (snd (_launch_simulation_if_needed st))) =
    w_trace (os st) ++
    (if is_godot_launched (self st) then []
     else [EvPopen (w_next (os st))
             (launch_command (godot_path_str (self st)) (env_path_str (self st))
                (is_rendering (self st)))]).
Proof.
  destruct st as [s w h]. destruct s as [h0 p0 so cs gp ep pr la re sd rg me].
  destruct la; cbn; rewrite ?app_nil_r; repeat split; reflexivity.
Qed.

Lemma keeps_modify_self {T : Type} (part : state -> T) (f : session -> session) :
  (forall st, part {| self := f (self st); os := os st; heap := heap st |} = part st) ->
  keeps part (modify_self f).
Proof. intros H st. apply H. Qed.

Lemma keeps_emit {T : Type} (part : state -> T) (e : event) :
  (forall st, part {| self := self st; os := log e (os st); heap := heap st |} = part st) ->
  keeps part (emit e).
Proof. intros H st. apply H. Qed.

Lemma keeps_metrics_initialize_socket : keeps metrics_of _initialize_socket.
Proof. intros st. reflexivity. Qed.

Lemma keeps_metrics_socket_bind : keeps metrics_of socket_bind.
Proof.
  intros st. unfold socket_bind. destruct (socket (self st)) as [l|]; [|reflexivity].
  destruct (l_bound l && negb (w_rebind_ok (os st))); reflexivity.
Qed.

Lemma keeps_metrics_socket_accept : keeps metrics_of socket_accept.
Proof.
  intros st. unfold socket_accept. destruct (socket (self st)) as [l|]; [|reflexivity].
  destruct (w_clients (os st)) as [|[inbox eof] later]; reflexivity.
Qed.

Lemma keeps_metrics_wait_for_connection : keeps metrics_of _wait_for_connection.
Proof.
  unfold _wait_for_connection. apply keeps_bind; [apply keeps_get_self|]. intros s.
  destruct (socket s); [|apply keeps_raise].
  apply keeps_bind; [apply keeps_metrics_socket_bind|]. intros _.
  apply keeps_bind; [apply keeps_get_self|]. intros s'.
  destruct (socket s'); [|apply keeps_raise].
  apply keeps_bind; [intros st; reflexivity|]. intros _. apply keeps_metrics_socket_accept.
Qed.

Lemma keeps_metrics_create_request (initialization : bool) :
  keeps metrics_of (_create_request initialization true None) /\
  keeps metrics_of (_create_request true false None).
Proof.
  split.
  - intros st. destruct initialization.
    + unfold _create_request, bind, ret, get_self.
      destruct (randint (random_generator (self st)) 0 1000000) as [n g]. reflexivity.
    + reflexivity.
  - intros st. rewrite create_init_request. reflexivity.
Qed.

Lemma keeps_metrics_close : keeps metrics_of close.
Proof.
  unfold close.
  apply keeps_bind; [apply (keeps_metrics_create_request false)|]. intros req.
  apply keeps_bind; [apply keeps_client_sendall; reflexivity|]. intros _.
  apply keeps_bind.
  { unfold _end_connection. apply keeps_bind; [apply keeps_get_self|]. intros s.
    destruct (socket s); [|apply keeps_raise]. intros st. reflexivity. }
  intros _. apply keeps_bind; [apply keeps_get_self|]. intros s.
  destruct (godot_process s); [|apply keeps_raise]. intros st. reflexivity.
Qed.

Lemma keeps_metrics_change_render (render : bool) :
  keeps metrics_of (_change_render_type_if_needed render).
Proof.
  unfold _change_render_type_if_needed.
  apply keeps_bind; [apply keeps_get_self|]. intros s.
  apply keeps_bind; [|intros _ st; reflexivity].
  destruct (negb (Bool.eqb render (is_rendering s)) && is_godot_launched s);
    [|apply keeps_ret].
  apply keeps_bind.
  { destruct (socket s); [apply keeps_ret|apply keeps_metrics_initialize_socket]. }
  intros _. apply keeps_bind; [apply keeps_metrics_wait_for_connection|]. intros _.
  apply keeps_metrics_close.
Qed.

Lemma keeps_metrics_launch : keeps metrics_of _launch_simulation_if_needed.
Proof.
  intros st. unfold _launch_simulation_if_needed, bind, get_self.
  destruct (negb (is_godot_launched (self st))); reflexivity.
Qed.

Lemma bind_assoc {A B C : Type} (m : M A) (k : A -> M B) (k' : B -> M C) :
  forall st, bind (bind m k) k' st = bind m (fun a => bind (k a) k') st.
Proof. intros st. unfold bind. destruct (m st) as [[a| |] st1]; reflexivity. Qed.

Lemma bind_ext {A B : Type} (m : M A) (k k' : A -> M B) (st : state) :
  (forall a st1, k a st1 = k' a st1) -> bind m k st = bind m k' st.
Proof. intros H. unfold bind. destruct (m st) as [[a| |] st1]; auto. Qed.

Lemma reset_unfold (fuel : nat) (render : bool) (st : state) :
  reset fuel render st =
  bind (reset_head fuel render)
       (fun states_data =>
          modify_self (set_metrics {| regions := []; misc := [] |}) ;;; ret states_data) st.
Proof.
  unfold reset, reset_head.
  rewrite bind_assoc. apply bind_ext. intros _ st1.
  rewrite bind_assoc. apply bind_ext. intros _ st2.
  rewrite bind_assoc. apply bind_ext. intros s st3.
  rewrite bind_assoc. apply bind_ext. intros _ st4.
  rewrite bind_assoc. apply bind_ext. intros req st5.
  rewrite bind_assoc. apply bind_ext. intros _ st6.
  rewrite bind_assoc. reflexivity.
Qed.

Lemma keeps_metrics_reset_head (fuel : nat) (render : bool) :
  keeps metrics_of (reset_head fuel render).
Proof.
  unfold reset_head.
  apply keeps_bind; [apply keeps_metrics_change_render|]. intros _.
  apply keeps_bind; [apply keeps_metrics_launch|]. intros _.
  apply keeps_bind; [apply keeps_get_self|]. intros s.
  apply keeps_bind.
  { destruct (socket s); [apply keeps_ret|].
    apply keeps_bind; [apply keeps_metrics_initialize_socket|]. intros _.
    apply keeps_metrics_wait_for_connection. }
  intros _. apply keeps_bind; [apply (keeps_metrics_create_request false)|]. intros req.
  apply keeps_bind; [apply keeps_client_sendall; reflexivity|]. intros _.
  apply keeps_bind; [apply keeps_get_environment_state, keeps_client_recv_metrics|].
  intros env. apply keeps_lift.
Qed.

(** X21: [reset] empties the recorded metrics exactly when it returns; a
    [reset] that raises or does not end leaves them as they were. *)
Theorem reset_metrics (fuel : nat) (render : bool) (st : state) :
  metrics_of (snd (reset fuel render st)) =
  if is_ok (fst (reset fuel render st)) then {| regions := []; misc := [] |}
  else metrics_of st.
Proof.
  rewrite reset_unfold. pose proof (keeps_metrics_reset_head fuel render st) as Hk.
  unfold bind at 1 3. destruct (reset_head fuel render st) as [[v| |] st1]; simpl in *.
  - reflexivity.
  - exact Hk.
  - exact Hk.
Qed.

Lemma change_render_not_launched (render : bool) (st : state) :
  is_godot_launched (self st) = false ->
  _change_render_type_if_needed render st =
  (Ok tt, {| self := set_is_rendering render (self st); os := os st; heap := heap st |}).
Proof.
  intros Hl. unfold _change_render_type_if_needed, bind, get_self.
  rewrite Hl, andb_false_r. reflexivity.
Qed.

Lemma launch_run (st : state) :
  is_godot_launched (self st) = false ->
  _launch_simulation_if_needed st =
  (Ok tt,
   let command := launch_command (godot_path_str (self st)) (env_path_str (self st))
                    (is_rendering (self st)) in
   {| self := set_is_godot_launched true
                (set_godot_process
                   (Some {| p_id := w_next (os st); p_command := command |}) (self st));
      os := log (EvPopen (w_next (os st)) command) (snd (fresh (os st)));
      heap := heap st |}).
Proof.
  intros Hl. unfold _launch_simulation_if_needed, bind, get_self. rewrite Hl. reflexivity.
Qed.

Lemma connect_run (st : state) (inbox : list bytes) (eof : bool)
    (later : list (list bytes * bool)) :
  w_clients (os st) = (inbox, eof) :: later ->
  (_initialize_socket ;;; _wait_for_connection) st =
  (Ok tt,
   let n := w_next (os st) in
   {| self := set_client_socket (Some {| c_id := S n; c_inbox := inbox; c_eof := eof |})
                (set_socket (Some {| l_id := n; l_bound := true |}) (self st));
      os := {| w_trace := w_trace (os st) ++
                          [EvSocket n; EvBind n (host (self st)) (port (self st));
                           EvListen n; EvAccept n (S n)];
               w_clients := later; w_next := S (S n);
               w_rebind_ok := w_rebind_ok (os st) |};
      heap := heap st |}).
Proof.
  intros Hcl. destruct st as [s w h]. destruct w as [tr cl nx rb]. simpl in Hcl. subst.
  cbn. rewrite <- !app_assoc. reflexivity.
Qed.

(** X22: the first [reset] of a session, with a peer that connects,
    launches the process with the render flag it was given, then creates,
    binds and listens on the socket, accepts the peer and sends it one
    [Init] request with a seed drawn from the generator; the system sees
    nothing else, whatever the peer answers. *)
Theorem reset_first_events (fuel : nat) (render : bool) (st : state)
    (inbox : list bytes) (eof : bool) (later : list (list bytes * bool)) :
  socket (self st) = None ->
  is_godot_launched (self st) = false ->
  w_clients (os st) = (inbox, eof) :: later ->
  w_trace (os (snd (reset fuel render st))) = w_trace (os st) ++ first_reset_events st render /\
  is_rendering (self (snd (reset fuel render st))) = render /\
  is_godot_launched (self (snd (reset fuel render st))) = true /\
  w_clients (os (snd (reset fuel render st))) = later.
Proof.
  intros Hs Hl Hcl.
  set (part := fun st : state =>
         (w_trace (os st), is_rendering (self st), is_godot_launched (self st),
          w_clients (os st))).
  assert (Hpart : part (snd (reset fuel render st)) =
                  (w_trace (os st) ++ first_reset_events st render, render, true, later)).
  { unfold reset.
    rewrite (bind_Ok _ _ _ _ _ (change_render_not_launched render st Hl)).
    erewrite bind_Ok; [|apply launch_run; exact Hl].
    unfold bind at 1. unfold get_self at 1. cbn [fst snd self socket set_is_godot_launched
      set_godot_process set_is_rendering]. rewrite Hs.
    erewrite bind_Ok; [|apply (connect_run _ inbox eof later); exact Hcl].
    rewrite (bind_Ok _ _ _ _ _ (create_init_request _)).
    rewrite keeps_after.
    - unfold part, first_reset_events. cbn -[str_encode init_request_text].
      rewrite <- !app_assoc. reflexivity.
    - intros _. apply keeps_bind.
      + apply keeps_get_environment_state. intros k st0. unfold client_recv, part.
        destruct (client_socket (self st0)) as [c0|]; [|reflexivity].
        destruct (recv c0 k); reflexivity.
      + intros env. apply keeps_bind; [apply keeps_lift|]. intros v.
        apply keeps_bind; [intros st0; reflexivity|]. intros _. apply keeps_ret. }
  unfold part in Hpart. injection Hpart as H1 H2 H3 H4. auto.
Qed.

(** X23: [reset] with the render flag unchanged on a launched and
    connected session starts no process and opens no socket: it sends
    one [Init] request on the open connection and draws one seed. *)
Theorem reset_reuses_connection (fuel : nat) (st : state) (l : listener) (c : conn) :
  socket (self st) = Some l ->
  client_socket (self st) = Some c ->
  is_godot_launched (self st) = true ->
  os (snd (reset fuel (is_rendering (self st)) st)) =
    log (EvSendall (c_id c)
           (str_encode (init_request_text (is_rendering (self st))
                          (fst (randint (random_generator (self st)) 0 1000000)))))
        (os st) /\
  socket (self (snd (reset fuel (is_rendering (self st)) st))) = Some l /\
  godot_process (self (snd (reset fuel (is_rendering (self st)) st))) =
    godot_process (self st) /\
  random_generator (self (snd (reset fuel (is_rendering (self st)) st))) =
    snd (randint (random_generator (self st)) 0 1000000).
Proof.
  intros Hs Hc Hl.
  set (part := fun st : state =>
         (os st, socket (self st), godot_process (self st), random_generator (self st))).
  assert (Hpart : part (snd (reset fuel (is_rendering (self st)) st)) =
    (log (EvSendall (c_id c)
           (str_encode (init_request_text (is_rendering (self st))
                          (fst (randint (random_generator (self st)) 0 1000000)))))
        (os st), Some l, godot_process (self st),
     snd (randint (random_generator (self st)) 0 1000000))).
  { destruct st as [s w h]. destruct s as [h0 p0 so cs gp ep pr la re sd rg me].
    simpl in Hs, Hc, Hl. subst. cbn [self is_rendering os godot_process random_generator].
    unfold reset.
    assert (E1 : forall st0 : state, is_rendering (self st0) = re ->
              _change_render_type_if_needed re st0 =
              (Ok tt, {| self := set_is_rendering re (self st0); os := os st0;
                         heap := heap st0 |})).
    { intros st0 E0. unfold _change_render_type_if_needed, bind, get_self.
      rewrite E0, Bool.eqb_reflx. reflexivity. }
    erewrite bind_Ok; [|apply E1; reflexivity].
    unfold _launch_simulation_if_needed. unfold bind at 1. unfold bind at 1.
    unfold get_self at 1. cbn [self set_is_rendering is_godot_launched negb ret].
    unfold bind at 1. unfold get_self at 1. cbn [self socket set_is_rendering os heap].
    unfold bind at 1. unfold ret at 1. cbv beta iota zeta.
    erewrite bind_Ok; [|apply create_init_request].
    rewrite keeps_after.
    - unfold part. cbn -[str_encode init_request_text]. reflexivity.
    - intros _. apply keeps_bind.
      + apply keeps_get_environment_state. intros k st0. unfold client_recv, part.
        destruct (client_socket (self st0)) as [c0|]; [|reflexivity].
        destruct (recv c0 k); reflexivity.
      + intros env. apply keeps_bind; [apply keeps_lift|]. intros v.
        apply keeps_bind; [intros st0; reflexivity|]. intros _. apply keeps_ret. }
  unfold part in Hpart. injection Hpart as H1 H2 H3 H4. auto.
Qed.

End LifecycleMore.

(** ** Reseeding and reformatting *)

Section SeedsMore.
Context {FL : PyFloat} {RT : Runtime}.

(** X25: [_format_actions_data] is idempotent: run again on the
    dictionaries it has rewritten it returns the same list and changes
    nothing. *)
Theorem format_actions_idempotent (actions_data : list loc) (st : state) :
  forallb (has_action (heap st)) actions_data = true ->
  fst (_format_actions_data actions_data st) = Ok actions_data /\
  _format_actions_data actions_data (snd (_format_actions_data actions_data st)) =
    (Ok actions_data, snd (_format_actions_data actions_data st)).
Proof.
  intros Hall.
  destruct (format_actions_loop_spec actions_data (length actions_data) 0 st
              ltac:(lia) Hall) as (st1 & Hrun1 & Hself1 & Hos1 & Hheap1).
  assert (Hall1 : forallb (has_action (heap st1)) actions_data = true).
  { apply forallb_forall. intros l Hl. rewrite forallb_forall in Hall.
    specialize (Hall l Hl). unfold has_action in *. rewrite Hheap1, drop_0.
    apply list_elem_of_In in Hl. rewrite decide_True by exact Hl.
    destruct (heap st !! l) as [d|]; [|discriminate]. simpl.
    unfold int_action. destruct (dict_get d "action") as [[z|v]|] eqn:E;
      [rewrite dict_get_set_eq|rewrite E|discriminate]; reflexivity. }
  destruct (format_actions_loop_spec actions_data (length actions_data) 0 st1
              ltac:(lia) Hall1) as (st2 & Hrun2 & Hself2 & Hos2 & Hheap2).
  assert (Heq : st2 = st1).
  { destruct st2 as [s2 w2 h2], st1 as [s1 w1 h1]. simpl in *. subst s2 w2.
    f_equal. apply map_eq. intros l. rewrite Hheap2. case_decide as Hin; [|reflexivity].
    rewrite Hheap1. rewrite decide_True by exact Hin.
    destruct (heap st !! l) as [d|]; [|reflexivity]. simpl.
    rewrite int_action_idem. reflexivity. }
  unfold _format_actions_data, bind, ret. rewrite Hrun1. cbn [fst snd].
  rewrite Hrun2, Heq. split; reflexivity.
Qed.

(** X24: [set_seed] with a seed in [[0, 2^32)] forgets what the generator
    has drawn so far: the [Init] requests that follow carry the seeds a
    generator fresh from that seed draws.  With any other seed it raises
    [ValueError] and the generator stays the one it was; the seed of the
    session is overwritten both times.  The connection, the metrics and
    the system are left alone. *)
Theorem set_seed_replays (sd : Z) (k : nat) (st : state) :
  (if (0 <=? sd) && (sd <? 2 ^ 32) then
     fst (set_seed sd st) = Ok tt /\
     init_requests k (snd (set_seed sd st)) =
       map (fun n => Ok (str_encode (init_request_text (is_rendering (self st)) n)))
           (init_seeds k (RandomState_seeded sd))
   else
     fst (set_seed sd st) = Raise ValueError /\
     init_requests k (snd (set_seed sd st)) = init_requests k st) /\
  seed (self (snd (set_seed sd st))) = sd /\
  socket (self (snd (set_seed sd st))) = socket (self st) /\
  client_socket (self (snd (set_seed sd st))) = client_socket (self st) /\
  metrics_of (snd (set_seed sd st)) = metrics_of st /\
  os (snd (set_seed sd st)) = os st.
Proof.
  unfold set_seed, bind, lift, modify_self, RandomState_of_seed.
  destruct ((0 <=? sd) && (sd <? 2 ^ 32)); cbn [fst snd self os].
  - split; [|repeat split]. split; [reflexivity|].
    rewrite init_requests_seeds. reflexivity.
  - split; [|repeat split]. split; [reflexivity|].
    rewrite !init_requests_seeds. reflexivity.
Qed.

End SeedsMore.

(** ** The path helpers *)

Section UtilsProofs.
Import Utils.

Lemma split_no_sep (s : string) :
  split s <> [] /\ Forall (fun w => forall c, In c (list_ascii_of_string w) -> c <> "/"%char) (split s).
Proof.
  induction s as [|c s [IHne IH]]; simpl.
  - split; [discriminate|]. constructor; [|constructor]. intros c [].
  - destruct (Ascii.eqb_spec c "/") as [->|Hc].
    + split; [discriminate|]. constructor; [intros c []|exact IH].
    + destruct (split s) as [|w ws]; [contradiction|].
      split; [discriminate|]. inversion IH as [|? ? Hw Hws]; subst.
      constructor; [|exact Hws]. simpl. intros c' [<-|Hin]; [exact Hc|apply Hw, Hin].
Qed.

Lemma startswith_sep_app (a b : string) :
  a <> EmptyString -> startswith_sep (a +:+ b) = startswith_sep a.
Proof. destruct a; [contradiction|reflexivity]. Qed.

Lemma no_sep_startswith (w : string) :
  (forall c, In c (list_ascii_of_string w) -> c <> "/"%char) -> startswith_sep w = false.
Proof.
  destruct w as [|c w]; [reflexivity|]. simpl. intros H.
  destruct (Ascii.eqb_spec c "/") as [->|Hc]; [|reflexivity].
  exfalso. apply (H "/"%char); [left; reflexivity|reflexivity].
Qed.

Lemma join_step_relative (path b : string) :
  startswith_sep path = false -> startswith_sep b = false ->
  startswith_sep (join_step path b) = false.
Proof.
  intros Hp Hb. unfold join_step. rewrite Hb.
  destruct path as [|c path]; [exact Hb|].
  destruct (String.eqb (String c path) EmptyString || endswith_sep (String c path));
    exact Hp.
Qed.

Lemma fold_join_relative (p : list string) :
  forall a,
    startswith_sep a = false ->
    Forall (fun w => startswith_sep w = false) p ->
    startswith_sep (fold_left join_step p a) = false.
Proof.
  induction p as [|b p IH]; intros a Ha Hp; simpl; [exact Ha|].
  inversion Hp; subst. apply IH; [apply join_step_relative; assumption|assumption].
Qed.

(** X28: without [add_absolute], [get_path] always returns, and what it
    returns never starts with a slash: a leading slash of its argument is
    dropped. *)
Theorem get_path_relative (abspath : string -> string) (string_path : string) :
  exists p, get_path abspath string_path false = inr p /\ startswith_sep p = false.
Proof.
  unfold get_path, join. destruct (split_no_sep string_path) as [Hne Hall].
  destruct (split string_path) as [|a p]; [contradiction|].
  eexists. split; [reflexivity|]. inversion Hall; subst.
  apply fold_join_relative; [apply no_sep_startswith; assumption|].
  eapply Forall_impl; [eassumption|]. intros w Hw. apply no_sep_startswith, Hw.
Qed.

Lemma last_cons_default (l : list string) :
  forall g d d', List.last (g :: l) d = List.last (g :: l) d'.
Proof.
  induction l as [|g' l IH]; intros g d d'; [reflexivity|].
  change (List.last (g' :: l) d = List.last (g' :: l) d'). apply IH.
Qed.

Lemma fold_last_match (files : list string) :
  forall acc,
    fold_left (fun godot_file file_name =>
                 if matches_godot file_name then file_name else godot_file) files acc =
    List.last (List.filter matches_godot files) acc.
Proof.
  induction files as [|f files IH]; intros acc; [reflexivity|].
  cbn [fold_left List.filter]. rewrite IH. destruct (matches_godot f) eqn:E; [|reflexivity].
  destruct (List.filter matches_godot files) as [|g l]; [reflexivity|].
  change (List.last (g :: l) f = List.last (g :: l) acc). apply last_cons_default.
Qed.

Lemma matches_godot_head (f : string) :
  matches_godot f = true -> f <> EmptyString /\ startswith_sep f = false.
Proof.
  destruct f as [|c f]; [discriminate|]. intros H. split; [discriminate|].
  unfold startswith_sep. destruct (Ascii.eqb_spec c "/") as [->|]; [|reflexivity].
  discriminate H.
Qed.

Lemma last_filter_matches (files : list string) (g : string) (l : list string) :
  List.filter matches_godot files = g :: l ->
  matches_godot (List.last (g :: l) EmptyString) = true.
Proof.
  intros E.
  assert (Hin : In (List.last (g :: l) EmptyString) (List.filter matches_godot files)).
  { rewrite E. clear. revert g. induction l as [|g' l IH]; intros g.
    - left. reflexivity.
    - right. apply (IH g'). }
  apply List.filter_In in Hin. apply Hin.
Qed.

Lemma find_godot_run (listdir : string -> option (list string)) (path : list string)
    (dir : string) (files : list string) :
  join path = inr dir ->
  listdir ("/" +:+ dir) = Some files ->
  find_godot listdir path =
    match List.filter matches_godot files with
    | [] => inl AssertionError
    | l => inr (List.last l EmptyString)
    end.
Proof.
  intros Hj Hl. unfold find_godot. rewrite Hj, Hl, fold_last_match.
  destruct (List.filter matches_godot files) as [|g l] eqn:E; [reflexivity|].
  apply last_filter_matches in E. apply matches_godot_head in E as [Hne _].
  destruct (List.last (g :: l) EmptyString); [contradiction|reflexivity].
Qed.

(** X26: [find_godot] returns the last name of the listing whose lowered
    form starts with [godot], and fails its assertion when there is
    none. *)
Theorem find_godot_last_match (listdir : string -> option (list string))
    (path : list string) (dir : string) (files : list string) :
  join path = inr dir ->
  listdir ("/" +:+ dir) = Some files ->
  find_godot listdir path =
    match List.filter matches_godot files with
    | [] => inl AssertionError
    | l => inr (List.last l EmptyString)
    end.
Proof. apply find_godot_run. Qed.

(** X27: [get_godot_path] on a machine with a user [vaill] returns the
    quoted path of the Steam installation without looking further; with a
    user [Hugo] and no [vaill] it lists [/mnt/c/Users/Hugo/Desktop] and
    returns the last engine found there under [mnt/c/Users/Hugo/Desktop/],
    a path without its leading slash; with neither it fails with
    [UnboundLocalError]. *)
Theorem get_godot_path_cases (listdir : string -> option (list string))
    (users : list string) :
  listdir "/mnt/c/Users" = Some users ->
  get_godot_path listdir =
    if existsb (String.eqb "vaill") users then inr steam_path
    else if existsb (String.eqb "Hugo") users then
      match listdir "/mnt/c/Users/Hugo/Desktop" with
      | None => inl FileNotFoundError
      | Some files =>
          match List.filter matches_godot files with
          | [] => inl AssertionError
          | l => inr ("mnt/c/Users/Hugo/Desktop/" +:+ List.last l EmptyString)
          end
      end
    else inl UnboundLocalError.
Proof.
  intros Hu. unfold get_godot_path, get_username. rewrite Hu.
  destruct (existsb (String.eqb "vaill") users); [reflexivity|].
  destruct (existsb (String.eqb "Hugo") users); [|reflexivity].
  change (String.eqb "Hugo" "vaill") with false. cbv iota zeta.
  change (split "mnt/c/Users/" ++ ["Hugo"] ++ split "Desktop")
    with ["mnt"; "c"; "Users"; EmptyString; "Hugo"; "Desktop"].
  destruct (listdir "/mnt/c/Users/Hugo/Desktop") as [files|] eqn:Hd.
  - rewrite (find_godot_run listdir ["mnt"; "c"; "Users"; EmptyString; "Hugo"; "Desktop"]
               "mnt/c/Users/Hugo/Desktop" files eq_refl Hd).
    destruct (List.filter matches_godot files) as [|g l] eqn:E; [reflexivity|].
    apply last_filter_matches in E. apply matches_godot_head in E as [_ Hs].
    set (f := List.last (g :: l) EmptyString) in *.
    change (join (["mnt"; "c"; "Users"; EmptyString; "Hugo"; "Desktop"] ++ [f]))
      with (inr (A := error) (join_step "mnt/c/Users/Hugo/Desktop" f)).
    unfold join_step. rewrite Hs. reflexivity.
  - unfold find_godot.
    change (join ["mnt"; "c"; "Users"; EmptyString; "Hugo"; "Desktop"])
      with (inr (A := error) "mnt/c/Users/Hugo/Desktop").
    cbv beta iota.
    change ("/" +:+ "mnt/c/Users/Hugo/Desktop") with "/mnt/c/Users/Hugo/Desktop".
    rewrite Hd. reflexivity.
Qed.

End UtilsProofs.

(** ** The statements on the sample runtime *)

Import Sample Scenario.

(** The scenario of the package: a reset, then a step whose response
    carries four frames and a reward of 8.0. *)
Example reset_returns_states :
  fst (reset 1 true (fresh [([payload [plane] 1], false)] false)) = Ok (PyList [plane]).
Proof. reflexivity. Qed.

Example step_end_to_end :
  fst (step 1 [7%nat] (connected [payload [plane] 4] false false)) =
  Ok ([PyDict [("name", PyStr "Plane"); ("state", PyList [PyInt 1; PyInt 2])]],
      [PyDict [("name", PyStr "Plane"); ("reward", PyFloatV (QArith_base.Qmake 2 1))]],
      PyBool false, PyInt 4).
Proof. reflexivity. Qed.

(** The constructor on the arguments of the scenario. *)
Example session0_constructed :
  __init__ "127.0.0.1" 4242 "godot" "env.pck" 42 = Ok session0.
Proof. reflexivity. Qed.

(** C1 (counterexample): the bytes of a [Terminate] request are its JSON
    text; no four-byte length followed by that many bytes equals them. *)
Lemma create_request_not_framed :
  fst (_create_request false true None (fresh [] false)) =
    Ok (str_encode (terminate_request_text true)) /\
  forall body : bytes,
    str_encode (terminate_request_text true) <> pack_be32 (Z.of_nat (length body)) ++ body.
Proof.
  split; [reflexivity|].
  intros body Heq.
  assert (Hlen : length body = 58%nat).
  { apply (f_equal length) in Heq. rewrite length_app in Heq.
    change (length (str_encode (terminate_request_text true))) with 62%nat in Heq.
    change (length (pack_be32 (Z.of_nat (length body)))) with 4%nat in Heq.
    lia. }
  rewrite Hlen in Heq. apply (f_equal (take 4)) in Heq.
  lazy in Heq. discriminate Heq.
Qed.

(** An [Init] request of the sample session. *)
Lemma create_request_bare_json_witness :
  fst (_create_request true false None (fresh [] false)) =
    Ok (str_encode (init_request_text true 496027)) /\
  exists text,
    json_dumps_request
      (heap (snd (_create_request true false None (fresh [] false))))
      (request_fields true false (is_rendering (self (fresh [] false)))
         (fst (randint (random_generator (self (fresh [] false))) 0 1000000)) None) = Ok text /\
    str_encode (init_request_text true 496027) = str_encode text /\
    exists rest, str_encode (init_request_text true 496027) = x7b :: rest.
Proof.
  split; [reflexivity|].
  apply (create_request_bare_json true false None (fresh [] false)).
  reflexivity.
Defined.

(** Every byte of a response in a delivery of its own. *)
Lemma receive_bytewise_never_returns_witness :
  client_socket (self (connected (map (fun b => [b]) (payload [plane] 4)) true false)) =
    Some {| c_id := 2; c_inbox := map (fun b => [b]) (payload [plane] 4); c_eof := true |} /\
  fst (_get_environment_state 1000
         (connected (map (fun b => [b]) (payload [plane] 4)) true false)) = Diverge.
Proof.
  split; [reflexivity|].
  apply (receive_bytewise_never_returns 1000 _
           {| c_id := 2; c_inbox := map (fun b => [b]) (payload [plane] 4); c_eof := true |}
           (payload [plane] 4)); reflexivity.
Defined.

(** The same response in one delivery, and cut after its fifth byte. *)
Example receive_whole_payload :
  fst (_get_environment_state 1 (connected [payload [plane] 4] true false)) =
  Ok (response [plane] 4).
Proof. reflexivity. Qed.

Example receive_split_payload :
  fst (_get_environment_state 1000
         (connected [take 5 (payload [plane] 4); drop 5 (payload [plane] 4)] true false)) =
  Raise JSONDecodeError.
Proof. reflexivity. Qed.

(** The loop of the built copy on the same bytewise deliveries. *)
Example build_receive_bytewise :
  fst (build_receive_loop 200 []
         (connected (map (fun b => [b]) (payload [plane] 4)) true false)) =
  Ok (payload [plane] 4).
Proof. reflexivity. Qed.

(** C3 (counterexample): on a stream that closes inside the length, or
    inside the body, [recv_msg] returns [None] and raises nothing; a body
    that is no JSON is returned as it came. *)
Lemma recv_msg_returns_none :
  fst (recv_msg {| c_id := 2; c_inbox := [[x00; x00]]; c_eof := true |}) = Ok None /\
  fst (recv_msg {| c_id := 2; c_inbox := [[x00; x00]]; c_eof := true |})
    <> Raise (PackageError "IncompleteHeader") /\
  fst (recv_msg {| c_id := 2; c_inbox := [[x00; x00; x00; x05; x7b]]; c_eof := true |})
    = Ok None /\
  fst (recv_msg {| c_id := 2; c_inbox := [[x00; x00; x00; x05; x7b]]; c_eof := true |})
    <> Raise (PackageError "TruncatedBody") /\
  fst (recv_msg {| c_id := 2; c_inbox := [[x00; x00; x00; x02; x7b; x5d]]; c_eof := true |})
    = Ok (Some [x7b; x5d]) /\
  fst (recv_msg {| c_id := 2; c_inbox := [[x00; x00; x00; x02; x7b; x5d]]; c_eof := true |})
    <> Raise (PackageError "MalformedPayload").
Proof.
  repeat split; try reflexivity;
    match goal with |- ?x <> _ => let v := eval lazy in x in change x with v end;
    discriminate.
Qed.

(** C4 (counterexample): a response of one frame whose agent carries no
    metrics makes [step] raise [KeyError]. *)
Lemma step_without_metrics_raises :
  fst (step_exchange 1 [7%nat] (connected [payload [agent "Plane" (PyInt 8) false] 1] false false))
    = Ok (response [agent "Plane" (PyInt 8) false] 1) /\
  getitem (response [agent "Plane" (PyInt 8) false] 1) "n_frames" = Ok (PyInt 1) /\
  fst (step 1 [7%nat] (connected [payload [agent "Plane" (PyInt 8) false] 1] false false))
    = Raise KeyError.
Proof. repeat split; reflexivity. Qed.

(** A reward beyond the range of a float, over one frame: the division
    raises. *)
Example step_reward_overflow :
  fst (step 1 [7%nat]
         (connected [payload [agent "Plane" (PyInt (10 ^ 309)) true] 1] false false))
    = Raise OverflowError.
Proof. reflexivity. Qed.

(** Three agents over four frames. *)
Lemma step_scales_rewards_witness :
  fst (step_exchange 1 [7%nat] (connected [payload abc 4] false false)) = Ok (response abc 4) /\
  getitem (response abc 4) "states_data" = Ok (PyList abc) /\
  getitem (response abc 4) "n_frames" = Ok (PyInt 4) /\
  1 <= 4 /\
  getitem (response abc 4) "done" = Ok (PyBool false) /\
  forallb well_formed_agent abc = true /\
  forallb (reward_fits 4) abc = true /\
  first_carries_metrics abc = true /\
  exists states rewards,
    fst (step 1 [7%nat] (connected [payload abc 4] false false)) =
      Ok (states, rewards, PyBool false, PyInt 4) /\
    Forall2 (scaled_reward (PyInt 4)) abc rewards.
Proof.
  assert (H1 : fst (step_exchange 1 [7%nat] (connected [payload abc 4] false false))
               = Ok (response abc 4)) by reflexivity.
  assert (H2 : getitem (response abc 4) "states_data" = Ok (PyList abc)) by reflexivity.
  assert (H3 : getitem (response abc 4) "n_frames" = Ok (PyInt 4)) by reflexivity.
  assert (H4 : 1 <= 4) by lia.
  assert (H5 : getitem (response abc 4) "done" = Ok (PyBool false)) by reflexivity.
  assert (H6 : forallb well_formed_agent abc = true) by reflexivity.
  assert (H6' : forallb (reward_fits 4) abc = true) by reflexivity.
  assert (H7 : first_carries_metrics abc = true) by reflexivity.
  repeat (split; [assumption|]).
  exact (step_scales_rewards 1 [7%nat] _ _ _ 4 _ H1 H2 H3 H4 H5 H6 H6' H7).
Defined.

(** C5 (counterexample): on a response of zero frames [step] raises
    [ZeroDivisionError], which is no error class of the package. *)
Lemma step_zero_frames_not_protocol_violation :
  fst (step_exchange 1 [7%nat] (connected [payload [plane] 0] false false))
    = Ok (response [plane] 0) /\
  getitem (response [plane] 0) "n_frames" = Ok (PyInt 0) /\
  fst (step 1 [7%nat] (connected [payload [plane] 0] false false))
    = Raise ZeroDivisionError /\
  fst (step 1 [7%nat] (connected [payload [plane] 0] false false))
    <> Raise (PackageError "ProtocolViolation").
Proof.
  repeat split; try reflexivity.
  change (fst (step 1 [7%nat] (connected [payload [plane] 0] false false)))
    with (@Raise (list pyval * list pyval * pyval * pyval) ZeroDivisionError).
  discriminate.
Qed.

(** Three agents over zero frames. *)
Lemma step_zero_frames_witness :
  fst (step_exchange 1 [7%nat] (connected [payload abc 0] false false)) = Ok (response abc 0) /\
  getitem (response abc 0) "states_data" = Ok (PyList abc) /\
  getitem (response abc 0) "n_frames" = Ok (PyInt 0) /\
  forallb well_formed_agent abc = true /\
  first_carries_metrics abc = true /\
  fst (step 1 [7%nat] (connected [payload abc 0] false false)) = Raise ZeroDivisionError /\
  exists a rest rw,
    abc = a :: rest /\ getitem a "reward" = Ok rw /\
    py_truediv rw (PyInt 0) = Raise ZeroDivisionError.
Proof.
  assert (H1 : fst (step_exchange 1 [7%nat] (connected [payload abc 0] false false))
               = Ok (response abc 0)) by reflexivity.
  assert (H2 : getitem (response abc 0) "states_data" = Ok (PyList abc)) by reflexivity.
  assert (H3 : getitem (response abc 0) "n_frames" = Ok (PyInt 0)) by reflexivity.
  assert (H6 : forallb well_formed_agent abc = true) by reflexivity.
  assert (H7 : first_carries_metrics abc = true) by reflexivity.
  repeat (split; [assumption|]).
  exact (step_zero_frames 1 [7%nat] _ _ _ H1 H2 H3 H6 H7).
Defined.

(** Three agents, in the order A, B, C. *)
Lemma step_preserves_agent_order_witness :
  fst (step_exchange 1 [7%nat] (connected [payload abc 4] false false)) = Ok (response abc 4) /\
  getitem (response abc 4) "states_data" = Ok (PyList abc) /\
  fst (step 1 [7%nat] (connected [payload abc 4] false false)) =
    Ok (abc_states, abc_rewards, PyBool false, PyInt 4) /\
  map name_of abc_states = map name_of abc /\
  map name_of abc_rewards = map name_of abc /\
  forallb (fun a => is_ok (name_of a)) abc = true.
Proof.
  assert (H1 : fst (step_exchange 1 [7%nat] (connected [payload abc 4] false false))
               = Ok (response abc 4)) by reflexivity.
  assert (H2 : getitem (response abc 4) "states_data" = Ok (PyList abc)) by reflexivity.
  assert (H3 : fst (step 1 [7%nat] (connected [payload abc 4] false false)) =
               Ok (abc_states, abc_rewards, PyBool false, PyInt 4))
    by reflexivity.
  repeat (split; [assumption|]).
  exact (step_preserves_agent_order 1 [7%nat] _ _ _ _ _ _ _ H1 H2 H3).
Defined.

(** A second reset, with the other render flag, after a first one. *)
Lemma render_change_rebinds_witness :
  socket (self after_reset) = Some {| l_id := 1; l_bound := true |} /\
  client_socket (self after_reset) = Some {| c_id := 2; c_inbox := []; c_eof := false |} /\
  godot_process (self after_reset) =
    Some {| p_id := 0; p_command := "godot --main-pack env.pck" |} /\
  is_godot_launched (self after_reset) = true /\
  is_rendering (self after_reset) = negb false /\
  reset 1 false after_reset = (Raise OSError, after_reset).
Proof.
  assert (H1 : socket (self after_reset) = Some {| l_id := 1; l_bound := true |})
    by reflexivity.
  assert (H2 : client_socket (self after_reset)
               = Some {| c_id := 2; c_inbox := []; c_eof := false |})
    by reflexivity.
  assert (H3 : godot_process (self after_reset)
               = Some {| p_id := 0; p_command := "godot --main-pack env.pck" |})
    by reflexivity.
  assert (H4 : is_godot_launched (self after_reset) = true) by reflexivity.
  assert (H5 : is_rendering (self after_reset) = negb false) by reflexivity.
  repeat (split; [assumption|]).
  pose proof (render_change_rebinds 1 false after_reset _ _ _ H1 eq_refl H2
                ltac:(change (2 < 3)%nat; lia) H3 H4 H5) as H.
  assert (Hre : w_rebind_ok (os after_reset) = false) by reflexivity.
  rewrite Hre in H. exact H.
Defined.

(** The same on a system that binds twice, with a second peer waiting. *)
Example render_change_second_peer :
  fst (_change_render_type_if_needed false after_reset_lenient) = Ok tt /\
  w_trace (os (snd (_change_render_type_if_needed false after_reset_lenient))) =
    w_trace (os after_reset_lenient) ++
    [EvBind 1 "127.0.0.1" 4242; EvListen 1; EvAccept 1 3;
     EvSendall 3 (str_encode (terminate_request_text true)); EvClose 1; EvWait 0].
Proof. split; reflexivity. Qed.

(** C8 (counterexample): on a session that never opened a socket,
    [_end_connection] raises. *)
Lemma end_connection_closed_raises :
  socket (self (fresh [] false)) = None /\
  fst (_end_connection (fresh [] false)) = Raise AttributeError /\
  fst (_end_connection (fresh [] false)) <> Ok tt.
Proof.
  repeat split; try reflexivity.
  change (fst (_end_connection (fresh [] false))) with (@Raise unit AttributeError).
  discriminate.
Qed.

(** C9 (counterexample): the constructor takes the seed it is given, here
    one outside [[0, 10^5)], and the first [10^6 + 1] Init seeds of that
    session are not all different. *)
Lemma session_seed_not_bounded :
  exists s : session,
    __init__ "127.0.0.1" 4242 "godot" "env.pck" 123456 = Ok s /\
    seed s = 123456 /\
    ~ (0 <= seed s < 100000) /\
    ~ NoDup (init_seeds (S (Z.to_nat 1000000)) (random_generator s)).
Proof.
  eexists. split; [reflexivity|]. split; [reflexivity|]. split.
  - cbn [seed]. lia.
  - apply init_seeds_repeat; [exact lcg_in_range|]. lia.
Qed.

(** A seed that NumPy refuses: no session is constructed. *)
Example session_seed_refused :
  __init__ "127.0.0.1" 4242 "godot" "env.pck" (2 ^ 32) = Raise ValueError /\
  __init__ "127.0.0.1" 4242 "godot" "env.pck" (-1) = Raise ValueError.
Proof. split; reflexivity. Qed.

(** Two sessions seeded with 42. *)
Lemma init_seeds_bounded_deterministic_witness :
  @randint_in_range q_float runtime /\
  random_generator (self (fresh [] false)) = RandomState_seeded 42 /\
  random_generator (self (connected [] false false)) = RandomState_seeded 42 /\
  is_rendering (self (fresh [] false)) = is_rendering (self (connected [] false false)) /\
  init_requests 3 (fresh [] false) = init_requests 3 (connected [] false false) /\
  init_seeds 3 (RandomState_seeded 42) = [496027; 302264; 676753].
Proof.
  pose proof (init_seeds_bounded_deterministic 3 (fresh [] false) (connected [] false false) 42
                lcg_in_range eq_refl eq_refl eq_refl) as H.
  cbn zeta in H.
  split; [exact lcg_in_range|]. do 3 (split; [reflexivity|]).
  split; [exact (proj1 (proj2 H))|reflexivity].
Defined.

(** The same dictionary listed twice. *)
Lemma format_actions_in_place_witness :
  forallb (has_action (heap (connected [payload [plane] 4] false false))) [7%nat; 7%nat] = true /\
  exists st',
    _format_actions_data [7%nat; 7%nat] (connected [payload [plane] 4] false false)
      = (Ok [7%nat; 7%nat], st') /\
    heap st' !! 7%nat = Some [("name", Plain (PyStr "Plane")); ("action", Plain (PyInt 2))] /\
    heap (snd (step 1 [7%nat; 7%nat] (connected [payload [plane] 4] false false))) = heap st'.
Proof.
  split; [reflexivity|].
  destruct (format_actions_in_place 1 [7%nat; 7%nat]
              (connected [payload [plane] 4] false false) eq_refl)
    as (st' & Hrun & _ & _ & Hheap & _ & _ & Hstep).
  exists st'. split; [exact Hrun|]. split; [|exact Hstep].
  rewrite Hheap. reflexivity.
Defined.

(** ** Further scenarios *)

(** Three bytes, cut after the second and after the first. *)
Lemma recvall_any_chunking_witness :
  fst (recvall {| c_id := 2; c_inbox := [[x01; x02]; [x03]]; c_eof := false |} 2) =
  fst (recvall {| c_id := 2; c_inbox := [[x01]; [x02; x03]]; c_eof := false |} 2).
Proof.
  exact (proj1 (recvall_any_chunking
                  {| c_id := 2; c_inbox := [[x01; x02]; [x03]]; c_eof := false |}
                  {| c_id := 2; c_inbox := [[x01]; [x02; x03]]; c_eof := false |}
                  2 eq_refl eq_refl)).
Defined.

(** A frame of two bytes cut inside its length prefix, with one byte
    behind it. *)
Lemma recv_msg_round_trip_witness :
  fst (recv_msg {| c_id := 2;
                   c_inbox := [[x00; x00; x00]; [x02; x68; x69; x09]];
                   c_eof := false |}) = Ok (Some [x68; x69]) /\
  concat (c_inbox (snd (recv_msg {| c_id := 2;
                                    c_inbox := [[x00; x00; x00]; [x02; x68; x69; x09]];
                                    c_eof := false |}))) = [x09].
Proof.
  apply (recv_msg_round_trip
           {| c_id := 2; c_inbox := [[x00; x00; x00]; [x02; x68; x69; x09]];
              c_eof := false |}
           [x68; x69] [x09]).
  - simpl. lia.
  - reflexivity.
Defined.

(** Two frames in one delivery. *)
Lemma recv_msgs_in_order_witness :
  fst (recv_msgs 2 {| c_id := 2;
                      c_inbox := [frame [x68] ++ frame [x69; x6a]];
                      c_eof := true |}) =
  [Ok (Some [x68]); Ok (Some [x69; x6a])].
Proof.
  refine (proj1 (recv_msgs_in_order [[x68]; [x69; x6a]]
                   {| c_id := 2; c_inbox := [frame [x68] ++ frame [x69; x6a]];
                      c_eof := true |} [] _ _)).
  - repeat constructor.
  - reflexivity.
Defined.

(** One byte, then a delivery that fills the buffer, then silence. *)
Lemma receive_full_buffers_never_end_witness :
  fst (_get_environment_state 1000
         (connected [[x7b]; repeat x20 4096] true false)) = Diverge.
Proof.
  refine (proj2 (receive_full_buffers_never_end 1000
                   (connected [[x7b]; repeat x20 4096] true false)
                   {| c_id := 2; c_inbox := [[x7b]; repeat x20 4096]; c_eof := true |}
                   eq_refl _)).
  constructor; [left; simpl; lia|].
  constructor; [right; reflexivity|constructor].
Defined.

(** A full buffer and six more bytes. *)
Lemma receive_full_buffers_then_tail_witness :
  fst (_wait_and_receive_states_data 2
         (connected [repeat x20 4096; str_encode "hello!"; [x21]] false false)) =
  match bytes_decode (repeat x20 4096 ++ str_encode "hello!") with
  | Some states_data => Ok states_data
  | None => Raise UnicodeDecodeError
  end.
Proof.
  pose proof (receive_full_buffers_then_tail 0
                (connected [repeat x20 4096; str_encode "hello!"; [x21]] false false)
                {| c_id := 2;
                   c_inbox := [repeat x20 4096; str_encode "hello!"; [x21]];
                   c_eof := false |}
                [repeat x20 4096] (str_encode "hello!") [[x21]]
                eq_refl eq_refl
                ltac:(constructor; [reflexivity|constructor])
                ltac:(simpl; lia)) as H.
  change (S (length [repeat x20 4096] + 0)) with 2%nat in H.
  rewrite H. cbn [fst concat]. rewrite app_nil_r. reflexivity.
Defined.

(** Two characters, then a text of six. *)
Lemma legacy_receive_one_delivery_witness :
  fst (legacy_receive_loop 2
         (connected [str_encode "hi"; str_encode "hello!"; [x21]] false false)) =
  Ok "hello!".
Proof.
  pose proof (legacy_receive_one_delivery [str_encode "hi"] 0
                (connected [str_encode "hi"; str_encode "hello!"; [x21]] false false)
                {| c_id := 2;
                   c_inbox := [str_encode "hi"; str_encode "hello!"; [x21]];
                   c_eof := false |}
                (str_encode "hello!") [[x21]] "hello!"
                eq_refl eq_refl
                ltac:(constructor;
                      [split; [simpl; lia|exists "hi"; split; [reflexivity|simpl; lia]]
                      |constructor])
                ltac:(simpl; lia) eq_refl ltac:(simpl; lia)) as H.
  change (S (length [str_encode "hi"] + 0)) with 2%nat in H.
  rewrite H. reflexivity.
Defined.

(** An empty object, one byte at a time. *)
Lemma build_receive_any_chunks_witness :
  fst (build_receive_loop 3 []
         (connected [[x7b]; [x7d]] false false)) = Ok [x7b; x7d].
Proof.
  apply (build_receive_any_chunks [x7b; x7d] (connected [[x7b]; [x7d]] false false)
           {| c_id := 2; c_inbox := [[x7b]; [x7d]]; c_eof := false |}).
  - reflexivity.
  - reflexivity.
  - discriminate.
  - reflexivity.
  - intros k Hk. destruct k as [|[|k]]; [reflexivity|reflexivity|simpl in Hk; lia].
Defined.

(** The response of the scenario. *)
Lemma format_states_identity_witness :
  _format_states_data (json_dumps (response [plane] 4)) = Ok (response [plane] 4).
Proof.
  apply (format_states_identity (json_dumps (response [plane] 4))
           [("states_data", PyList [plane]); ("n_frames", PyInt 4); ("done", PyBool false)]
           [plane]); reflexivity.
Defined.

(** One agent whose state came as the text of a list. *)
Lemma format_states_parses_strings_witness :
  exists agents',
    PyDict [("states_data",
             PyList [PyDict [("name", PyStr "A"); ("state", PyList [PyInt 1; PyInt 2])]]);
            ("done", PyBool false)]
    = PyDict (dict_set [("states_data",
                         PyList [PyDict [("name", PyStr "A"); ("state", PyStr "[1, 2]")]]);
                        ("done", PyBool false)]
                "states_data" (PyList agents')) /\
    Forall2 formatted [PyDict [("name", PyStr "A"); ("state", PyStr "[1, 2]")]] agents'.
Proof.
  destruct (format_states_parses_strings (RT := runtime)
              (json_dumps
                 (PyDict [("states_data",
                           PyList [PyDict [("name", PyStr "A"); ("state", PyStr "[1, 2]")]]);
                          ("done", PyBool false)]))
              [("states_data",
                PyList [PyDict [("name", PyStr "A"); ("state", PyStr "[1, 2]")]]);
               ("done", PyBool false)]
              [PyDict [("name", PyStr "A"); ("state", PyStr "[1, 2]")]]
              (PyDict [("states_data",
                        PyList [PyDict [("name", PyStr "A");
                                        ("state", PyList [PyInt 1; PyInt 2])]]);
                       ("done", PyBool false)])
              ltac:(reflexivity) ltac:(reflexivity) ltac:(reflexivity))
    as (agents' & He & Hf & _).
  exists agents'. split; [exact He|exact Hf].
Defined.

(** A second agent whose state is no literal. *)
Lemma format_states_bad_literal_witness :
  _format_states_data
    (json_dumps
       (PyDict [("states_data",
                 PyList [PyDict [("name", PyStr "A"); ("state", PyList [PyInt 1])];
                         PyDict [("name", PyStr "B"); ("state", PyStr "[1,")]])]))
  = Raise ValueError.
Proof.
  apply (format_states_bad_literal _
           [("states_data",
             PyList [PyDict [("name", PyStr "A"); ("state", PyList [PyInt 1])];
                     PyDict [("name", PyStr "B"); ("state", PyStr "[1,")]])]
           [PyDict [("name", PyStr "A"); ("state", PyList [PyInt 1])]] []
           [("name", PyStr "B"); ("state", PyStr "[1,")] "[1,"); reflexivity.
Defined.

(** The three agents of the scenario. *)
Lemma split_views_shape_witness :
  length abc_states = length abc /\
  length [PyDict [("name", PyStr "A"); ("reward", PyInt 3)];
          PyDict [("name", PyStr "B"); ("reward", PyInt 4)];
          PyDict [("name", PyStr "C"); ("reward", PyInt 5)]] = length abc.
Proof.
  destruct (split_views_shape abc abc_states
              [PyDict [("name", PyStr "A"); ("reward", PyInt 3)];
               PyDict [("name", PyStr "B"); ("reward", PyInt 4)];
               PyDict [("name", PyStr "C"); ("reward", PyInt 5)]]
              eq_refl) as (H1 & H2 & _).
  split; [exact H1|exact H2].
Defined.

(** A step whose response is cut after its fifth byte. *)
Lemma step_sends_once_witness :
  os (snd (step 1000 [7%nat]
             (connected [take 5 (payload [plane] 4); drop 5 (payload [plane] 4)] true false)))
  = log (EvSendall 2 plane_request)
        (os (connected [take 5 (payload [plane] 4); drop 5 (payload [plane] 4)] true false)).
Proof.
  apply (step_sends_once 1000 [7%nat] _ plane_request
           {| c_id := 2;
              c_inbox := [take 5 (payload [plane] 4); drop 5 (payload [plane] 4)];
              c_eof := true |}); reflexivity.
Defined.

(** A step before any reset. *)
Lemma step_without_connection_witness :
  fst (step 1 [7%nat] (fresh [] false)) = Raise AttributeError /\
  os (snd (step 1 [7%nat] (fresh [] false))) = os (fresh [] false) /\
  heap (snd (step 1 [7%nat] (fresh [] false))) !! 7%nat =
    Some [("name", Plain (PyStr "Plane")); ("action", Plain (PyInt 2))].
Proof.
  destruct (step_without_connection 1 [7%nat] (fresh [] false) plane_request
              eq_refl eq_refl) as (H1 & H2 & H3).
  split; [exact H1|]. split; [exact H2|]. rewrite H3. reflexivity.
Defined.

Lemma step_missing_action_witness :
  fst (step 1 [7%nat; 8%nat] two_dicts) = Raise KeyError /\
  os (snd (step 1 [7%nat; 8%nat] two_dicts)) = os two_dicts.
Proof.
  apply (step_missing_action 1 [7%nat; 8%nat] two_dicts 1 8%nat
           [("name", Plain (PyStr "B"))]); reflexivity.
Defined.

(** The three agents over zero frames: the scaling fails, the metrics are
    recorded. *)
Lemma step_records_metrics_witness :
  fst (step 1 [7%nat] (connected [payload abc 0] false false)) = Raise ZeroDivisionError /\
  metrics_of (snd (step 1 [7%nat] (connected [payload abc 0] false false))) =
    {| regions := [PyInt 3]; misc := [PyStr "x"] |}.
Proof.
  split; [reflexivity|].
  apply (step_records_metrics 1 [7%nat] (connected [payload abc 0] false false)
           (response abc 0) (agent "A" (PyInt 3) true)
           [agent "B" (PyInt 4) false; agent "C" (PyInt 5) false]
           (PyDict [("region", PyInt 3); ("misc", PyStr "x")]) (PyInt 3) (PyStr "x"));
    reflexivity.
Defined.

(** Closing the session of the scenario. *)
Lemma close_effect_witness :
  w_trace (os (snd (close (connected [] false false)))) =
    [EvSendall 2 (str_encode (terminate_request_text true)); EvClose 1; EvWait 0] /\
  godot_process (self (snd (close (connected [] false false)))) =
    Some {| p_id := 0; p_command := "godot --main-pack env.pck" |}.
Proof.
  destruct (close_effect (connected [] false false)
              {| l_id := 1; l_bound := true |}
              {| c_id := 2; c_inbox := []; c_eof := false |}
              {| p_id := 0; p_command := "godot --main-pack env.pck" |}
              eq_refl eq_refl eq_refl) as (_ & H2 & _ & _ & _ & H6 & _).
  split; [exact H2|exact H6].
Defined.

Lemma close_twice_raises_witness :
  fst (close (snd (close (connected [] false false)))) = Raise AttributeError.
Proof.
  rewrite (close_twice_raises (connected [] false false) eq_refl). reflexivity.
Defined.

(** The first reset of the scenario, without rendering. *)
Lemma reset_first_events_witness :
  w_trace (os (snd (reset 1 false (fresh [([payload [plane] 1], false)] false)))) =
    [EvPopen 0 "godot --main-pack env.pck --disable-render-loop --no-window";
     EvSocket 1; EvBind 1 "127.0.0.1" 4242; EvListen 1; EvAccept 1 2;
     EvSendall 2 (str_encode (init_request_text false 496027))].
Proof.
  destruct (reset_first_events 1 false (fresh [([payload [plane] 1], false)] false)
              [payload [plane] 1] false [] eq_refl eq_refl eq_refl) as (H & _).
  rewrite H. reflexivity.
Defined.

(** A second reset with the same flag. *)
Lemma reset_reuses_connection_witness :
  w_trace (os (snd (reset 1 true (connected [payload [plane] 1] false false)))) =
    [EvSendall 2 (str_encode (init_request_text true 496027))] /\
  socket (self (snd (reset 1 true (connected [payload [plane] 1] false false)))) =
    Some {| l_id := 1; l_bound := true |}.
Proof.
  destruct (reset_reuses_connection 1 (connected [payload [plane] 1] false false)
              {| l_id := 1; l_bound := true |}
              {| c_id := 2; c_inbox := [payload [plane] 1]; c_eof := false |}
              eq_refl eq_refl eq_refl) as (H1 & H2 & _).
  change (is_rendering (self (connected [payload [plane] 1] false false))) with true in *.
  split; [rewrite H1; reflexivity|exact H2].
Defined.

(** The dictionary of the scenario, listed twice. *)
Lemma format_actions_idempotent_witness :
  _format_actions_data [7%nat; 7%nat]
    (snd (_format_actions_data [7%nat; 7%nat] (connected [] false false))) =
  (Ok [7%nat; 7%nat],
   snd (_format_actions_data [7%nat; 7%nat] (connected [] false false))).
Proof.
  exact (proj2 (format_actions_idempotent [7%nat; 7%nat] (connected [] false false)
                  eq_refl)).
Defined.

Lemma find_godot_last_match_witness :
  Utils.find_godot hugo_machine ["mnt"; "c"; "Users"; EmptyString; "Hugo"; "Desktop"] =
  inr "godot_old.exe".
Proof.
  rewrite (find_godot_last_match hugo_machine
             ["mnt"; "c"; "Users"; EmptyString; "Hugo"; "Desktop"]
             "mnt/c/Users/Hugo/Desktop"
             ["notes.txt"; "Godot_v3.2.3-stable_win64.exe"; "game.pck"; "godot_old.exe";
              "readme.md"] eq_refl eq_refl).
  reflexivity.
Defined.

Lemma get_godot_path_cases_witness :
  Utils.get_godot_path hugo_machine = inr "mnt/c/Users/Hugo/Desktop/godot_old.exe".
Proof.
  rewrite (get_godot_path_cases hugo_machine ["Public"; "Hugo"] eq_refl). reflexivity.
Defined.

(** A seed that NumPy refuses: the session keeps its generator. *)
Example set_seed_refused :
  fst (set_seed (2 ^ 32) (fresh [] false)) = Raise ValueError /\
  seed (self (snd (set_seed (2 ^ 32) (fresh [] false)))) = 2 ^ 32 /\
  random_generator (self (snd (set_seed (2 ^ 32) (fresh [] false)))) = RandomState_seeded 42.
Proof. repeat split; reflexivity. Qed.
